(** * Verification of the exptrack-frontend client logic

    Shallow embedding of the parts of the Angular client that normalise
    backend payloads (TransactionService), export reports (ReportsComponent),
    format money (SettingsService) and track budgets (TransactionsComponent). *)

From Stdlib Require Import String Ascii List Bool ZArith Lia Floats.
Import ListNotations.
Open Scope string_scope.
Set Warnings "-register-all".

(** ** JavaScript values as the backend JSON delivers them *)

(** JS numbers are IEEE-754 binary64 values: the kernel's primitive floats. *)
Definition jsnum := float.

Inductive jsval :=
| JUndefined
| JNull
| JBool (b : bool)
| JNumber (n : jsnum)
| JString (s : string)
| JArray (xs : list jsval)
| JObject (fields : list (string * jsval)).

Inductive js_error :=
| TypeError (msg : string)
| RangeError (msg : string)
| Error (msg : string).

(** A computation that returns a value or throws. *)
Inductive result (A : Type) :=
| Ok (a : A)
| Throw (e : js_error).
Arguments Ok {A} a.
Arguments Throw {A} e.

Definition bind {A B} (r : result A) (k : A -> result B) : result B :=
  match r with
  | Ok a => k a
  | Throw e => Throw e
  end.
Notation "x <- r ;; k" := (bind r (fun x => k)) (at level 61, r at next level, right associativity).

Fixpoint mapM {A B} (f : A -> result B) (xs : list A) : result (list B) :=
  match xs with
  | [] => Ok []
  | x :: xs' => y <- f x ;; ys <- mapM f xs' ;; Ok (y :: ys)
  end.

(** ToBoolean on numbers: NaN, +0 and -0 are falsy. *)
Definition num_truthy (n : jsnum) : bool :=
  negb (PrimFloat.is_nan n) && negb (PrimFloat.eqb n 0%float).

(** ToBoolean *)
Definition truthy (v : jsval) : bool :=
  match v with
  | JUndefined | JNull => false
  | JBool b => b
  | JNumber n => num_truthy n
  | JString s => negb (String.eqb s "")
  | JArray _ | JObject _ => true
  end.

Fixpoint assoc (k : string) (fs : list (string * jsval)) : option jsval :=
  match fs with
  | [] => None
  | (k', v) :: fs' => if String.eqb k k' then Some v else assoc k fs'
  end.

(** Property read [v.k]: throws on null and undefined, [undefined] when the
    property is absent.  JSON primitives and arrays carry none of the fields
    read below. *)
Definition get (v : jsval) (k : string) : result jsval :=
  match v with
  | JUndefined => Throw (TypeError ("Cannot read properties of undefined (reading '" ++ k ++ "')"))
  | JNull => Throw (TypeError ("Cannot read properties of null (reading '" ++ k ++ "')"))
  | JObject fs => Ok (match assoc k fs with Some x => x | None => JUndefined end)
  | _ => Ok JUndefined
  end.

(** Case mapping of String.prototype.toLowerCase on ASCII letters; other
    bytes are kept.  The words compared after lowercasing below ('expense',
    'revenue', 'up', 'down', 'stable') are ASCII, and the only characters
    outside ASCII whose lowercase form is an ASCII letter are the Kelvin sign
    (to 'k') and the dotted capital I (to 'i' and a combining dot), neither
    of which can complete one of these words. *)
Definition ascii_lower (c : ascii) : ascii :=
  let n := nat_of_ascii c in
  if ((65 <=? n) && (n <=? 90))%nat then ascii_of_nat (n + 32)%nat else c.

Fixpoint toLowerCase (s : string) : string :=
  match s with
  | EmptyString => EmptyString
  | String c s' => String (ascii_lower c) (toLowerCase s')
  end.

Definition byte_string (ns : list nat) : string :=
  string_of_list_ascii (map ascii_of_nat ns).

(** The code points String.prototype.trim removes (WhiteSpace and
    LineTerminator), as the UTF-8 byte sequences of the string: TAB, LF, VT,
    FF, CR, SPACE, U+00A0, U+1680, U+2000 to U+200A, U+2028, U+2029, U+202F,
    U+205F, U+3000 and U+FEFF. *)
Definition ws_sequences : list string :=
  (map (fun n => byte_string [n]) [9; 10; 11; 12; 13; 32]
  ++ [byte_string [194; 160]; byte_string [225; 154; 128]]
  ++ map (fun n => byte_string [226; 128; n]) [128; 129; 130; 131; 132; 133; 134; 135; 136; 137; 138]
  ++ [byte_string [226; 128; 168]; byte_string [226; 128; 169]; byte_string [226; 128; 175];
      byte_string [226; 129; 159]; byte_string [227; 128; 128]; byte_string [239; 187; 191]])%list.

Fixpoint rev_string (s : string) (acc : string) : string :=
  match s with
  | EmptyString => acc
  | String c s' => rev_string s' (String c acc)
  end.

(** The rest of [s] after one of [seqs] that starts it. *)
Fixpoint drop_one_of (seqs : list string) (s : string) : option string :=
  match seqs with
  | [] => None
  | w :: seqs' =>
      if String.prefix w s then Some (substring (String.length w) (String.length s - String.length w) s)
      else drop_one_of seqs' s
  end.

(** Drops the sequences of [seqs] that start [s], one after the other
    (each drop shortens the string, [fuel] is its length). *)
Fixpoint drop_all_of (seqs : list string) (fuel : nat) (s : string) : string :=
  match fuel with
  | O => s
  | Datatypes.S f =>
      match drop_one_of seqs s with
      | Some r => drop_all_of seqs f r
      | None => s
      end
  end.

Definition trim_start (s : string) : string :=
  drop_all_of ws_sequences (String.length s) s.

(** The end is trimmed on the reversed bytes with the reversed sequences;
    every sequence starts with a lead byte, so on UTF-8 text a match is a
    whole character. *)
Definition trim_end (s : string) : string :=
  let r := rev_string s EmptyString in
  rev_string (drop_all_of (map (fun w => rev_string w EmptyString) ws_sequences) (String.length r) r)
    EmptyString.

Definition trim (s : string) : string := trim_end (trim_start s).

(** Induction on values with a hypothesis for each element of an array. *)
Fixpoint jsval_nested_ind (P : jsval -> Prop)
  (HU : P JUndefined) (HN : P JNull) (HB : forall b, P (JBool b)) (Hn : forall n, P (JNumber n))
  (Hs : forall s, P (JString s)) (HA : forall xs, Forall P xs -> P (JArray xs))
  (HO : forall fs, P (JObject fs)) (v : jsval) {struct v} : P v :=
  match v with
  | JUndefined => HU
  | JNull => HN
  | JBool b => HB b
  | JNumber n => Hn n
  | JString s => Hs s
  | JArray xs =>
      HA xs ((fix go (l : list jsval) : Forall P l :=
                match l with
                | [] => Forall_nil P
                | x :: l' => Forall_cons x (jsval_nested_ind P HU HN HB Hn Hs HA HO x) (go l')
                end) xs)
  | JObject fs => HO fs
  end.

Section Conversions.
(** StringToNumber and Number::toString of the JS engine. *)
Variable string_to_number : string -> jsnum.
Variable number_to_string : jsnum -> string.

(** ToString, with Array.prototype.join for arrays.  An object from JSON
    inherits toString and valueOf from Object.prototype unless it has an own
    property of that name, which holds no function: OrdinaryToPrimitive
    then finds no callable method that gives a primitive (valueOf gives the
    object itself) and throws; an own valueOf is skipped. *)
Fixpoint js_to_string (v : jsval) : result string :=
  match v with
  | JUndefined => Ok "undefined"
  | JNull => Ok "null"
  | JBool true => Ok "true"
  | JBool false => Ok "false"
  | JNumber n => Ok (number_to_string n)
  | JString s => Ok s
  | JArray xs =>
      let fix elts (xs : list jsval) : result (list string) :=
        match xs with
        | [] => Ok []
        | x :: xs' =>
            s <- match x with
                 | JUndefined | JNull => Ok ""
                 | _ => js_to_string x
                 end ;;
            ss <- elts xs' ;;
            Ok (s :: ss)
        end in
      ss <- elts xs ;; Ok (String.concat "," ss)
  | JObject fs =>
      match assoc "toString" fs with
      | Some _ => Throw (TypeError "Cannot convert object to primitive value")
      | None => Ok "[object Object]"
      end
  end.

(** ToPrimitive: the text of ToString for an array or an object (both
    hints give it for the values of JSON), the value itself otherwise. *)
Definition to_primitive (v : jsval) : result jsval :=
  match v with
  | JArray _ | JObject _ => s <- js_to_string v ;; Ok (JString s)
  | _ => Ok v
  end.

(** ToNumber, i.e. [Number(v)]. *)
Definition to_number (v : jsval) : result jsnum :=
  match v with
  | JUndefined => Ok nan
  | JNull => Ok 0%float
  | JBool b => Ok (if b then 1%float else 0%float)
  | JNumber n => Ok n
  | JString s => Ok (string_to_number s)
  | JArray _ | JObject _ => s <- js_to_string v ;; Ok (string_to_number s)
  end.
End Conversions.

(** The values on which ToPrimitive does not throw: objects without an own
    [toString], arrays of such values, and primitives. *)
Fixpoint prim_safe (v : jsval) : bool :=
  match v with
  | JArray xs => forallb prim_safe xs
  | JObject fs => match assoc "toString" fs with Some _ => false | None => true end
  | _ => true
  end.

(** ** TransactionService (services/transaction.service.ts) *)

(** [new Date(p)] of a primitive [p] and [new Date()] are kept symbolic. *)
Inductive date_src :=
| DateOf (v : jsval)
| DateNow.

Record Transaction := {
  tx_id : string;
  tx_amount : jsnum;
  tx_type : string;
  tx_category : jsval;
  tx_description : jsval;
  tx_createdAt : date_src;
  tx_updatedAt : date_src }.

Record TransactionSummary := {
  sum_totalExpenses : jsnum;
  sum_totalRevenue : jsnum;
  sum_expenseCount : jsnum;
  sum_revenueCount : jsnum;
  sum_netAmount : jsnum;
  sum_period : string;
  sum_currency : jsval }.

Record CategorySummary := {
  cs_name : jsval;
  cs_amount : jsnum;
  cs_type : string;
  cs_percentage : jsnum }.

(** [a || b] on values. *)
Definition js_or (a b : jsval) : jsval := if truthy a then a else b.

(** normalizeTransactionType(type: string) *)
Definition normalizeTransactionType (type_ : jsval) : result string :=
  if negb (truthy type_) then Ok "expense" else
  match type_ with
  | JString s =>
      let normalized := trim (toLowerCase s) in
      if String.eqb normalized "expense" || String.eqb normalized "revenue"
      then Ok normalized else Ok "expense"
  | _ => Throw (TypeError "type.toLowerCase is not a function")
  end.

Section TransactionService.
Variable string_to_number : string -> jsnum.
Variable number_to_string : jsnum -> string.

Let Number := to_number string_to_number number_to_string.

(** [Number(v) || 0] *)
Definition num_or_zero (v : jsval) : result jsnum :=
  n <- Number v ;; Ok (if num_truthy n then n else 0%float).

(** [v?.toString() || '']: an own [toString] of an object is not a
    function. *)
Definition id_string (v : jsval) : result string :=
  match v with
  | JUndefined | JNull => Ok ""
  | JObject fs =>
      match assoc "toString" fs with
      | Some _ => Throw (TypeError "item.id?.toString is not a function")
      | None => Ok "[object Object]"
      end
  | _ => js_to_string number_to_string v
  end.

(** [v ? new Date(v) : new Date()]; [new Date(v)] applies ToPrimitive to
    [v] and reads the date from the primitive. *)
Definition date_or_now (v : jsval) : result date_src :=
  if truthy v then p <- to_primitive number_to_string v ;; Ok (DateOf p) else Ok DateNow.

(** The arrow of mapTransactions, fields evaluated in source order. *)
Definition mapTransaction (item : jsval) : result Transaction :=
  idv <- get item "id" ;;
  id <- id_string idv ;;
  amountv <- get item "amount" ;;
  amount <- num_or_zero amountv ;;
  ty <- get item "type" ;;
  type_ <- normalizeTransactionType ty ;;
  category <- get item "category" ;;
  description <- get item "description" ;;
  createdAtv <- get item "createdAt" ;;
  createdAt <- date_or_now createdAtv ;;
  updatedAtv <- get item "updatedAt" ;;
  updatedAt <- date_or_now updatedAtv ;;
  Ok {| tx_id := id;
        tx_amount := amount;
        tx_type := type_;
        tx_category := js_or category (JString "Uncategorized");
        tx_description := js_or description (JString "");
        tx_createdAt := createdAt;
        tx_updatedAt := updatedAt |}.

(** mapTransactions(data: any) *)
Definition mapTransactions (data : jsval) : result (list Transaction) :=
  if negb (truthy data) then Ok [] else
  match data with
  | JArray xs => mapM mapTransaction xs
  | _ => Ok []
  end.

Definition getEmptySummary (timeFrame : string) : TransactionSummary :=
  {| sum_totalExpenses := 0%float; sum_totalRevenue := 0%float;
     sum_expenseCount := 0%float; sum_revenueCount := 0%float;
     sum_netAmount := 0%float; sum_period := timeFrame;
     sum_currency := JString "TND" |}.

(** mapSummary(data, timeFrame) *)
Definition mapSummary (data : jsval) (timeFrame : string) : result TransactionSummary :=
  if negb (truthy data) then Ok (getEmptySummary timeFrame) else
  te <- get data "totalExpenses" ;;
  te' <- num_or_zero te ;;
  tr <- get data "totalRevenue" ;;
  tr' <- num_or_zero tr ;;
  ec <- get data "expenseCount" ;;
  ec' <- num_or_zero ec ;;
  rc <- get data "revenueCount" ;;
  rc' <- num_or_zero rc ;;
  na <- get data "netAmount" ;;
  na' <- num_or_zero na ;;
  cur <- get data "currency" ;;
  Ok {| sum_totalExpenses := te'; sum_totalRevenue := tr';
        sum_expenseCount := ec'; sum_revenueCount := rc';
        sum_netAmount := na'; sum_period := timeFrame;
        sum_currency := js_or cur (JString "TND") |}.

Definition mapCategory (item : jsval) : result CategorySummary :=
  name <- get item "name" ;;
  amount <- get item "amount" ;;
  amount' <- num_or_zero amount ;;
  ty <- get item "type" ;;
  type_ <- normalizeTransactionType ty ;;
  pct <- get item "percentage" ;;
  pct' <- num_or_zero pct ;;
  Ok {| cs_name := js_or name (JString "Unknown"); cs_amount := amount';
        cs_type := type_; cs_percentage := pct' |}.

(** mapCategories(data) *)
Definition mapCategories (data : jsval) : result (list CategorySummary) :=
  if negb (truthy data) then Ok [] else
  match data with
  | JArray xs => mapM mapCategory xs
  | _ => Ok []
  end.

(** getEmptyCategoryStats(timeFrame), the object literal of the source. *)
Definition getEmptyCategoryStats (timeFrame : string) : jsval :=
  JObject [("expenseCategories", JArray []); ("revenueCategories", JArray []);
           ("timeFrame", JString timeFrame);
           ("summary", JObject [("totalExpenses", JNumber 0%float);
                                ("totalRevenue", JNumber 0%float);
                                ("averageTransaction", JNumber 0%float);
                                ("mostSpentCategory", JString "");
                                ("mostRevenueCategory", JString "")])].
End TransactionService.

(** HTTP requests issued through HttpClient. *)
Inductive http_method := GET | POST | PUT | DELETE.

Record Request := {
  req_method : http_method;
  req_url : string;
  req_params : list (string * string);
  req_body : jsval }.

(** [catchError(() => of(d))]: a failure is replaced by [d]. *)
Definition catch_to {A} (r : result A) (d : A) : result A :=
  match r with
  | Ok a => Ok a
  | Throw _ => Ok d
  end.

(** [!this.userId] for the [string | null] field. *)
Definition user_missing (u : option string) : bool :=
  match u with
  | None => true
  | Some s => String.eqb s ""
  end.

Section ServiceMethods.
Variable string_to_number : string -> jsnum.
Variable number_to_string : jsnum -> string.
Variable apiUrl : string.
Variable userId : option string.
(** The backend: the body of a response, or the HttpErrorResponse. *)
Variable http : Request -> result jsval.

Let uid := match userId with Some u => u | None => "" end.
Let numstr (n : jsnum) := number_to_string n.
Let mapTxs := mapTransactions string_to_number number_to_string.
Let not_authenticated {A} : result A := Throw (Error "User not authenticated").

Definition get_req (url : string) (params : list (string * string)) : Request :=
  {| req_method := GET; req_url := url; req_params := params; req_body := JUndefined |}.

Definition getTransactions (timeFrame : string) (limit page : jsnum) : result (list Transaction) :=
  if user_missing userId then Ok [] else
  catch_to
    (body <- http (get_req (apiUrl ++ "/users/" ++ uid ++ "/transactions")
                           [("timeFrame", timeFrame); ("limit", numstr limit); ("page", numstr page)]) ;;
     mapTxs body)
    [].

Definition getTransactionSummary (timeFrame : string) : result TransactionSummary :=
  if user_missing userId then Ok (getEmptySummary timeFrame) else
  catch_to
    (body <- http (get_req (apiUrl ++ "/users/" ++ uid ++ "/transactions/summary")
                           [("timeFrame", timeFrame)]) ;;
     mapSummary string_to_number number_to_string body timeFrame)
    (getEmptySummary timeFrame).

Definition getCategorySummary (timeFrame : string) : result (list CategorySummary) :=
  if user_missing userId then Ok [] else
  catch_to
    (body <- http (get_req (apiUrl ++ "/users/" ++ uid ++ "/transactions/categories/summary")
                           [("timeFrame", timeFrame)]) ;;
     mapCategories string_to_number number_to_string body)
    [].

Definition getCategoryStats (timeFrame : string) : result jsval :=
  if user_missing userId then Ok (getEmptyCategoryStats timeFrame) else
  catch_to
    (http (get_req (apiUrl ++ "/users/" ++ uid ++ "/transactions/categories/stats")
                   [("timeFrame", timeFrame)]))
    (getEmptyCategoryStats timeFrame).

Definition getRecentTransactions (limit : jsnum) : result (list Transaction) :=
  if user_missing userId then Ok [] else
  catch_to
    (body <- http (get_req (apiUrl ++ "/users/" ++ uid ++ "/transactions/recent")
                           [("limit", numstr limit)]) ;;
     mapTxs body)
    [].

Definition getExpenses (timeFrame : string) (limit page : jsnum) : result (list Transaction) :=
  if user_missing userId then Ok [] else
  catch_to
    (body <- http (get_req (apiUrl ++ "/users/" ++ uid ++ "/expenses")
                           [("timeFrame", timeFrame); ("limit", numstr limit); ("page", numstr page)]) ;;
     mapTxs body)
    [].

Definition getRevenues (timeFrame : string) (limit page : jsnum) : result (list Transaction) :=
  if user_missing userId then Ok [] else
  catch_to
    (body <- http (get_req (apiUrl ++ "/users/" ++ uid ++ "/revenues")
                           [("timeFrame", timeFrame); ("limit", numstr limit); ("page", numstr page)]) ;;
     mapTxs body)
    [].

(** Write paths: the error of the request is rethrown. *)
Definition addTransaction (transaction : jsval) : result jsval :=
  if user_missing userId then not_authenticated else
  http {| req_method := POST; req_url := apiUrl ++ "/users/" ++ uid ++ "/transactions";
          req_params := []; req_body := transaction |}.

Definition updateTransaction (id type_ : string) (transaction : jsval) : result jsval :=
  if user_missing userId then not_authenticated else
  http {| req_method := PUT; req_url := apiUrl ++ "/users/" ++ uid ++ "/transactions/" ++ id;
          req_params := [("type", type_)]; req_body := transaction |}.

Definition deleteTransaction (id type_ : string) : result unit :=
  if user_missing userId then not_authenticated else
  _ <- http {| req_method := DELETE; req_url := apiUrl ++ "/users/" ++ uid ++ "/transactions/" ++ id;
               req_params := [("type", type_)]; req_body := JUndefined |} ;;
  Ok tt.

(** generateReport(reportData): the blob of the PDF, or the rethrown error. *)
Definition generateReport (reportData : jsval) : result jsval :=
  if user_missing userId then not_authenticated else
  http {| req_method := POST; req_url := apiUrl ++ "/users/" ++ uid ++ "/transactions/reports/generate";
          req_params := []; req_body := reportData |}.
End ServiceMethods.

(** ** Platform primitives the export and formatting code calls *)

Definition dq : string := String (ascii_of_nat 34) EmptyString.
Definition nl : string := String (ascii_of_nat 10) EmptyString.

(** The option bags passed to Date.prototype.toLocaleDateString. *)
Inductive date_style :=
| Digits_MDY        (* month: '2-digit', day: '2-digit', year: 'numeric' *)
| Digits_DMY        (* day: '2-digit', month: '2-digit', year: 'numeric' *)
| ShortMonth_DMY    (* day: '2-digit', month: 'short', year: 'numeric' *)
| ShortMonth_MDY.   (* month: 'short', day: 'numeric', year: 'numeric' *)

(** The JS engine of the browser: number conversions, JSON.stringify, Date
    rendering and Intl currency rendering.  Its locale and time zone are part
    of it. *)
Record Runtime := {
  rt_string_to_number : string -> jsnum;
  rt_number_to_string : jsnum -> string;
  (** Number.prototype.toFixed(digits) *)
  rt_to_fixed : jsnum -> nat -> string;
  (** JSON.stringify(v, null, 2) *)
  rt_json_stringify : jsval -> string;
  (** new Date(p).toLocaleString(), for the primitive [p] ToPrimitive gave *)
  rt_date_locale_string : jsval -> string;
  (** new Date(p).toLocaleDateString(locale, options) *)
  rt_date_locale_date_string : jsval -> string -> date_style -> string;
  (** new Date(p).toISOString(): RangeError on an invalid date *)
  rt_date_iso_string : jsval -> result string;
  (** new Intl.NumberFormat(locale, {style: 'currency', currency}).format(v)
      for a currency code the constructor accepted, once ToPrimitive has
      given the primitive [p] of [v] *)
  rt_currency_format : string -> string -> jsval -> string }.

(** ToString in the engine [rt]. *)
Definition str_of (rt : Runtime) (v : jsval) : result string :=
  js_to_string (rt_number_to_string rt) v.

Definition js_number (rt : Runtime) (v : jsval) : result jsnum :=
  to_number (rt_string_to_number rt) (rt_number_to_string rt) v.

(** [v >= 0] and [v > 0] *)
Definition js_ge0 (rt : Runtime) (v : jsval) : result bool :=
  n <- js_number rt v ;; Ok (PrimFloat.leb 0%float n).

Definition js_gt0 (rt : Runtime) (v : jsval) : result bool :=
  n <- js_number rt v ;; Ok (PrimFloat.ltb 0%float n).

(** [new Date(v).toLocaleString()] *)
Definition toLocaleString_of (rt : Runtime) (v : jsval) : result string :=
  p <- to_primitive (rt_number_to_string rt) v ;; Ok (rt_date_locale_string rt p).

(** [v.toFixed(d)] *)
Definition toFixed (rt : Runtime) (v : jsval) (d : nat) : result string :=
  match v with
  | JNumber n => Ok (rt_to_fixed rt n d)
  | JUndefined | JNull => Throw (TypeError "Cannot read properties of undefined (reading 'toFixed')")
  | _ => Throw (TypeError "toFixed is not a function")
  end.

(** [xs.forEach(..)] / [xs.map(..).join('')]: the pieces in order. *)
Definition js_map_join (xs : jsval) (f : jsval -> result string) : result string :=
  match xs with
  | JArray l => pieces <- mapM f l ;; Ok (String.concat "" pieces)
  | JUndefined | JNull => Throw (TypeError "Cannot read properties of undefined (reading 'forEach')")
  | _ => Throw (TypeError "forEach is not a function")
  end.

Definition is_string (v : jsval) (s : string) : bool :=
  match v with
  | JString s' => String.eqb s' s
  | _ => false
  end.

(** [s.split('T')[0]] *)
Fixpoint before_T (s : string) : string :=
  match s with
  | EmptyString => EmptyString
  | String c s' => if Ascii.eqb c "T"%char then EmptyString else String c (before_T s')
  end.

(** ** SettingsService (services/settings.service.ts) *)

Record AppSettings := {
  currency : string;
  dateFormat : string;
  startOfWeek : string;
  defaultTransactionType : string;
  enableNotifications : bool;
  budgetAlerts : bool;
  autoSync : bool }.

Fixpoint lookup (k : string) (t : list (string * string)) : option string :=
  match t with
  | [] => None
  | (k', v) :: t' => if String.eqb k k' then Some v else lookup k t'
  end.

Definition currencyLocales : list (string * string) :=
  [("USD", "en-US"); ("EUR", "de-DE"); ("GBP", "en-GB"); ("JPY", "ja-JP");
   ("CAD", "en-CA"); ("AUD", "en-AU"); ("INR", "en-IN"); ("CHF", "de-CH");
   ("CNY", "zh-CN"); ("BRL", "pt-BR")].

Definition currencySymbols : list (string * string) :=
  [("USD", "$"); ("EUR", "€"); ("GBP", "£"); ("JPY", "¥"); ("CAD", "C$");
   ("AUD", "A$"); ("INR", "₹"); ("CHF", "CHF"); ("CNY", "¥"); ("BRL", "R$")].

(** The locale [currencyLocales[code] || 'en-US'] (three-letter codes never
    name a member of Object.prototype). *)
Definition currency_locale (code : string) : string :=
  match lookup code currencyLocales with
  | Some l => l
  | None => "en-US"
  end.

Definition is_ascii_letter (c : ascii) : bool :=
  let n := nat_of_ascii c in
  ((65 <=? n) && (n <=? 90) || (97 <=? n) && (n <=? 122))%nat.

Fixpoint all_letters (s : string) : bool :=
  match s with
  | EmptyString => true
  | String c s' => is_ascii_letter c && all_letters s'
  end.

(** ECMA-402 IsWellFormedCurrencyCode. *)
Definition isWellFormedCurrencyCode (c : string) : bool :=
  (String.length c =? 3)%nat && all_letters c.

Record NumberFormat := { nf_locale : string; nf_currency : string }.

(** [new Intl.NumberFormat(locale, {style: 'currency', currency})]: the
    constructor rejects a currency code that is not well formed. *)
Definition Intl_NumberFormat (locale cur : string) : result NumberFormat :=
  if isWellFormedCurrencyCode cur
  then Ok {| nf_locale := locale; nf_currency := cur |}
  else Throw (RangeError ("Invalid currency code : " ++ cur)).

(** SettingsService.formatCurrency(amount): [format] applies ToPrimitive
    to the value before rendering it. *)
Definition formatCurrency (rt : Runtime) (settings : AppSettings) (amount : jsval) : result string :=
  let value := match amount with JUndefined | JNull => JNumber 0%float | v => v end in
  let locale := currency_locale (currency settings) in
  nf <- Intl_NumberFormat locale (currency settings) ;;
  p <- to_primitive (rt_number_to_string rt) value ;;
  Ok (rt_currency_format rt (nf_locale nf) (nf_currency nf) p).

(** SettingsService.getCurrencySymbol() *)
Definition getCurrencySymbol (settings : AppSettings) : string :=
  match lookup (currency settings) currencySymbols with
  | Some s => s
  | None => currency settings
  end.

(** SettingsService.formatDate(date): [new Date(date)] first. *)
Definition formatDate (rt : Runtime) (settings : AppSettings) (date : jsval) : result string :=
  dateObj <- to_primitive (rt_number_to_string rt) date ;;
  let fmt := dateFormat settings in
  if String.eqb fmt "MM/DD/YYYY" then Ok (rt_date_locale_date_string rt dateObj "en-US" Digits_MDY)
  else if String.eqb fmt "DD/MM/YYYY" then Ok (rt_date_locale_date_string rt dateObj "en-GB" Digits_DMY)
  else if String.eqb fmt "YYYY-MM-DD" then
    iso <- rt_date_iso_string rt dateObj ;; Ok (before_T iso)
  else if String.eqb fmt "DD-MMM-YYYY" then Ok (rt_date_locale_date_string rt dateObj "en-US" ShortMonth_DMY)
  else Ok (rt_date_locale_date_string rt dateObj "en-US" ShortMonth_MDY).

(** The members every object literal inherits from Object.prototype: a
    lookup [o[k]] that misses the own properties of [o] finds them. *)
Definition object_prototype_members : list string :=
  ["constructor"; "__defineGetter__"; "__defineSetter__"; "hasOwnProperty";
   "__lookupGetter__"; "__lookupSetter__"; "isPrototypeOf"; "propertyIsEnumerable";
   "toString"; "valueOf"; "__proto__"; "toLocaleString"].

(** What [o[k]] yields on a [Record<string, string>] literal: an own string,
    or an inherited member (a function, or the prototype for __proto__),
    which is neither null nor undefined. *)
Inductive prop_value :=
| PropString (s : string)
| PropInherited (name : string).

Definition record_index (own : list (string * string)) (k : string) : option prop_value :=
  match lookup k own with
  | Some s => Some (PropString s)
  | None => if existsb (String.eqb k) object_prototype_members then Some (PropInherited k) else None
  end.

(** ToString of what [o[k]] yields, as a template literal writes it: the
    string, or the source text V8 gives a built-in function (the Object
    constructor for [constructor]), or "[object Object]" for the prototype
    itself. *)
Definition prop_text (v : prop_value) : string :=
  match v with
  | PropString s => s
  | PropInherited k =>
      if String.eqb k "__proto__" then "[object Object]"
      else if String.eqb k "constructor" then "function Object() { [native code] }"
      else "function " ++ k ++ "() { [native code] }"
  end.

Definition trend_icons : list (string * string) :=
  [("up", "📈"); ("down", "📉"); ("stable", "➡️")].

(** ReportsComponent.getTrendIcon(trend): the key is ToString of [trend];
    the icons and the inherited members are truthy, so [|| '📊'] applies
    only when the lookup gives [undefined]. *)
Definition getTrendIcon (rt : Runtime) (trend : jsval) : result prop_value :=
  k <- str_of rt trend ;;
  Ok (match record_index trend_icons k with
      | Some v => v
      | None => PropString "📊"
      end).

(** [${this.getTrendIcon(trend)}] *)
Definition trend_icon_text (rt : Runtime) (trend : jsval) : result string :=
  icon <- getTrendIcon rt trend ;; Ok (prop_text icon).

(** ** ReportsComponent export engine (reports.component.ts) *)

Section Converters.
Variable rt : Runtime.
(** settingsService.getAppSettings() at the time of the call *)
Variable settings : AppSettings.

Let fc := formatCurrency rt settings.
Let fd := formatDate rt settings.
Let str := str_of rt.

(** convertToCSV(data): each substitution of a template literal is read
    and converted by ToString before the next one. *)
Definition convertToCSV (data : jsval) : result string :=
  reportType <- get data "reportType" ;;
  if is_string reportType "Trend Analysis" then
    items <- get data "data" ;;
    rows <- js_map_join items (fun item =>
      period <- get item "period" ;;
      s1 <- str period ;;
      amount <- get item "totalAmount" ;;
      s2 <- str amount ;;
      change <- get item "percentageChange" ;;
      s3 <- str change ;;
      trend <- get item "trend" ;;
      s4 <- str trend ;;
      cur <- get data "currency" ;;
      s5 <- str cur ;;
      Ok (s1 ++ "," ++ s2 ++ "," ++ s3 ++ "," ++ s4 ++ "," ++ s5 ++ nl)) ;;
    Ok ("Period,Amount,Change (%),Trend,Currency" ++ nl ++ rows)
  else
    let row (kind : string) (item : jsval) :=
      date <- get item "date" ;;
      s1 <- str date ;;
      category <- get item "category" ;;
      s2 <- str category ;;
      description <- get item "description" ;;
      s3 <- str description ;;
      amount <- get item "amount" ;;
      s4 <- str amount ;;
      cur <- get data "currency" ;;
      s5 <- str cur ;;
      Ok (kind ++ "," ++ s1 ++ "," ++ s2 ++ "," ++ dq ++ s3 ++ dq ++ "," ++ s4 ++ "," ++ s5 ++ nl) in
    expenses <- get data "expenses" ;;
    erows <- js_map_join expenses (row "Expense") ;;
    revenues <- get data "revenues" ;;
    rrows <- js_map_join revenues (row "Revenue") ;;
    Ok ("Type,Date,Category,Description,Amount,Currency" ++ nl ++ erows ++ rrows).

(** The table row of convertToMarkdown for a custom-report item. *)
Definition md_item_row (item : jsval) : result string :=
  date <- get item "date" ;;
  d <- fd date ;;
  category <- get item "category" ;;
  c <- str category ;;
  description <- get item "description" ;;
  ds <- str description ;;
  amount <- get item "amount" ;;
  a <- fc amount ;;
  Ok ("| " ++ d ++ " | " ++ c ++ " | " ++ ds ++ " | " ++ a ++ " |" ++ nl).

(** convertToMarkdown(data): the [md +=] statements in order. *)
Definition convertToMarkdown (data : jsval) : result string :=
  reportType <- get data "reportType" ;;
  if is_string reportType "Trend Analysis" then
    period <- get data "period" ;;
    sp <- str period ;;
    generatedAt <- get data "generatedAt" ;;
    gen <- toLocaleString_of rt generatedAt ;;
    cur <- get data "currency" ;;
    sc <- str cur ;;
    summary <- get data "summary" ;;
    overallTrend <- get summary "overallTrend" ;;
    icon <- trend_icon_text rt overallTrend ;;
    so <- str overallTrend ;;
    averageChange <- get summary "averageChange" ;;
    avg <- toFixed rt averageChange 1 ;;
    forecast <- get summary "forecast" ;;
    fcast <- fc forecast ;;
    items <- get data "data" ;;
    rows <- js_map_join items (fun item =>
      p <- get item "period" ;;
      ps <- str p ;;
      amount <- get item "totalAmount" ;;
      a <- fc amount ;;
      pc <- get item "percentageChange" ;;
      pos <- js_gt0 rt pc ;;
      pcs <- toFixed rt pc 1 ;;
      trend <- get item "trend" ;;
      ti <- trend_icon_text rt trend ;;
      ts <- str trend ;;
      Ok ("| " ++ ps ++ " | " ++ a ++ " | " ++ (if pos then "+" else "") ++ pcs
          ++ "% | " ++ ti ++ " " ++ ts ++ " |" ++ nl)) ;;
    Ok ("# 📈 Trend Analysis Report" ++ nl ++ nl
        ++ "**Period:** " ++ sp ++ "  " ++ nl
        ++ "**Generated:** " ++ gen ++ "  " ++ nl
        ++ "**Currency:** " ++ sc ++ " (" ++ getCurrencySymbol settings ++ ")" ++ nl ++ nl
        ++ "## Summary" ++ nl ++ nl
        ++ "- **Overall Trend:** " ++ icon ++ " " ++ so ++ nl
        ++ "- **Average Change:** " ++ avg ++ "%" ++ nl
        ++ "- **Forecast:** " ++ fcast ++ nl ++ nl
        ++ "## Detailed Analysis" ++ nl ++ nl
        ++ "| Period | Amount | Change | Trend |" ++ nl
        ++ "|--------|--------|--------|-------|" ++ nl
        ++ rows)
  else
    summary <- get data "summary" ;;
    period <- get summary "period" ;;
    sp <- str period ;;
    generatedAt <- get data "generatedAt" ;;
    gen <- toLocaleString_of rt generatedAt ;;
    cur <- get data "currency" ;;
    sc <- str cur ;;
    totalRevenues <- get summary "totalRevenues" ;;
    tr <- fc totalRevenues ;;
    totalExpenses <- get summary "totalExpenses" ;;
    te <- fc totalExpenses ;;
    netIncome <- get summary "netIncome" ;;
    ni <- fc netIncome ;;
    revenues <- get data "revenues" ;;
    rrows <- js_map_join revenues md_item_row ;;
    expenses <- get data "expenses" ;;
    erows <- js_map_join expenses md_item_row ;;
    Ok ("# 📋 Custom Financial Report" ++ nl ++ nl
        ++ "**Period:** " ++ sp ++ "  " ++ nl
        ++ "**Generated:** " ++ gen ++ "  " ++ nl
        ++ "**Currency:** " ++ sc ++ " (" ++ getCurrencySymbol settings ++ ")" ++ nl ++ nl
        ++ "## Summary" ++ nl ++ nl
        ++ "- **Total Revenues:** " ++ tr ++ nl
        ++ "- **Total Expenses:** " ++ te ++ nl
        ++ "- **Net Income:** " ++ ni ++ nl ++ nl
        ++ "## 💰 Revenues" ++ nl ++ nl
        ++ "| Date | Category | Description | Amount |" ++ nl
        ++ "|------|----------|-------------|--------|" ++ nl
        ++ rrows
        ++ nl ++ "## 💸 Expenses" ++ nl ++ nl
        ++ "| Date | Category | Description | Amount |" ++ nl
        ++ "|------|----------|-------------|--------|" ++ nl
        ++ erows).

(** The template literals of convertToHTML, byte for byte. *)
Definition html_style : string :=
"
      <style>
        body { font-family: Arial, sans-serif; margin: 40px; background: #f5f5f5; }
        .container { max-width: 1200px; margin: 0 auto; background: white; padding: 40px; border-radius: 8px; box-shadow: 0 2px 8px rgba(0,0,0,0.1); }
        h1 { color: #667eea; margin-bottom: 8px; }
        .meta { color: #666; margin-bottom: 32px; }
        .summary { display: grid; grid-template-columns: repeat(auto-fit, minmax(200px, 1fr)); gap: 16px; margin-bottom: 32px; }
        .stat { background: #f8f9fa; padding: 20px; border-radius: 8px; border-left: 4px solid #667eea; }
        .stat-label { font-size: 12px; color: #666; text-transform: uppercase; margin-bottom: 8px; }
        .stat-value { font-size: 24px; font-weight: bold; color: #333; }
        table { width: 100%; border-collapse: collapse; margin-top: 24px; }
        th { background: #667eea; color: white; padding: 12px; text-align: left; }
        td { padding: 12px; border-bottom: 1px solid #e0e0e0; }
        tr:hover { background: #f8f9fa; }
        .positive { color: #10b981; font-weight: bold; }
        .negative { color: #ef4444; font-weight: bold; }
        .report-info { background: #f0f9ff; padding: 16px; border-radius: 8px; margin-bottom: 24px; border-left: 4px solid #0ea5e9; }
        .currency-info { font-size: 12px; color: #666; font-style: italic; }
      </style>
    ".

Definition html_trend_row (item : jsval) : result string :=
  p <- get item "period" ;;
  ps <- str p ;;
  amount <- get item "totalAmount" ;;
  a <- fc amount ;;
  pc <- get item "percentageChange" ;;
  nonneg <- js_ge0 rt pc ;;
  pos <- js_gt0 rt pc ;;
  pcs <- toFixed rt pc 1 ;;
  trend <- get item "trend" ;;
  ti <- trend_icon_text rt trend ;;
  ts <- str trend ;;
  Ok (
"
                  <tr>
                    <td>"
++ ps
++ "</td>
                    <td>"
++ a
++ "</td>
                    <td class="
++ dq
++ (if nonneg then "positive" else "negative")
++ dq
++ ">
                      "
++ (if pos then "+" else "")
++ pcs
++ "%
                    </td>
                    <td>"
++ ti
++ " "
++ ts
++ "</td>
                  </tr>
                ").

Definition html_revenue_row (item : jsval) : result string :=
  date <- get item "date" ;;
  d <- fd date ;;
  category <- get item "category" ;;
  c <- str category ;;
  description <- get item "description" ;;
  ds <- str description ;;
  amount <- get item "amount" ;;
  a <- fc amount ;;
  Ok (
"
                  <tr>
                    <td>"
++ d
++ "</td>
                    <td>"
++ c
++ "</td>
                    <td>"
++ ds
++ "</td>
                    <td class="
++ dq
++ "positive"
++ dq
++ ">"
++ a
++ "</td>
                  </tr>
                ").

Definition html_expense_row (item : jsval) : result string :=
  date <- get item "date" ;;
  d <- fd date ;;
  category <- get item "category" ;;
  c <- str category ;;
  description <- get item "description" ;;
  ds <- str description ;;
  amount <- get item "amount" ;;
  a <- fc amount ;;
  Ok (
"
                  <tr>
                    <td>"
++ d
++ "</td>
                    <td>"
++ c
++ "</td>
                    <td>"
++ ds
++ "</td>
                    <td class="
++ dq
++ "negative"
++ dq
++ ">"
++ a
++ "</td>
                  </tr>
                ").

(** convertToHTML(data) *)
Definition convertToHTML (data : jsval) : result string :=
  reportType <- get data "reportType" ;;
  if is_string reportType "Trend Analysis" then
    period <- get data "period" ;;
    sp <- str period ;;
    generatedAt <- get data "generatedAt" ;;
    gen <- toLocaleString_of rt generatedAt ;;
    cur <- get data "currency" ;;
    sc <- str cur ;;
    summary <- get data "summary" ;;
    overallTrend <- get summary "overallTrend" ;;
    icon <- trend_icon_text rt overallTrend ;;
    so <- str overallTrend ;;
    averageChange <- get summary "averageChange" ;;
    avg <- toFixed rt averageChange 1 ;;
    forecast <- get summary "forecast" ;;
    fcast <- fc forecast ;;
    items <- get data "data" ;;
    rows <- js_map_join items html_trend_row ;;
    Ok (
"
        <!DOCTYPE html>
        <html>
        <head>
          <meta charset="
++ dq
++ "UTF-8"
++ dq
++ ">
          <title>Trend Analysis Report</title>
          "
++ html_style
++ "
        </head>
        <body>
          <div class="
++ dq
++ "container"
++ dq
++ ">
            <h1>📈 Trend Analysis Report</h1>
            <div class="
++ dq
++ "meta"
++ dq
++ ">
              Period: "
++ sp
++ " | Generated: "
++ gen
++ "
              <div class="
++ dq
++ "currency-info"
++ dq
++ ">Currency: "
++ sc
++ " ("
++ getCurrencySymbol settings
++ ")</div>
            </div>

            <div class="
++ dq
++ "summary"
++ dq
++ ">
              <div class="
++ dq
++ "stat"
++ dq
++ ">
                <div class="
++ dq
++ "stat-label"
++ dq
++ ">Overall Trend</div>
                <div class="
++ dq
++ "stat-value"
++ dq
++ ">"
++ icon
++ " "
++ so
++ "</div>
              </div>
              <div class="
++ dq
++ "stat"
++ dq
++ ">
                <div class="
++ dq
++ "stat-label"
++ dq
++ ">Average Change</div>
                <div class="
++ dq
++ "stat-value"
++ dq
++ ">"
++ avg
++ "%</div>
              </div>
              <div class="
++ dq
++ "stat"
++ dq
++ ">
                <div class="
++ dq
++ "stat-label"
++ dq
++ ">Forecast</div>
                <div class="
++ dq
++ "stat-value"
++ dq
++ ">"
++ fcast
++ "</div>
              </div>
            </div>

            <table>
              <thead>
                <tr>
                  <th>Period</th>
                  <th>Amount</th>
                  <th>Change</th>
                  <th>Trend</th>
                </tr>
              </thead>
              <tbody>
                "
++ rows
++ "
              </tbody>
            </table>
          </div>
        </body>
        </html>
      ")
  else
    summary <- get data "summary" ;;
    period <- get summary "period" ;;
    sp <- str period ;;
    generatedAt <- get data "generatedAt" ;;
    gen <- toLocaleString_of rt generatedAt ;;
    cur <- get data "currency" ;;
    sc <- str cur ;;
    totalRevenues <- get summary "totalRevenues" ;;
    tr <- fc totalRevenues ;;
    totalExpenses <- get summary "totalExpenses" ;;
    te <- fc totalExpenses ;;
    netIncome <- get summary "netIncome" ;;
    nonneg <- js_ge0 rt netIncome ;;
    ni <- fc netIncome ;;
    revenues <- get data "revenues" ;;
    rrows <- js_map_join revenues html_revenue_row ;;
    expenses <- get data "expenses" ;;
    erows <- js_map_join expenses html_expense_row ;;
    Ok (
"
        <!DOCTYPE html>
        <html>
        <head>
          <meta charset="
++ dq
++ "UTF-8"
++ dq
++ ">
          <title>Custom Financial Report</title>
          "
++ html_style
++ "
        </head>
        <body>
          <div class="
++ dq
++ "container"
++ dq
++ ">
            <h1>📋 Custom Financial Report</h1>
            <div class="
++ dq
++ "meta"
++ dq
++ ">
              Period: "
++ sp
++ " | Generated: "
++ gen
++ "
              <div class="
++ dq
++ "currency-info"
++ dq
++ ">Currency: "
++ sc
++ " ("
++ getCurrencySymbol settings
++ ")</div>
            </div>

            <div class="
++ dq
++ "summary"
++ dq
++ ">
              <div class="
++ dq
++ "stat"
++ dq
++ ">
                <div class="
++ dq
++ "stat-label"
++ dq
++ ">Total Revenues</div>
                <div class="
++ dq
++ "stat-value positive"
++ dq
++ ">"
++ tr
++ "</div>
              </div>
              <div class="
++ dq
++ "stat"
++ dq
++ ">
                <div class="
++ dq
++ "stat-label"
++ dq
++ ">Total Expenses</div>
                <div class="
++ dq
++ "stat-value negative"
++ dq
++ ">"
++ te
++ "</div>
              </div>
              <div class="
++ dq
++ "stat"
++ dq
++ ">
                <div class="
++ dq
++ "stat-label"
++ dq
++ ">Net Income</div>
                <div class="
++ dq
++ "stat-value "
++ (if nonneg then "positive" else "negative")
++ dq
++ ">
                  "
++ ni
++ "
                </div>
              </div>
            </div>

            <h2>💰 Revenues</h2>
            <table>
              <thead>
                <tr>
                  <th>Date</th>
                  <th>Category</th>
                  <th>Description</th>
                  <th>Amount</th>
                </tr>
              </thead>
              <tbody>
                "
++ rrows
++ "
              </tbody>
            </table>

            <h2>💸 Expenses</h2>
            <table>
              <thead>
                <tr>
                  <th>Date</th>
                  <th>Category</th>
                  <th>Description</th>
                  <th>Amount</th>
                </tr>
              </thead>
              <tbody>
                "
++ erows
++ "
              </tbody>
            </table>
          </div>
        </body>
        </html>
      ").
End Converters.

(** ** Dates: Date.prototype.toISOString on the current instant *)

(** A time value broken into its UTC fields, as toISOString reads it. *)
Record UtcTime := {
  utc_year : Z; utc_month : Z; utc_day : Z;
  utc_hour : Z; utc_minute : Z; utc_second : Z; utc_ms : Z }.

Definition digit (d : Z) : ascii := ascii_of_nat (48 + Z.to_nat d).

Fixpoint dec_aux (fuel : nat) (n : Z) (acc : string) : string :=
  match fuel with
  | O => acc
  | Datatypes.S f =>
      let acc' := String (digit (n mod 10)) acc in
      if (n / 10 =? 0)%Z then acc' else dec_aux f (n / 10) acc'
  end.

(** Decimal digits of a non-negative integer. *)
Definition dec (n : Z) : string := dec_aux 32 n EmptyString.

Fixpoint zeros (k : nat) : string :=
  match k with
  | O => EmptyString
  | Datatypes.S k' => String "0" (zeros k')
  end.

(** The integer on [w] digits with leading zeros. *)
Definition pad (w : nat) (n : Z) : string :=
  let s := dec n in zeros (w - String.length s) ++ s.

(** The year: four digits in 0..9999, otherwise the expanded six-digit form
    with its sign. *)
Definition iso_year (y : Z) : string :=
  if ((0 <=? y) && (y <=? 9999))%Z then pad 4 y
  else (if (y <? 0)%Z then "-" else "+") ++ pad 6 (Z.abs y).

Definition iso_date (t : UtcTime) : string :=
  iso_year (utc_year t) ++ "-" ++ pad 2 (utc_month t) ++ "-" ++ pad 2 (utc_day t).

Definition toISOString (t : UtcTime) : string :=
  iso_date t ++ "T" ++ pad 2 (utc_hour t) ++ ":" ++ pad 2 (utc_minute t) ++ ":"
  ++ pad 2 (utc_second t) ++ "." ++ pad 3 (utc_ms t) ++ "Z".

(** ** exportDataInFormat and the payloads it receives *)

Inductive ExportFormat := Fpdf | Fcsv | Fjson | Fhtml | Fmarkdown.

(** What saveAs receives. *)
Inductive Blob :=
| TextBlob (content : string) (mime : string)
| ResponseBlob (body : jsval).

Record SavedFile := { file_blob : Blob; file_name : string }.

(** ReportsComponent.customReportData as loadCustomReport fills it from the
    backend's report (items and totals are passed through as received). *)
Record CustomReportData := {
  crd_expenses : jsval;
  crd_revenues : jsval;
  crd_totalExpenses : jsval;
  crd_totalRevenues : jsval;
  crd_netIncome : jsval;
  crd_period : jsval }.

Definition customSummary (crd : CustomReportData) : jsval :=
  JObject [("totalExpenses", crd_totalExpenses crd); ("totalRevenues", crd_totalRevenues crd);
           ("netIncome", crd_netIncome crd); ("period", crd_period crd)].

(** The ReportData of the 'pdf' case. *)
Definition pdfReportData (startDate endDate : string) : jsval :=
  JObject [("type", JString "all"); ("startDate", JString startDate);
           ("endDate", JString endDate); ("format", JString "pdf")].

Section Exporting.
Variable rt : Runtime.
Variable settings : AppSettings.
Variable exportFormat : ExportFormat.
Variable startDate endDate : string.
(** transactionService.generateReport *)
Variable generateReport : jsval -> result jsval.
(** the instant of the call ([new Date()]) *)
Variable now : UtcTime.

(** exportDataInFormat(data, filename): the file handed to saveAs (for
    'pdf', from the next or the error callback of the subscription). *)
Definition exportDataInFormat (data : jsval) (filename : string) : result SavedFile :=
  let date := before_T (toISOString now) in
  match exportFormat with
  | Fjson =>
      Ok {| file_blob := TextBlob (rt_json_stringify rt data) "application/json";
            file_name := filename ++ "_" ++ date ++ "." ++ "json" |}
  | Fcsv =>
      csv <- convertToCSV rt data ;;
      Ok {| file_blob := TextBlob csv "text/csv";
            file_name := filename ++ "_" ++ date ++ "." ++ "csv" |}
  | Fhtml =>
      html <- convertToHTML rt settings data ;;
      Ok {| file_blob := TextBlob html "text/html";
            file_name := filename ++ "_" ++ date ++ "." ++ "html" |}
  | Fmarkdown =>
      markdown <- convertToMarkdown rt settings data ;;
      Ok {| file_blob := TextBlob markdown "text/markdown";
            file_name := filename ++ "_" ++ date ++ "." ++ "md" |}
  | Fpdf =>
      match generateReport (pdfReportData startDate endDate) with
      | Ok pdfBlob =>
          Ok {| file_blob := ResponseBlob pdfBlob;
                file_name := filename ++ "_" ++ date ++ ".pdf" |}
      | Throw _ =>
          Ok {| file_blob := TextBlob (rt_json_stringify rt data) "application/json";
                file_name := filename ++ "_" ++ date ++ ".json" |}
      end
  end.

(** exportCustomReport(): the payload handed to exportDataInFormat. *)
Definition customReportPayload (crd : CustomReportData) : jsval :=
  JObject [("reportType", JString "Custom Report");
           ("period", crd_period crd);
           ("expenses", crd_expenses crd);
           ("revenues", crd_revenues crd);
           ("summary", customSummary crd);
           ("currency", JString (currency settings));
           ("generatedAt", JString (toISOString now));
           ("settings", JObject [("currency", JString (currency settings));
                                 ("dateFormat", JString (dateFormat settings))])].

Definition exportCustomReport (crd : CustomReportData) : result SavedFile :=
  exportDataInFormat (customReportPayload crd) "Custom_Report".
End Exporting.

(** ** Budget tracking (transactions.component.ts, settings.service.ts) *)

Open Scope float_scope.

Record BudgetCategory := {
  bc_name : string;
  bc_budget : jsnum;
  bc_spent : jsnum }.

Record BudgetSettings := {
  monthlyBudget : jsnum;
  enableBudgetAlerts : bool;
  alertThreshold : jsnum;
  weeklyBudget : jsnum;
  categories : list BudgetCategory }.

(** Math.max(a, b): NaN if either is NaN, and +0 above -0. *)
Definition js_max (a b : jsnum) : jsnum :=
  if PrimFloat.is_nan a || PrimFloat.is_nan b then nan
  else if a <? b then b
  else if b <? a then a
  else if PrimFloat.get_sign a then b else a.

(** [v.toLowerCase()] on a value typed string. *)
Definition lower_of (v : jsval) : result string :=
  match v with
  | JString s => Ok (toLowerCase s)
  | JUndefined | JNull => Throw (TypeError "Cannot read properties of undefined (reading 'toLowerCase')")
  | _ => Throw (TypeError "toLowerCase is not a function")
  end.

(** [categories.findIndex(cat => cat.name.toLowerCase() === transaction.category.toLowerCase())] *)
Fixpoint findCategoryIndex (cats : list BudgetCategory) (category : jsval) (i : nat) : result (option nat) :=
  match cats with
  | [] => Ok None
  | c :: cs =>
      key <- lower_of category ;;
      if String.eqb (toLowerCase (bc_name c)) key then Ok (Some i)
      else findCategoryIndex cs category (Datatypes.S i)
  end.

(** The in-place write [category.spent = f(category.spent)] at an index. *)
Fixpoint update_spent (cats : list BudgetCategory) (i : nat) (f : jsnum -> jsnum) : list BudgetCategory :=
  match cats, i with
  | [], _ => []
  | c :: cs, O => {| bc_name := bc_name c; bc_budget := bc_budget c; bc_spent := f (bc_spent c) |} :: cs
  | c :: cs, Datatypes.S i' => c :: update_spent cs i' f
  end.

Definition with_categories (bs : BudgetSettings) (cats : list BudgetCategory) : BudgetSettings :=
  {| monthlyBudget := monthlyBudget bs; enableBudgetAlerts := enableBudgetAlerts bs;
     alertThreshold := alertThreshold bs; weeklyBudget := weeklyBudget bs; categories := cats |}.

(** updateBudgetCategorySpent(transaction, isDelete): the budget settings
    stored through updateBudgetSettings afterwards. *)
Definition updateBudgetCategorySpent (bs : BudgetSettings) (transaction : Transaction) (isDelete : bool)
  : result BudgetSettings :=
  if negb (String.eqb (tx_type transaction) "expense") then Ok bs else
  idx <- findCategoryIndex (categories bs) (tx_category transaction) 0 ;;
  match idx with
  | None => Ok bs
  | Some i =>
      let f spent := if isDelete then js_max 0 (spent - tx_amount transaction)
                     else spent + tx_amount transaction in
      Ok (with_categories bs (update_spent (categories bs) i f))
  end.

(** A run of additions ([false]) and deletions ([true]); a call that throws
    leaves the stored settings as they were. *)
Fixpoint run_updates (bs : BudgetSettings) (ops : list (Transaction * bool)) : BudgetSettings :=
  match ops with
  | [] => bs
  | (t, isDelete) :: ops' =>
      let bs' := match updateBudgetCategorySpent bs t isDelete with
                 | Ok b => b
                 | Throw _ => bs
                 end in
      run_updates bs' ops'
  end.

Inductive AlertType := Warning | Danger.
Inductive AlertScope := MonthlyScope | CategoryScope (name : string).

(** The monthly branch of checkBudgetAfterTransaction. *)
Definition monthlyAlert (monthExpenses monthlyBudget alertThreshold : jsnum) : option AlertType :=
  let budgetUsed := monthExpenses / monthlyBudget * 100 in
  if monthlyBudget <=? monthExpenses then Some Danger
  else if alertThreshold <=? budgetUsed then Some Warning
  else None.

(** The per-category branch of checkBudgetAfterTransaction. *)
Definition categoryAlert (c : BudgetCategory) (alertThreshold : jsnum) : option AlertType :=
  if bc_budget c <=? 0 then None else
  let percentage := bc_spent c / bc_budget c * 100 in
  if bc_budget c <=? bc_spent c then Some Danger
  else if alertThreshold <=? percentage then Some Warning
  else None.

(** The calls of showBudgetAlertBanner made so far, and how the run ended:
    what a call leaves behind when a later statement throws. *)
Definition banner_run (A : Type) : Type := (list (AlertType * AlertScope) * result A)%type.

Definition brun_ret {A} (a : A) : banner_run A := ([], Ok a).

Definition brun_bind {A B} (m : banner_run A) (k : A -> banner_run B) : banner_run B :=
  match m with
  | (w, Ok a) => let (w', r) := k a in ((w ++ w')%list, r)
  | (w, Throw e) => (w, Throw e)
  end.

Definition brun_lift {A} (r : result A) : banner_run A := ([], r).

Definition showBudgetAlertBanner (a : AlertType) (scope : AlertScope) : banner_run unit :=
  ([(a, scope)], Ok tt).

Notation "x <-- m ;;; k" := (brun_bind m (fun x => k)) (at level 61, m at next level, right associativity).

(** [xs.forEach(f)] *)
Fixpoint brun_forEach {A} (f : A -> banner_run unit) (xs : list A) : banner_run unit :=
  match xs with
  | [] => brun_ret tt
  | x :: xs' => _ <-- f x ;;; brun_forEach f xs'
  end.

Section CheckBudget.
Variable rt : Runtime.
(** The settings SettingsService.formatCurrency reads. *)
Variable settings : AppSettings.
(** [new Date(t.createdAt) >= startOfMonth] for the current month *)
Variable in_current_month : date_src -> bool.

(** TransactionsComponent.formatCurrency(amount) on a number *)
Let fc (n : jsnum) : banner_run string := brun_lift (formatCurrency rt settings (JNumber n)).

(** [transactions.filter(expense of this month).reduce((sum, t) => sum + t.amount, 0)] *)
Definition monthExpenses (txs : list Transaction) : jsnum :=
  fold_left (fun sum t => sum + tx_amount t)
    (filter (fun t => String.eqb (tx_type t) "expense" && in_current_month (tx_createdAt t)) txs) 0.

(** The forEach callback over the budget categories. *)
Definition checkCategory (alertThreshold : jsnum) (category : BudgetCategory) : banner_run unit :=
  if bc_budget category <=? 0 then brun_ret tt else
  _ <-- fc (bc_spent category) ;;;
  _ <-- fc (bc_budget category) ;;;
  match categoryAlert category alertThreshold with
  | Some Danger =>
      _ <-- fc (bc_spent category - bc_budget category) ;;;
      showBudgetAlertBanner Danger (CategoryScope (bc_name category))
  | Some Warning =>
      _ <-- fc (bc_spent category) ;;;
      _ <-- fc (bc_budget category) ;;;
      showBudgetAlertBanner Warning (CategoryScope (bc_name category))
  | None => brun_ret tt
  end.

(** checkBudgetAfterTransaction(): the banners raised, in order, and whether
    the call returned or threw.  The console lines and the messages call
    formatCurrency on the amounts; the message texts, the browser
    notifications and the de-duplication of the banner list are not
    modelled. *)
Definition checkBudgetAfterTransaction (shouldShowBudgetAlerts : bool) (bs : BudgetSettings)
  (txs : list Transaction) : banner_run unit :=
  if negb shouldShowBudgetAlerts then brun_ret tt else
  let spent := monthExpenses txs in
  _ <-- fc (monthlyBudget bs) ;;;
  _ <-- fc spent ;;;
  _ <-- match monthlyAlert spent (monthlyBudget bs) (alertThreshold bs) with
        | Some Danger =>
            _ <-- fc (monthlyBudget bs) ;;;
            _ <-- fc (spent - monthlyBudget bs) ;;;
            showBudgetAlertBanner Danger MonthlyScope
        | Some Warning =>
            _ <-- fc spent ;;;
            _ <-- fc (monthlyBudget bs) ;;;
            showBudgetAlertBanner Warning MonthlyScope
        | None => brun_ret tt
        end ;;;
  brun_forEach (checkCategory (alertThreshold bs)) (categories bs).
End CheckBudget.

Close Scope float_scope.

(** ** Vocabulary of the statements *)

(** The value of a field of a JSON object, [undefined] when absent. *)
Definition field (fs : list (string * jsval)) (k : string) : jsval :=
  match assoc k fs with Some x => x | None => JUndefined end.

(** The [type] values normalizeTransactionType is written for: a string,
    or a falsy value. *)
Definition type_field_ok (v : jsval) : bool :=
  negb (truthy v) || match v with JString _ => true | _ => false end.

Definition result_map {A B} (f : A -> B) (r : result A) : result B :=
  match r with
  | Ok a => Ok (f a)
  | Throw e => Throw e
  end.

Fixpoint count_char (c : ascii) (s : string) : nat :=
  match s with
  | EmptyString => O
  | String c' s' => (if Ascii.eqb c c' then 1 else 0) + count_char c s'
  end.

Definition newline : ascii := ascii_of_nat 10.

Fixpoint no_T (s : string) : bool :=
  match s with
  | EmptyString => true
  | String c s' => negb (Ascii.eqb c "T"%char) && no_T s'
  end.

(** The extension the chosen format gives the file. *)
Definition format_extension (f : ExportFormat) : string :=
  match f with
  | Fjson => "json"
  | Fcsv => "csv"
  | Fhtml => "html"
  | Fmarkdown => "md"
  | Fpdf => "pdf"
  end.

(** The documented CSV schema of a custom report: type, date, category,
    description (in quotes), amount, currency. *)
Definition custom_csv_header : string := "Type,Date,Category,Description,Amount,Currency".

(** The text ToString gives a value on which it does not throw. *)
Definition str_text (rt : Runtime) (v : jsval) : string :=
  match str_of rt v with
  | Ok s => s
  | Throw _ => ""
  end.

Definition custom_csv_row (rt : Runtime) (kind : string) (fs : list (string * jsval)) (cur : string) : string :=
  kind ++ "," ++ str_text rt (field fs "date") ++ "," ++ str_text rt (field fs "category") ++ ","
  ++ dq ++ str_text rt (field fs "description") ++ dq ++ "," ++ str_text rt (field fs "amount")
  ++ "," ++ cur ++ nl.

(** The documented CSV schema of a trend report: period, amount, change%,
    trend, currency. *)
Definition trend_csv_header : string := "Period,Amount,Change (%),Trend,Currency".

Definition trend_csv_row (rt : Runtime) (fs : list (string * jsval)) (cur : string) : string :=
  str_text rt (field fs "period") ++ "," ++ str_text rt (field fs "totalAmount") ++ ","
  ++ str_text rt (field fs "percentageChange") ++ "," ++ str_text rt (field fs "trend") ++ ","
  ++ cur ++ nl.

(** The fields of a record that every row of the report converts with
    ToString. *)
Definition fields_prim_safe (keys : list string) (fs : list (string * jsval)) : bool :=
  forallb (fun k => prim_safe (field fs k)) keys.

(** A trend-analysis payload as exportTrendReport assembles it. *)
Definition trendReportPayload (settings : AppSettings) (now : UtcTime) (period : string)
  (items : list jsval) (summary : jsval) : jsval :=
  JObject [("reportType", JString "Trend Analysis");
           ("period", JString period);
           ("data", JArray items);
           ("summary", summary);
           ("currency", JString (currency settings));
           ("generatedAt", JString (toISOString now));
           ("settings", JObject [("currency", JString (currency settings));
                                 ("dateFormat", JString (dateFormat settings))])].

Definition list_of_string (s : string) : list ascii := list_ascii_of_string s.

(** RFC 4180 reading of one CSV record (a quoted field may contain commas,
    and a doubled quote inside it stands for one quote). *)
Fixpoint csv_fields_aux (s : string) (inq : bool) (cur : list ascii) (acc : list string) : list string :=
  match s with
  | EmptyString => List.rev (string_of_list_ascii (List.rev cur) :: acc)
  | String c s' =>
      if inq then
        if Ascii.eqb c (ascii_of_nat 34) then
          match s' with
          | String c2 s'' =>
              if Ascii.eqb c2 (ascii_of_nat 34)
              then csv_fields_aux s'' true (c2 :: cur) acc
              else csv_fields_aux s' false cur acc
          | EmptyString => csv_fields_aux s' false cur acc
          end
        else csv_fields_aux s' true (c :: cur) acc
      else if Ascii.eqb c (ascii_of_nat 34) then csv_fields_aux s' true cur acc
      else if Ascii.eqb c ","%char then csv_fields_aux s' false [] (string_of_list_ascii (List.rev cur) :: acc)
      else csv_fields_aux s' false (c :: cur) acc
  end.

Definition csv_fields (record : string) : list string := csv_fields_aux record false [] [].

(** The budget classification in the words of the spec, on exact integers:
    over budget at 100% of the budget, near budget at alertThreshold% of it. *)
Definition spec_budget_alert (spend budget threshold : Z) : option AlertType :=
  if (budget <=? spend)%Z then Some Danger
  else if (threshold * budget <=? spend * 100)%Z then Some Warning
  else None.

(** The banners the classification of the spend and of every budgeted
    category calls for, in order. *)
Definition budget_alerts (in_current_month : date_src -> bool) (bs : BudgetSettings)
  (txs : list Transaction) : list (AlertType * AlertScope) :=
  ((match monthlyAlert (monthExpenses in_current_month txs) (monthlyBudget bs) (alertThreshold bs) with
    | Some a => [(a, MonthlyScope)]
    | None => []
    end)
   ++ flat_map (fun c => match categoryAlert c (alertThreshold bs) with
                         | Some a => [(a, CategoryScope (bc_name c))]
                         | None => []
                         end) (categories bs))%list.

Definition alert_eqb (a b : option AlertType) : bool :=
  match a, b with
  | None, None | Some Warning, Some Warning | Some Danger, Some Danger => true
  | _, _ => false
  end.

(** The integers lo, lo+1, ..., lo+n-1. *)
Definition Zrange (lo : Z) (n : nat) : list Z := map (fun k => lo + Z.of_nat k)%Z (seq 0 n).

(** The IEEE-754 values [v] with [0 <= v]: zeros of both signs, positive
    finite numbers and +Infinity. *)
Definition nonneg_sf (f : spec_float) : Prop :=
  match f with
  | S754_zero _ | S754_finite false _ _ | S754_infinity false => True
  | _ => False
  end.

(** A value that is not NaN and carries the sign [s]. *)
Definition sign_class (s : bool) (f : spec_float) : Prop :=
  match f with
  | S754_zero s' | S754_infinity s' | S754_finite s' _ _ => s' = s
  | S754_nan => False
  end.

(** ** Report reads and report mappers of TransactionService *)

(** [v?.k]: [undefined] on null and undefined instead of a TypeError. *)
Definition opt_get (v : jsval) (k : string) : result jsval :=
  match v with
  | JUndefined | JNull => Ok JUndefined
  | _ => get v k
  end.

(** [v.length]: strings and arrays have one, an object may carry a field of
    that name, other primitives give [undefined]. *)
Definition length_of (v : jsval) : result jsval :=
  match v with
  | JUndefined => Throw (TypeError "Cannot read properties of undefined (reading 'length')")
  | JNull => Throw (TypeError "Cannot read properties of null (reading 'length')")
  | JArray xs => Ok (JNumber (PrimFloat.of_uint63 (Uint63.of_Z (Z.of_nat (List.length xs)))))
  | JString s => Ok (JNumber (PrimFloat.of_uint63 (Uint63.of_Z (Z.of_nat (String.length s)))))
  | JObject _ => get v "length"
  | _ => Ok JUndefined
  end.

(** [error.message] of what a catchError receives. *)
Definition error_message (e : js_error) : string :=
  match e with
  | TypeError m | RangeError m | Error m => m
  end.

Record MonthlyBreakdown := {
  mb_month : jsval;
  mb_amount : jsnum;
  mb_percentage : jsnum }.

Record ExpenseReport := {
  er_category : jsval;
  er_totalAmount : jsnum;
  er_transactionCount : jsnum;
  er_averageAmount : jsnum;
  er_percentage : jsnum;
  er_monthlyBreakdown : list MonthlyBreakdown }.

Record CategoryBreakdown := {
  cb_name : jsval;
  cb_amount : jsnum;
  cb_percentage : jsnum }.

Record IncomeStatement := {
  is_totalRevenue : jsnum;
  is_totalExpenses : jsnum;
  is_netIncome : jsnum;
  is_grossMargin : jsnum;
  is_revenue : list CategoryBreakdown;
  is_expenses : list CategoryBreakdown }.

Record TrendAnalysis := {
  ta_period : jsval;
  ta_totalAmount : jsnum;
  ta_percentageChange : jsnum;
  ta_trend : string;
  ta_forecast : option jsnum }.

(** normalizeTrend(trend) *)
Definition normalizeTrend (trend : jsval) : result string :=
  if negb (truthy trend) then Ok "stable" else
  match trend with
  | JString s =>
      let normalized := trim (toLowerCase s) in
      if String.eqb normalized "up" || String.eqb normalized "down" || String.eqb normalized "stable"
      then Ok normalized else Ok "stable"
  | _ => Throw (TypeError "trend.toLowerCase is not a function")
  end.

(** The object literal of getEmptyIncomeStatement(). *)
Definition getEmptyIncomeStatement_mapped : IncomeStatement :=
  {| is_totalRevenue := 0%float; is_totalExpenses := 0%float; is_netIncome := 0%float;
     is_grossMargin := 0%float; is_revenue := []; is_expenses := [] |}.

Definition getEmptyIncomeStatement : jsval :=
  JObject [("totalRevenue", JNumber 0%float); ("totalExpenses", JNumber 0%float);
           ("netIncome", JNumber 0%float); ("grossMargin", JNumber 0%float);
           ("categories", JObject [("revenue", JArray []); ("expenses", JArray [])])].

Definition getEmptyBudgetVsActual : jsval :=
  JObject [("categories", JArray []);
           ("total", JObject [("budget", JNumber 0%float); ("actual", JNumber 0%float);
                              ("variance", JNumber 0%float); ("variancePercent", JNumber 0%float)])].

(** [if (!data || !Array.isArray(data)) return []; return data.map(f)] *)
Definition map_array {B} (f : jsval -> result B) (data : jsval) : result (list B) :=
  if negb (truthy data) then Ok [] else
  match data with
  | JArray xs => mapM f xs
  | _ => Ok []
  end.

Section ReportMappers.
Variable string_to_number : string -> jsnum.
Variable number_to_string : jsnum -> string.

Let Number := to_number string_to_number number_to_string.
Let num := num_or_zero string_to_number number_to_string.

Definition mapMonthlyBreakdown_item (item : jsval) : result MonthlyBreakdown :=
  month <- get item "month" ;;
  amount <- get item "amount" ;;
  amount' <- num amount ;;
  pct <- get item "percentage" ;;
  pct' <- num pct ;;
  Ok {| mb_month := js_or month (JString ""); mb_amount := amount'; mb_percentage := pct' |}.

(** mapMonthlyBreakdown(data) *)
Definition mapMonthlyBreakdown (data : jsval) : result (list MonthlyBreakdown) :=
  map_array mapMonthlyBreakdown_item data.

Definition mapExpenseReport_item (item : jsval) : result ExpenseReport :=
  category <- get item "category" ;;
  total <- get item "totalAmount" ;;
  total' <- num total ;;
  count <- get item "transactionCount" ;;
  count' <- num count ;;
  avg <- get item "averageAmount" ;;
  avg' <- num avg ;;
  pct <- get item "percentage" ;;
  pct' <- num pct ;;
  mbv <- get item "monthlyBreakdown" ;;
  mb <- mapMonthlyBreakdown mbv ;;
  Ok {| er_category := js_or category (JString "Uncategorized");
        er_totalAmount := total'; er_transactionCount := count';
        er_averageAmount := avg'; er_percentage := pct';
        er_monthlyBreakdown := mb |}.

(** mapExpenseReport(data) *)
Definition mapExpenseReport (data : jsval) : result (list ExpenseReport) :=
  map_array mapExpenseReport_item data.

Definition mapCategoryBreakdown_item (item : jsval) : result CategoryBreakdown :=
  name <- get item "name" ;;
  amount <- get item "amount" ;;
  amount' <- num amount ;;
  pct <- get item "percentage" ;;
  pct' <- num pct ;;
  Ok {| cb_name := js_or name (JString "Unknown"); cb_amount := amount'; cb_percentage := pct' |}.

(** mapCategoryBreakdown(data) *)
Definition mapCategoryBreakdown (data : jsval) : result (list CategoryBreakdown) :=
  map_array mapCategoryBreakdown_item data.

(** mapIncomeStatement(data): [data.categories] is read once per branch. *)
Definition mapIncomeStatement (data : jsval) : result IncomeStatement :=
  if negb (truthy data) then Ok getEmptyIncomeStatement_mapped else
  tr <- get data "totalRevenue" ;;
  tr' <- num tr ;;
  te <- get data "totalExpenses" ;;
  te' <- num te ;;
  ni <- get data "netIncome" ;;
  ni' <- num ni ;;
  gm <- get data "grossMargin" ;;
  gm' <- num gm ;;
  c1 <- get data "categories" ;;
  rv <- opt_get c1 "revenue" ;;
  revenue <- mapCategoryBreakdown rv ;;
  c2 <- get data "categories" ;;
  ev <- opt_get c2 "expenses" ;;
  expenses <- mapCategoryBreakdown ev ;;
  Ok {| is_totalRevenue := tr'; is_totalExpenses := te'; is_netIncome := ni';
        is_grossMargin := gm'; is_revenue := revenue; is_expenses := expenses |}.

Definition mapTrendAnalysis_item (item : jsval) : result TrendAnalysis :=
  period <- get item "period" ;;
  total <- get item "totalAmount" ;;
  total' <- num total ;;
  change <- get item "percentageChange" ;;
  change' <- num change ;;
  tv <- get item "trend" ;;
  trend <- normalizeTrend tv ;;
  forecast <- get item "forecast" ;;
  forecast' <- (if truthy forecast then n <- Number forecast ;; Ok (Some n) else Ok None) ;;
  Ok {| ta_period := js_or period (JString ""); ta_totalAmount := total';
        ta_percentageChange := change'; ta_trend := trend; ta_forecast := forecast' |}.

(** mapTrendAnalysis(data) *)
Definition mapTrendAnalysis (data : jsval) : result (list TrendAnalysis) :=
  map_array mapTrendAnalysis_item data.
End ReportMappers.

Section ReportReads.
Variable string_to_number : string -> jsnum.
Variable number_to_string : jsnum -> string.
Variable apiUrl : string.
Variable userId : option string.
Variable http : Request -> result jsval.
(** The time value of [new Date(v)] for a transaction date and for the
    date strings of the report period. *)
Variable time_of : date_src -> jsnum.
Variable parse_date : string -> jsnum.
(** Date.prototype.toISOString of a Date with the given time value. *)
Variable iso_of_time : jsnum -> result string.

Let uid := match userId with Some u => u | None => "" end.

(** getExpenseReport(startDate, endDate): the response as received. *)
Definition getExpenseReport (startDate endDate : string) : result jsval :=
  if user_missing userId then Ok (JArray []) else
  catch_to
    (http (get_req (apiUrl ++ "/users/" ++ uid ++ "/transactions/reports/expense")
                   [("startDate", startDate); ("endDate", endDate)]))
    (JArray []).

Definition getIncomeStatement (startDate endDate : string) : result jsval :=
  if user_missing userId then Ok getEmptyIncomeStatement else
  catch_to
    (http (get_req (apiUrl ++ "/users/" ++ uid ++ "/transactions/reports/income-statement")
                   [("startDate", startDate); ("endDate", endDate)]))
    getEmptyIncomeStatement.

Definition getTrendAnalysis (timeFrame : string) : result jsval :=
  if user_missing userId then Ok (JArray []) else
  catch_to
    (http (get_req (apiUrl ++ "/users/" ++ uid ++ "/transactions/analysis/trend")
                   [("timeFrame", timeFrame)]))
    (JArray []).

Definition getBudgetVsActual (timeFrame : string) : result jsval :=
  if user_missing userId then Ok getEmptyBudgetVsActual else
  catch_to
    (http (get_req (apiUrl ++ "/users/" ++ uid ++ "/transactions/analysis/budget-vs-actual")
                   [("timeFrame", timeFrame)]))
    getEmptyBudgetVsActual.

Definition in_period (startDate endDate : string) (t : Transaction) : bool :=
  let transDate := time_of (tx_createdAt t) in
  PrimFloat.leb (parse_date startDate) transDate && PrimFloat.leb transDate (parse_date endDate).

(** The literal built for each transaction of detailedData. *)
Definition detailed_item (t : Transaction) : result jsval :=
  iso <- iso_of_time (time_of (tx_createdAt t)) ;;
  Ok (JObject [("id", JString (tx_id t)); ("date", JString (before_T iso));
               ("category", tx_category t); ("description", tx_description t);
               ("amount", JNumber (tx_amount t))]).

(** The map callback of getCustomReport. *)
Definition customReportOf (startDate endDate : string)
  (expenseReport incomeStatement : jsval) (transactions : list Transaction) : result jsval :=
  let filteredTransactions := filter (in_period startDate endDate) transactions in
  let expenses := filter (fun t => String.eqb (tx_type t) "expense") filteredTransactions in
  let revenues := filter (fun t => String.eqb (tx_type t) "revenue") filteredTransactions in
  te <- opt_get incomeStatement "totalExpenses" ;;
  tr <- opt_get incomeStatement "totalRevenue" ;;
  ni <- opt_get incomeStatement "netIncome" ;;
  gm <- opt_get incomeStatement "grossMargin" ;;
  es <- mapM detailed_item expenses ;;
  rs <- mapM detailed_item revenues ;;
  Ok (JObject
    [("summary", JObject [("totalExpenses", js_or te (JNumber 0%float));
                          ("totalRevenue", js_or tr (JNumber 0%float));
                          ("netIncome", js_or ni (JNumber 0%float));
                          ("grossMargin", js_or gm (JNumber 0%float));
                          ("period", JString (startDate ++ " to " ++ endDate))]);
     ("expenseReport", js_or expenseReport (JArray []));
     ("incomeStatement", js_or incomeStatement getEmptyIncomeStatement);
     ("detailedData", JObject [("expenses", JArray es); ("revenues", JArray rs)])]).

(** getCustomReport(startDate, endDate): [null] without a user or on error. *)
Definition getCustomReport (startDate endDate : string) : result jsval :=
  if user_missing userId then Ok JNull else
  catch_to
    (expenseReport <- getExpenseReport startDate endDate ;;
     incomeStatement <- getIncomeStatement startDate endDate ;;
     transactions <- getTransactions string_to_number number_to_string apiUrl userId http
                       "all" 1000%float 1%float ;;
     customReportOf startDate endDate expenseReport incomeStatement transactions)
    JNull.

(** testReportEndpoints() *)
Definition testReportEndpoints : result jsval :=
  match
    (trend <- getTrendAnalysis "monthly" ;;
     expenseReport <- getExpenseReport "2024-01-01" "2024-12-31" ;;
     incomeStatement <- getIncomeStatement "2024-01-01" "2024-12-31" ;;
     budgetVsActual <- getBudgetVsActual "month" ;;
     trendCount <- length_of trend ;;
     expenseReportCount <- length_of expenseReport ;;
     Ok (JObject [("success", JBool true);
                  ("results", JObject [("trendCount", trendCount);
                                       ("expenseReportCount", expenseReportCount);
                                       ("incomeStatement", JBool (truthy incomeStatement));
                                       ("budgetVsActual", JBool (truthy budgetVsActual))])]))
  with
  | Ok r => Ok r
  | Throw error => Ok (JObject [("success", JBool false); ("error", JString (error_message error))])
  end.
End ReportReads.

(** ** SettingsService persistence (services/settings.service.ts) *)

(** The own properties of an object, in creation order.  Redefining a key
    keeps its position; the precedence JS gives integer-like keys in the
    enumeration order is not modelled (only lookups are observed below). *)
Definition fields := list (string * jsval).

Fixpoint obj_set (k : string) (v : jsval) (fs : fields) : fields :=
  match fs with
  | [] => [(k, v)]
  | (k', v') :: fs' => if String.eqb k k' then (k', v) :: fs' else (k', v') :: obj_set k v fs'
  end.

Definition spread_pairs (gs : fields) (fs : fields) : fields :=
  fold_left (fun acc kv => obj_set (fst kv) (snd kv) acc) gs fs.

Definition indexed (xs : list jsval) : fields :=
  combine (map (fun i => dec (Z.of_nat i)) (seq 0 (List.length xs))) xs.

(** [{...fs, ...src}]: the own enumerable properties of [src] are copied in;
    an array or a string spreads its elements under their indices, other
    primitives and null add nothing. *)
Definition spread_into (fs : fields) (src : jsval) : fields :=
  match src with
  | JObject gs => spread_pairs gs fs
  | JArray xs => spread_pairs (indexed xs) fs
  | JString s => spread_pairs (indexed (map (fun c => JString (String c EmptyString))
                                            (list_ascii_of_string s))) fs
  | _ => fs
  end.

(** localStorage as an association of keys to strings. *)
Definition ls_remove (k : string) (st : list (string * string)) : list (string * string) :=
  filter (fun kv => negb (String.eqb (fst kv) k)) st.

Definition ls_set (k v : string) (st : list (string * string)) : list (string * string) :=
  (k, v) :: ls_remove k st.

Definition APP_SETTINGS_KEY : string := "expenseTrackerPreferences".
Definition BUDGET_SETTINGS_KEY : string := "expenseTrackerBudget".

Definition defaultAppSettings : fields :=
  [("currency", JString "USD"); ("dateFormat", JString "MM/DD/YYYY");
   ("startOfWeek", JString "Monday"); ("defaultTransactionType", JString "expense");
   ("enableNotifications", JBool true); ("budgetAlerts", JBool true); ("autoSync", JBool true)].

Definition defaultBudgetSettings : fields :=
  [("monthlyBudget", JNumber 3000%float); ("enableBudgetAlerts", JBool true);
   ("alertThreshold", JNumber 80%float); ("weeklyBudget", JNumber 750%float);
   ("categories", JArray [])].

(** The storage and the values held by the two BehaviorSubjects. *)
Record SettingsService := {
  storage : list (string * string);
  app_subject : fields;
  budget_subject : fields }.

Section SettingsStore.
(** JSON.parse (a SyntaxError is a [Throw]) and JSON.stringify. *)
Variable json_parse : string -> result jsval.
Variable json_stringify : jsval -> string.

(** The shared body of loadAppSettings and loadBudgetSettings. *)
Definition load_settings (key : string) (defaults : fields) (st : list (string * string)) : fields :=
  match lookup key st with
  | Some saved =>
      if String.eqb saved "" then spread_into [] (JObject defaults) else
      match json_parse saved with
      | Ok v => spread_into (spread_into [] (JObject defaults)) v
      | Throw _ => spread_into [] (JObject defaults)
      end
  | None => spread_into [] (JObject defaults)
  end.

Definition loadAppSettings (st : list (string * string)) : fields :=
  load_settings APP_SETTINGS_KEY defaultAppSettings st.

Definition loadBudgetSettings (st : list (string * string)) : fields :=
  load_settings BUDGET_SETTINGS_KEY defaultBudgetSettings st.

(** The constructor, on the storage found at page load. *)
Definition newSettingsService (st : list (string * string)) : SettingsService :=
  {| storage := st; app_subject := loadAppSettings st; budget_subject := loadBudgetSettings st |}.

Definition updateAppSettings (svc : SettingsService) (settings : jsval) : SettingsService :=
  let newSettings := spread_into (spread_into [] (JObject (app_subject svc))) settings in
  {| storage := ls_set APP_SETTINGS_KEY (json_stringify (JObject newSettings)) (storage svc);
     app_subject := newSettings; budget_subject := budget_subject svc |}.

Definition updateBudgetSettings (svc : SettingsService) (settings : jsval) : SettingsService :=
  let newSettings := spread_into (spread_into [] (JObject (budget_subject svc))) settings in
  {| storage := ls_set BUDGET_SETTINGS_KEY (json_stringify (JObject newSettings)) (storage svc);
     app_subject := app_subject svc; budget_subject := newSettings |}.

Definition resetToDefaults (svc : SettingsService) : SettingsService :=
  {| storage := ls_remove BUDGET_SETTINGS_KEY (ls_remove APP_SETTINGS_KEY (storage svc));
     app_subject := spread_into [] (JObject defaultAppSettings);
     budget_subject := spread_into [] (JObject defaultBudgetSettings) |}.

(** handleStorageChange(event): the write of another tab, reported by its
    key ([null] for a clear) and new value ([null] for a removal). *)
Definition handleStorageChange (svc : SettingsService) (key newValue : option string) : SettingsService :=
  let is_key k := match key with Some k' => String.eqb k' k | None => false end in
  match newValue with
  | Some nv =>
      if negb (String.eqb nv "") && is_key APP_SETTINGS_KEY then
        match json_parse nv with
        | Ok newSettings =>
            {| storage := storage svc;
               app_subject := spread_into (spread_into [] (JObject defaultAppSettings)) newSettings;
               budget_subject := budget_subject svc |}
        | Throw _ => svc
        end
      else if negb (String.eqb nv "") && is_key BUDGET_SETTINGS_KEY then
        match json_parse nv with
        | Ok newSettings =>
            {| storage := storage svc; app_subject := app_subject svc;
               budget_subject := spread_into (spread_into [] (JObject defaultBudgetSettings)) newSettings |}
        | Throw _ => svc
        end
      else svc
  | None => svc
  end.

Inductive SettingsOp :=
| OpUpdateApp (settings : jsval)
| OpUpdateBudget (settings : jsval)
| OpReset
| OpStorageEvent (key newValue : option string).

Definition settings_step (svc : SettingsService) (op : SettingsOp) : SettingsService :=
  match op with
  | OpUpdateApp s => updateAppSettings svc s
  | OpUpdateBudget s => updateBudgetSettings svc s
  | OpReset => resetToDefaults svc
  | OpStorageEvent k v => handleStorageChange svc k v
  end.

(** A session: the constructor followed by calls and storage events. *)
Definition run_settings (st : list (string * string)) (ops : list SettingsOp) : SettingsService :=
  fold_left settings_step ops (newSettingsService st).
End SettingsStore.

(** ** CategoryStatsComponent helpers (category-stats.component.ts) *)

(** The icon literal of getCategoryIcon; the glyphs are the bytes of the
    source file. *)
Definition category_icons : list (string * string) :=
  [("Food", "ğŸ”");
   ("Transport", "ğŸš—");
   ("Entertainment", "ğŸ¬");
   ("Shopping", "ğŸ›ï¸");
   ("Bills", "ğŸ§¾");
   ("Healthcare", "ğŸ¥");
   ("Education", "ğŸ“š");
   ("Travel", "âœˆï¸");
   ("Salary", "ğŸ’°");
   ("Freelance", "ğŸ’¼");
   ("Investment", "ğŸ“ˆ");
   ("Gift", "ğŸ")].

Definition category_colors : list (string * string) :=
  [("Food", "#dc2626");
   ("Transport", "#ea580c");
   ("Entertainment", "#f97316");
   ("Bills", "#f59e0b");
   ("Shopping", "#eab308");
   ("Healthcare", "#ca8a04");
   ("Education", "#a16207");
   ("Travel", "#854d0e");
   ("Utilities", "#713f12");
   ("Subscription", "#5c3c1c");
   ("Salary", "#065f46");
   ("Freelance", "#059669");
   ("Investment", "#0d9488");
   ("Business", "#a855f7");
   ("Gift", "#6366f1");
   ("Rental", "#8b5cf6");
   ("Other", "#0891b2")].

(** getCategoryIcon(category) *)
Definition getCategoryIcon (category : string) : prop_value :=
  if String.eqb category "" then PropString "ğŸ“Š" else
  match record_index category_icons category with
  | Some v => v
  | None => PropString "ğŸ“Š"
  end.

(** getCategoryColor(category) *)
Definition getCategoryColor (category : string) : prop_value :=
  match record_index category_colors category with
  | Some v => v
  | None => PropString "#6b7280"
  end.

Open Scope float_scope.

(** [this.budgetSettings?.categories.find(c => c.name.toLowerCase() ===
    categoryName.toLowerCase())]; [budgetSettings] stays undefined until
    budgetSettings$ has emitted, and [categories] is an array. *)
Definition find_budget_category (budgetSettings : option BudgetSettings) (categoryName : string)
  : option BudgetCategory :=
  match budgetSettings with
  | None => None
  | Some bs => find (fun c => String.eqb (toLowerCase (bc_name c)) (toLowerCase categoryName))
                 (categories bs)
  end.

(** getCategoryBudget(categoryName) *)
Definition getCategoryBudget (budgetSettings : option BudgetSettings) (categoryName : string) : jsnum :=
  match find_budget_category budgetSettings categoryName with
  | Some c => bc_budget c
  | None => 0
  end.

(** getCategorySpent(categoryName) *)
Definition getCategorySpent (budgetSettings : option BudgetSettings) (categoryName : string) : jsnum :=
  match find_budget_category budgetSettings categoryName with
  | Some c => bc_spent c
  | None => 0
  end.

(** getCategoryBudgetUtilization(categoryName) *)
Definition getCategoryBudgetUtilization (budgetSettings : option BudgetSettings) (categoryName : string)
  : jsnum :=
  let budget := getCategoryBudget budgetSettings categoryName in
  let spent := getCategorySpent budgetSettings categoryName in
  if budget <=? 0 then 0 else spent / budget * 100.

(** isCategoryOverBudget(categoryName) *)
Definition isCategoryOverBudget (budgetSettings : option BudgetSettings) (categoryName : string) : bool :=
  100 <=? getCategoryBudgetUtilization budgetSettings categoryName.

(** [this.budgetSettings?.alertThreshold || 80] *)
Definition category_alert_threshold (budgetSettings : option BudgetSettings) : jsnum :=
  match budgetSettings with
  | Some bs => if num_truthy (alertThreshold bs) then alertThreshold bs else 80
  | None => 80
  end.

(** getCategoryBudgetStatus(categoryName) *)
Definition getCategoryBudgetStatus (budgetSettings : option BudgetSettings) (categoryName : string)
  : string :=
  let utilization := getCategoryBudgetUtilization budgetSettings categoryName in
  let alertThreshold := category_alert_threshold budgetSettings in
  if 100 <=? utilization then "danger"
  else if alertThreshold <=? utilization then "warning"
  else "safe".

(** getCategoryRemainingBudget(categoryName) *)
Definition getCategoryRemainingBudget (budgetSettings : option BudgetSettings) (categoryName : string)
  : jsnum :=
  getCategoryBudget budgetSettings categoryName - getCategorySpent budgetSettings categoryName.

Section BarHeight.
(** ToNumber, which Math.max applies to each argument. *)
Variable to_number : jsval -> jsnum.

(** [Math.max(...xs)]: -Infinity for no argument. *)
Definition math_max (xs : list jsval) : jsnum :=
  fold_left (fun acc x => js_max acc (to_number x)) xs neg_infinity.

(** [monthlyData.map(m => m.amount)] *)
Definition bar_amounts (monthlyData : list jsval) : result (list jsval) :=
  mapM (fun m => get m "amount") monthlyData.

(** getBarHeight(amount, monthlyData); [None] is a null or undefined
    [monthlyData], whose [?.length] is undefined. *)
Definition getBarHeight (amount : jsnum) (monthlyData : option (list jsval)) : result jsnum :=
  match monthlyData with
  | None | Some [] => Ok 0
  | Some ms =>
      amounts <- bar_amounts ms ;;
      let max := math_max amounts in
      Ok (if PrimFloat.eqb max 0 then 0 else amount / max * 100)
  end.
End BarHeight.

Close Scope float_scope.

(** ** TransactionsComponent list filters and categories (transactions.component.ts) *)

(** The filter fields of the component. *)
Record TransactionFilters := {
  searchTerm : string;
  selectedType : string;
  selectedCategory : string;
  dateRange_start : string;
  dateRange_end : string }.

(** Their initial values. *)
Definition initialFilters : TransactionFilters :=
  {| searchTerm := ""; selectedType := "all"; selectedCategory := "all";
     dateRange_start := ""; dateRange_end := "" |}.

(** [s.includes(search)] *)
Fixpoint includes (s search : string) : bool :=
  String.prefix search s ||
  match s with
  | EmptyString => false
  | String _ s' => includes s' search
  end.

(** [Array.prototype.filter] with a callback that may throw. *)
Fixpoint filterM {A} (p : A -> result bool) (xs : list A) : result (list A) :=
  match xs with
  | [] => Ok []
  | x :: xs' => b <- p x ;; ys <- filterM p xs' ;; Ok (if b then x :: ys else ys)
  end.

Section TransactionFiltering.
(** The time value of [new Date(createdAt)] and of [new Date(string)]. *)
Variable time_of : date_src -> jsnum.
Variable parse_date : string -> jsnum.

Definition matchesSearch (f : TransactionFilters) (t : Transaction) : result bool :=
  d <- lower_of (tx_description t) ;;
  if includes d (toLowerCase (searchTerm f)) then Ok true else
  c <- lower_of (tx_category t) ;;
  Ok (includes c (toLowerCase (searchTerm f))).

Definition matchesType (f : TransactionFilters) (t : Transaction) : bool :=
  String.eqb (selectedType f) "all" || String.eqb (tx_type t) (selectedType f).

Definition matchesCategory (f : TransactionFilters) (t : Transaction) : bool :=
  String.eqb (selectedCategory f) "all" ||
  match tx_category t with JString c => String.eqb c (selectedCategory f) | _ => false end.

Definition matchesDate (f : TransactionFilters) (t : Transaction) : bool :=
  String.eqb (dateRange_start f) "" || String.eqb (dateRange_end f) "" ||
  (PrimFloat.leb (parse_date (dateRange_start f)) (time_of (tx_createdAt t)) &&
   PrimFloat.leb (time_of (tx_createdAt t)) (parse_date (dateRange_end f))).

(** applyFilters(): the new [filteredTransactions]; when the callback
    throws the assignment does not happen. *)
Definition applyFilters (f : TransactionFilters) (transactions : list Transaction)
  : result (list Transaction) :=
  filterM (fun t => matchesSearch_ <- matchesSearch f t ;;
                    Ok (matchesSearch_ && matchesType f t && matchesCategory f t && matchesDate f t))
    transactions.
End TransactionFiltering.

(** The initial [categories.expense], also the literal of the budget
    settings subscription. *)
Definition default_expense_categories : list string :=
  ["Food"; "Transport"; "Entertainment"; "Bills"; "Shopping"; "Healthcare"].

(** [[...new Set(xs)]]: the first occurrence of each value, in order. *)
Fixpoint set_values_from (seen : list string) (xs : list string) : list string :=
  match xs with
  | [] => []
  | x :: xs' =>
      if existsb (String.eqb x) seen then set_values_from seen xs'
      else x :: set_values_from (x :: seen) xs'
  end.

Definition set_values (xs : list string) : list string := set_values_from [] xs.

(** The categories part of loadSettings(), from the current
    [categories.expense]. *)
Definition loadSettings_expense (expense : list string) (budgetSettings : BudgetSettings) : list string :=
  match categories budgetSettings with
  | [] => expense
  | cats => set_values (expense ++ map bc_name cats)
  end.

(** The budgetSettings$ callback of subscribeToSettingsChanges(). *)
Definition budgetSettingsChanged_expense (expense : list string) (budgetSettings : BudgetSettings)
  : list string :=
  match categories budgetSettings with
  | [] => expense
  | cats => set_values (default_expense_categories ++ map bc_name cats)
  end.

Inductive CategoryEvent :=
| EvLoadSettings (budgetSettings : BudgetSettings)
| EvBudgetSettings (budgetSettings : BudgetSettings).

Definition category_step (expense : list string) (ev : CategoryEvent) : list string :=
  match ev with
  | EvLoadSettings bs => loadSettings_expense expense bs
  | EvBudgetSettings bs => budgetSettingsChanged_expense expense bs
  end.

Definition event_settings (ev : CategoryEvent) : BudgetSettings :=
  match ev with EvLoadSettings bs | EvBudgetSettings bs => bs end.

(** [categories.expense] after a run of loadSettings() calls and budget
    settings emissions. *)
Definition run_category_events (evs : list CategoryEvent) : list string :=
  fold_left category_step evs default_expense_categories.

(** ** Vocabulary of the statements about the remaining helpers *)

(** The values a [trend] field may take after normalisation. *)
Definition trend_values : list string := ["up"; "down"; "stable"].

Definition is_ok {A} (r : result A) : bool :=
  match r with Ok _ => true | Throw _ => false end.

Definition is_js_string (v : jsval) : bool :=
  match v with JString _ => true | _ => false end.

(** A number that is neither NaN nor -0. *)
Definition clean_number (n : jsnum) : bool :=
  negb (PrimFloat.is_nan n) && negb (PrimFloat.eqb n 0%float && PrimFloat.get_sign n).

(** null or undefined: where a property read throws. *)
Definition nullish (v : jsval) : bool :=
  match v with JUndefined | JNull => true | _ => false end.

(** An item on which mapCategoryBreakdown throws: null or undefined, or an
    object whose [amount] or [percentage] Number rejects. *)
Definition bad_category_item (x : jsval) : bool :=
  match x with
  | JUndefined | JNull => true
  | JObject fs => negb (prim_safe (field fs "amount") && prim_safe (field fs "percentage"))
  | _ => false
  end.

Definition bad_item_in (v : jsval) : bool :=
  match v with JArray xs => existsb bad_category_item xs | _ => false end.

(** [data.k] as mapIncomeStatement reads it from a truthy [data]. *)
Definition income_field (data : jsval) (k : string) : jsval :=
  match data with JObject fs => field fs k | _ => JUndefined end.

(** The four totals of an income statement convert with Number. *)
Definition income_totals_safe (data : jsval) : bool :=
  forallb (fun k => prim_safe (income_field data k))
    ["totalRevenue"; "totalExpenses"; "netIncome"; "grossMargin"].

(** [data.categories?.k] as mapIncomeStatement reads it from a truthy [data]. *)
Definition income_categories (data : jsval) (k : string) : jsval :=
  match data with
  | JObject fs => match field fs "categories" with JObject cs => field cs k | _ => JUndefined end
  | _ => JUndefined
  end.

(** The lengths of [detailedData.expenses] and [detailedData.revenues]. *)
Definition detailed_counts (v : jsval) : option (nat * nat) :=
  match v with
  | JObject fs =>
      match field fs "detailedData" with
      | JObject ds =>
          match field ds "expenses", field ds "revenues" with
          | JArray es, JArray rs => Some (List.length es, List.length rs)
          | _, _ => None
          end
      | _ => None
      end
  | _ => None
  end.

Definition trend_row_ok (t : TrendAnalysis) : Prop :=
  In (ta_trend t) trend_values /\ clean_number (ta_totalAmount t) = true /\
  clean_number (ta_percentageChange t) = true.

Definition expense_row_ok (r : ExpenseReport) : Prop :=
  truthy (er_category r) = true /\
  clean_number (er_totalAmount r) = true /\ clean_number (er_transactionCount r) = true /\
  clean_number (er_averageAmount r) = true /\ clean_number (er_percentage r) = true /\
  Forall (fun m => clean_number (mb_amount m) = true /\ clean_number (mb_percentage m) = true)
    (er_monthlyBreakdown r).


(** What the round trip of the settings through the storage requires of
    the JSON engine for the settings [svc] holds. *)
Definition json_stringify_ok_for (json_parse : string -> result jsval) (json_stringify : jsval -> string)
  (svc : SettingsService) : Prop :=
  json_stringify (JObject (app_subject svc)) <> "" /\
  json_parse (json_stringify (JObject (app_subject svc))) = Ok (JObject (app_subject svc)).

(** The settings the service holds: keys without duplicates, and every key
    of the defaults present. *)
Definition settings_inv (defaults fs : fields) : Prop :=
  NoDup (map fst fs) /\ (forall k, assoc k defaults <> None -> assoc k fs <> None).

(** Both subjects of the service satisfy [settings_inv]. *)
Definition service_inv (svc : SettingsService) : Prop :=
  settings_inv defaultAppSettings (app_subject svc) /\
  settings_inv defaultBudgetSettings (budget_subject svc).

(** The expense categories start with the defaults, without duplicates. *)
Definition expense_inv (cs : list string) : Prop :=
  NoDup cs /\ exists rest, cs = (default_expense_categories ++ rest)%list.

(** ** A concrete engine for evaluating examples

    A small instance of the runtime primitives: decimal integer literals
    for StringToNumber, integer renderings for Number::toString, and
    simple renderings for dates, JSON and Intl.  The theorems below hold for
    every runtime; this one only serves to run the definitions on inputs. *)

Fixpoint parse_digits (s : string) (acc : Z) : option Z :=
  match s with
  | EmptyString => Some acc
  | String c s' =>
      let n := nat_of_ascii c in
      if ((48 <=? n) && (n <=? 57))%nat
      then parse_digits s' (acc * 10 + Z.of_nat (n - 48))%Z
      else None
  end.

Definition float_of_Z (z : Z) : float := PrimFloat.of_uint63 (Uint63.of_Z z).

Definition sample_string_to_number (s : string) : jsnum :=
  let t := trim s in
  if String.eqb t "" then 0%float else
  match parse_digits t 0 with
  | Some z => float_of_Z z
  | None => nan
  end.

(** Integers in full; other values by their integer part and a dot. *)
Definition sample_magnitude (m : positive) (e : Z) : string :=
  if (0 <=? e)%Z then dec (Z.pos m * 2 ^ e)
  else if (Z.pos m mod 2 ^ (- e) =? 0)%Z then dec (Z.pos m / 2 ^ (- e))
  else dec (Z.pos m / 2 ^ (- e)) ++ ".".

Definition sample_number_to_string (n : jsnum) : string :=
  match Prim2SF n with
  | S754_zero _ => "0"
  | S754_finite false m e => sample_magnitude m e
  | S754_finite true m e => "-" ++ sample_magnitude m e
  | S754_infinity false => "Infinity"
  | S754_infinity true => "-Infinity"
  | S754_nan => "NaN"
  end.

(** ToString in the sample engine, empty where it throws. *)
Definition sample_text (v : jsval) : string :=
  match js_to_string sample_number_to_string v with
  | Ok s => s
  | Throw _ => ""
  end.

Definition sample_runtime : Runtime := {|
  rt_string_to_number := sample_string_to_number;
  rt_number_to_string := sample_number_to_string;
  rt_to_fixed := fun n _ => sample_number_to_string n;
  rt_json_stringify := sample_text;
  rt_date_locale_string := sample_text;
  rt_date_locale_date_string := fun v _ _ => sample_text v;
  rt_date_iso_string := fun v => Ok (sample_text v);
  rt_currency_format := fun locale cur v => locale ++ " " ++ cur ++ " " ++ sample_text v |}.

Definition default_settings : AppSettings := {|
  currency := "USD"; dateFormat := "MM/DD/YYYY"; startOfWeek := "Monday";
  defaultTransactionType := "expense"; enableNotifications := true;
  budgetAlerts := true; autoSync := true |}.

Definition with_currency (s : AppSettings) (c : string) : AppSettings := {|
  currency := c; dateFormat := dateFormat s; startOfWeek := startOfWeek s;
  defaultTransactionType := defaultTransactionType s;
  enableNotifications := enableNotifications s; budgetAlerts := budgetAlerts s;
  autoSync := autoSync s |}.

Definition sample_now : UtcTime := {|
  utc_year := 2026; utc_month := 10; utc_day := 18;
  utc_hour := 9; utc_minute := 5; utc_second := 0; utc_ms := 0 |}.

(** A custom-report item and a custom report as loadCustomReport stores them. *)
Definition sample_item (date category description : string) (amount : Z) : list (string * jsval) :=
  [("date", JString date); ("category", JString category);
   ("description", JString description); ("amount", JNumber (float_of_Z amount))].

Definition sample_crd (es rs : list (list (string * jsval))) : CustomReportData := {|
  crd_expenses := JArray (map JObject es);
  crd_revenues := JArray (map JObject rs);
  crd_totalExpenses := JNumber 0%float;
  crd_totalRevenues := JNumber 0%float;
  crd_netIncome := JNumber 0%float;
  crd_period := JString "month" |}.

(** The default budget settings with the given monthly budget and threshold. *)
Definition sample_budget (monthly threshold : Z) (cats : list BudgetCategory) : BudgetSettings := {|
  monthlyBudget := float_of_Z monthly; enableBudgetAlerts := true;
  alertThreshold := float_of_Z threshold; weeklyBudget := float_of_Z 750; categories := cats |}.

Definition sample_tx (type_ category : string) (amount : float) : Transaction := {|
  tx_id := "t1"; tx_amount := amount; tx_type := type_; tx_category := JString category;
  tx_description := JString ""; tx_createdAt := DateNow; tx_updatedAt := DateNow |}.

(** A trend-analysis response with a spelled-out trend, an unparsable
    amount and an item without fields. *)
Definition sample_trend_response : jsval :=
  JArray [JObject [("period", JString "2026-09"); ("totalAmount", JString "abc");
                   ("percentageChange", JNumber (float_of_Z 12)); ("trend", JString " UP ");
                   ("forecast", JNumber (float_of_Z 30))];
          JObject [("trend", JNull)]].

Definition sample_expense_report_response : jsval :=
  JArray [JObject [("category", JString ""); ("totalAmount", JString "120");
                   ("monthlyBreakdown", JArray [JObject [("month", JString "2026-09");
                                                         ("amount", JNull)]])]].

(** A backend that serves one user's transactions and fails every other
    request; the dates are time values. *)
Definition sample_http (r : Request) : result jsval :=
  if String.eqb (req_url r) "/api/users/u1/transactions" then
    Ok (JArray [JObject [("id", JNumber (float_of_Z 1)); ("amount", JNumber (float_of_Z 45));
                         ("type", JString "expense"); ("createdAt", JNumber (float_of_Z 5))];
                JObject [("id", JNumber (float_of_Z 2)); ("amount", JNumber (float_of_Z 900));
                         ("type", JString "Revenue"); ("createdAt", JNumber (float_of_Z 7))];
                JObject [("id", JNumber (float_of_Z 3)); ("amount", JNumber (float_of_Z 10));
                         ("type", JString "expense"); ("createdAt", JString "not a date")]])
  else if String.eqb (req_url r) "/api/users/u1/transactions/analysis/trend" then Ok JNull
  else Throw (Error "Http failure response: 500").

Definition sample_time_of (d : date_src) : jsnum :=
  match d with
  | DateOf (JNumber n) => n
  | DateOf _ => nan
  | DateNow => float_of_Z 6
  end.

Definition sample_parse_date (s : string) : jsnum := sample_string_to_number s.

Definition sample_iso_of_time (n : jsnum) : result string :=
  if PrimFloat.is_nan n then Throw (RangeError "Invalid time value")
  else Ok ("1970-01-01T00:00:00.00" ++ sample_number_to_string n ++ "Z").


(** A call of updateAppSettings with a known and an unknown field. *)
Definition sample_settings_patch : jsval :=
  JObject [("currency", JString "EUR"); ("theme", JString "dark")].

(** The settings that call leaves on a fresh service. *)
Definition sample_saved_settings : fields :=
  Eval vm_compute in spread_into (spread_into [] (JObject (spread_into [] (JObject defaultAppSettings))))
                       sample_settings_patch.

(** A JSON engine that writes every object as one text and reads back
    [sample_saved_settings] from it; any other text is a syntax error. *)
Definition sample_json_stringify (v : jsval) : string := sample_text v.

Definition sample_json_parse (s : string) : result jsval :=
  if String.eqb s "[object Object]" then Ok (JObject sample_saved_settings)
  else Throw (Error ("Unexpected token in JSON: " ++ s)).

Definition sample_settings_ops : list SettingsOp :=
  [OpStorageEvent (Some APP_SETTINGS_KEY) (Some "[object Object]");
   OpUpdateBudget (JObject [("monthlyBudget", JNumber 2000%float)]);
   OpStorageEvent (Some BUDGET_SETTINGS_KEY) (Some "{");
   OpReset;
   OpUpdateApp (JString "ab")].

(** ToNumber on the numbers of the sample bars; anything else is NaN. *)
Definition sample_to_number (v : jsval) : jsnum :=
  match v with JNumber n => n | _ => nan end.

Definition sample_monthly_data : list jsval :=
  [JObject [("month", JString "2026-08"); ("amount", JNumber (float_of_Z 40))];
   JObject [("month", JString "2026-09"); ("amount", JNumber (float_of_Z 120))];
   JObject [("month", JString "2026-10"); ("amount", JNumber (float_of_Z 75))]].

Example toISOString_sample : toISOString sample_now = "2026-10-18T09:05:00.000Z".
Proof. reflexivity. Qed.

Example number_sample : sample_string_to_number " 42 " = float_of_Z 42.
Proof. vm_compute. reflexivity. Qed.

(** * Properties *)

Ltac split_binds H :=
  repeat match type of H with
  | bind ?r _ = _ =>
      let E := fresh "E" in destruct r eqn:E; cbn [bind] in H; [| discriminate H]
  end.

(** ** Normalisation of backend transactions *)

Lemma get_object (fs : list (string * jsval)) (k : string) :
  get (JObject fs) k = Ok (field fs k).
Proof. reflexivity. Qed.

Lemma normalizeTransactionType_range (v : jsval) (t : string) :
  normalizeTransactionType v = Ok t -> t = "expense" \/ t = "revenue".
Proof.
  unfold normalizeTransactionType.
  destruct (truthy v); simpl; [| intros H; inversion H; auto].
  destruct v; try discriminate.
  destruct (String.eqb (trim (toLowerCase s)) "expense") eqn:E1;
  destruct (String.eqb (trim (toLowerCase s)) "revenue") eqn:E2; simpl;
  intros H; inversion H; subst; auto.
  - left. apply String.eqb_eq. assumption.
  - left. apply String.eqb_eq. assumption.
  - right. apply String.eqb_eq. assumption.
Qed.

Lemma normalizeTransactionType_ok (v : jsval) :
  type_field_ok v = true -> exists t, normalizeTransactionType v = Ok t.
Proof.
  unfold type_field_ok, normalizeTransactionType.
  destruct (truthy v); simpl; intros H; [| eauto].
  destruct v; try discriminate.
  destruct (_ || _); eauto.
Qed.

Lemma mapM_Forall {A B} (f : A -> result B) (P : B -> Prop) (xs : list A) (ys : list B) :
  (forall x y, f x = Ok y -> P y) -> mapM f xs = Ok ys -> Forall P ys.
Proof.
  intros Hf. revert ys.
  induction xs as [| x xs IH]; simpl; intros ys H.
  - inversion H; constructor.
  - destruct (f x) as [y | e] eqn:Ex; simpl in H; [| discriminate].
    destruct (mapM f xs) as [ys' | e] eqn:Exs; simpl in H; [| discriminate].
    inversion H; subst. constructor; eauto.
Qed.

Lemma is_ok_bind_ret {A B} (r : result A) (f : A -> B) : is_ok (bind r (fun a => Ok (f a))) = is_ok r.
Proof. destruct r; reflexivity. Qed.

Lemma is_ok_exists {A} (r : result A) : is_ok r = true -> exists a, r = Ok a.
Proof. destruct r; cbn [is_ok]; intros H; [eexists; reflexivity | discriminate]. Qed.

(** ToString throws exactly on the values that are not [prim_safe]. *)
Lemma js_to_string_ok (n2s : jsnum -> string) (v : jsval) :
  is_ok (js_to_string n2s v) = prim_safe v.
Proof.
  induction v using jsval_nested_ind; try reflexivity.
  - destruct b; reflexivity.
  - cbn [js_to_string prim_safe]. rewrite is_ok_bind_ret.
    induction H as [| x xs Hx _ IH]; [reflexivity |].
    cbn [forallb]. rewrite <- IH.
    match goal with
    | |- is_ok (bind ?m _) = _ =>
        assert (Em : is_ok m = prim_safe x) by (destruct x; try reflexivity; exact Hx);
        destruct m as [s | e]; cbn [bind is_ok] in Em |- *; rewrite <- Em; cbn [andb]
    end.
    + match goal with |- is_ok (bind ?m _) = _ => destruct m; reflexivity end.
    + reflexivity.
  - cbn [js_to_string prim_safe].
    match goal with |- context [assoc "toString" ?f] => destruct (assoc "toString" f) end;
    reflexivity.
Qed.

Lemma js_to_string_safe (n2s : jsnum -> string) (v : jsval) :
  prim_safe v = true -> exists s, js_to_string n2s v = Ok s.
Proof. intros H. apply is_ok_exists. rewrite js_to_string_ok. exact H. Qed.

Lemma to_primitive_ok (n2s : jsnum -> string) (v : jsval) :
  is_ok (to_primitive n2s v) = prim_safe v.
Proof.
  destruct v; try reflexivity; unfold to_primitive; rewrite is_ok_bind_ret; apply js_to_string_ok.
Qed.

Lemma to_number_ok (s2n : string -> jsnum) (n2s : jsnum -> string) (v : jsval) :
  is_ok (to_number s2n n2s v) = prim_safe v.
Proof.
  destruct v; try reflexivity; unfold to_number; rewrite is_ok_bind_ret; apply js_to_string_ok.
Qed.

Lemma num_or_zero_of (s2n : string -> jsnum) (n2s : jsnum -> string) (v : jsval) (n : jsnum) :
  to_number s2n n2s v = Ok n -> num_or_zero s2n n2s v = Ok (if num_truthy n then n else 0%float).
Proof. intros H. unfold num_or_zero. rewrite H. reflexivity. Qed.

Lemma id_string_ok (n2s : jsnum -> string) (v : jsval) :
  is_ok (id_string n2s v) = prim_safe v.
Proof.
  destruct v; try reflexivity; try apply js_to_string_ok.
  cbn [id_string prim_safe].
  match goal with |- context [assoc "toString" ?f] => destruct (assoc "toString" f) end;
  reflexivity.
Qed.

Lemma date_or_now_safe (n2s : jsnum -> string) (v : jsval) :
  prim_safe v = true -> exists d, date_or_now n2s v = Ok d.
Proof.
  intros H. unfold date_or_now. destruct (truthy v); [| eexists; reflexivity].
  destruct (is_ok_exists (to_primitive n2s v)) as [p Ep]; [rewrite to_primitive_ok; exact H |].
  rewrite Ep. eexists. reflexivity.
Qed.

Lemma mapTransaction_type (s2n : string -> jsnum) (n2s : jsnum -> string) (item : jsval) (tx : Transaction) :
  mapTransaction s2n n2s item = Ok tx -> tx_type tx = "expense" \/ tx_type tx = "revenue".
Proof.
  unfold mapTransaction. intros H. split_binds H.
  inversion H; subst; simpl.
  eapply normalizeTransactionType_range; eauto.
Qed.

(** Whenever the normalisation of a response returns, every
    transaction it returns has type 'expense' or 'revenue'. *)
Theorem mapTransactions_types (s2n : string -> jsnum) (n2s : jsnum -> string)
  (data : jsval) (txs : list Transaction) :
  mapTransactions s2n n2s data = Ok txs ->
  Forall (fun t => tx_type t = "expense" \/ tx_type t = "revenue") txs.
Proof.
  unfold mapTransactions.
  destruct (truthy data); simpl; [| intros H; inversion H; constructor].
  destruct data; try (intros H; inversion H; constructor).
  apply mapM_Forall. intros x y. apply mapTransaction_type.
Qed.

(** C1 (amended): a backend record whose [type] is absent, falsy or a
    string, and whose [id], [amount], [createdAt] and [updatedAt] convert
    to primitives (no object with an own [toString]), is rebuilt with the
    defaults: an amount that is missing or for which [Number(amount)] is
    NaN becomes 0, a missing category becomes "Uncategorized", a missing or
    unrecognised type becomes "expense", and the type is always 'expense'
    or 'revenue'. *)
Theorem mapTransaction_defaults (s2n : string -> jsnum) (n2s : jsnum -> string)
  (fields : list (string * jsval)) :
  type_field_ok (field fields "type") = true ->
  fields_prim_safe ["id"; "amount"; "createdAt"; "updatedAt"] fields = true ->
  exists tx, mapTransaction s2n n2s (JObject fields) = Ok tx /\
    (tx_type tx = "expense" \/ tx_type tx = "revenue") /\
    (forall n, to_number s2n n2s (field fields "amount") = Ok n ->
       PrimFloat.is_nan n = true -> tx_amount tx = 0%float) /\
    (assoc "amount" fields = None -> tx_amount tx = 0%float) /\
    (assoc "category" fields = None -> tx_category tx = JString "Uncategorized") /\
    (assoc "type" fields = None -> tx_type tx = "expense") /\
    (forall s, field fields "type" = JString s ->
       trim (toLowerCase s) <> "expense" -> trim (toLowerCase s) <> "revenue" ->
       tx_type tx = "expense").
Proof.
  intros Hty Hsafe.
  unfold fields_prim_safe in Hsafe. cbn [forallb] in Hsafe.
  apply andb_prop in Hsafe as [Hid Hsafe]. apply andb_prop in Hsafe as [Ham Hsafe].
  apply andb_prop in Hsafe as [Hcr Hsafe]. apply andb_prop in Hsafe as [Hup _].
  destruct (normalizeTransactionType_ok _ Hty) as [t Ht].
  destruct (is_ok_exists (id_string n2s (field fields "id"))) as [id Eid];
    [rewrite id_string_ok; exact Hid |].
  destruct (is_ok_exists (to_number s2n n2s (field fields "amount"))) as [n En];
    [rewrite to_number_ok; exact Ham |].
  destruct (date_or_now_safe n2s _ Hcr) as [cr Ecr].
  destruct (date_or_now_safe n2s _ Hup) as [up Eup].
  eexists. split.
  { unfold mapTransaction. rewrite !get_object. cbn [bind].
    rewrite Eid. cbn [bind]. rewrite (num_or_zero_of _ _ _ _ En). cbn [bind].
    rewrite Ht. cbn [bind]. rewrite Ecr. cbn [bind]. rewrite Eup. cbn [bind]. reflexivity. }
  cbn [tx_type tx_amount tx_category].
  split; [eapply normalizeTransactionType_range; eauto |].
  repeat split.
  - intros n' En' Hn. rewrite En in En'. inversion En'; subst n'.
    unfold num_truthy. rewrite Hn. reflexivity.
  - intros Ha. unfold field in En. rewrite Ha in En. inversion En; subst n. reflexivity.
  - intros Hc. unfold field. rewrite Hc. reflexivity.
  - intros Htn. unfold field in Ht. rewrite Htn in Ht. inversion Ht. reflexivity.
  - intros s0 Hs N1 N2. rewrite Hs in Ht. unfold normalizeTransactionType in Ht.
    simpl in Ht. destruct (negb (String.eqb s0 "")); simpl in Ht.
    + apply String.eqb_neq in N1. apply String.eqb_neq in N2.
      rewrite N1, N2 in Ht. inversion Ht. reflexivity.
    + inversion Ht. reflexivity.
Qed.

(** Witness of C1 on a record with a non-numeric amount, no category and a
    type padded with a no-break space. *)
Lemma mapTransaction_defaults_witness :
  type_field_ok (field [("amount", JString "abc");
                        ("type", JString (byte_string [194; 160] ++ "Revenue "))] "type") = true /\
  fields_prim_safe ["id"; "amount"; "createdAt"; "updatedAt"]
    [("amount", JString "abc"); ("type", JString (byte_string [194; 160] ++ "Revenue "))] = true /\
  exists tx, mapTransaction sample_string_to_number sample_number_to_string
               (JObject [("amount", JString "abc");
                         ("type", JString (byte_string [194; 160] ++ "Revenue "))]) = Ok tx /\
             tx_type tx = "revenue" /\ tx_amount tx = 0%float.
Proof.
  split; [reflexivity |]. split; [reflexivity |].
  destruct (mapTransaction_defaults sample_string_to_number sample_number_to_string
              [("amount", JString "abc"); ("type", JString (byte_string [194; 160] ++ "Revenue "))]
              eq_refl eq_refl)
    as [tx [H1 [_ [H3 _]]]].
  exists tx. split; [exact H1 |].
  split.
  - vm_compute in H1. injection H1 as <-. reflexivity.
  - apply (H3 nan); vm_compute; reflexivity.
Defined.

(** C1 fails for a record whose [type] is a truthy non-string, e.g. the
    number 1: [type.toLowerCase()] throws a TypeError, and getTransactions
    then resolves to an empty list for the whole response.  It fails too
    for an [id] that is an object with an own [toString] (a JSON number
    there is not callable): [item.id?.toString()] throws. *)
Lemma mapTransactions_numeric_type_throws :
  mapTransactions sample_string_to_number sample_number_to_string
    (JArray [JObject [("id", JNumber 7%float); ("amount", JNumber 10%float); ("type", JNumber 1%float);
                      ("category", JString "Food")]])
  = Throw (TypeError "type.toLowerCase is not a function") /\
  getTransactions sample_string_to_number sample_number_to_string "/api" (Some "u1")
    (fun _ => Ok (JArray [JObject [("id", JNumber 7%float); ("amount", JNumber 10%float);
                                   ("type", JNumber 1%float); ("category", JString "Food")]]))
    "month" 10%float 1%float
  = Ok [] /\
  mapTransactions sample_string_to_number sample_number_to_string
    (JArray [JObject [("id", JObject [("toString", JNumber 1%float)]); ("amount", JNumber 10%float);
                      ("type", JString "expense"); ("category", JString "Food")]])
  = Throw (TypeError "item.id?.toString is not a function").
Proof. split; [| split]; vm_compute; reflexivity. Qed.

(** ** Reads without a user fail soft, writes fail loud *)

(** C7: when no user id is resolved, every read method resolves with its
    empty or default value and every write method rejects with
    'User not authenticated', whatever the backend would answer. *)
Theorem no_user_reads_soft_writes_loud (s2n : string -> jsnum) (n2s : jsnum -> string)
  (apiUrl : string) (userId : option string) (http : Request -> result jsval) :
  user_missing userId = true ->
  (forall tf limit page, getTransactions s2n n2s apiUrl userId http tf limit page = Ok []) /\
  (forall tf, getTransactionSummary s2n n2s apiUrl userId http tf = Ok (getEmptySummary tf)) /\
  (forall tf, getCategorySummary s2n n2s apiUrl userId http tf = Ok []) /\
  (forall tf, getCategoryStats apiUrl userId http tf = Ok (getEmptyCategoryStats tf)) /\
  (forall limit, getRecentTransactions s2n n2s apiUrl userId http limit = Ok []) /\
  (forall tf limit page, getExpenses s2n n2s apiUrl userId http tf limit page = Ok []) /\
  (forall tf limit page, getRevenues s2n n2s apiUrl userId http tf limit page = Ok []) /\
  (forall t, addTransaction apiUrl userId http t = Throw (Error "User not authenticated")) /\
  (forall id ty t, updateTransaction apiUrl userId http id ty t = Throw (Error "User not authenticated")) /\
  (forall id ty, deleteTransaction apiUrl userId http id ty = Throw (Error "User not authenticated")).
Proof.
  intros Hu.
  unfold getTransactions, getTransactionSummary, getCategorySummary, getCategoryStats,
    getRecentTransactions, getExpenses, getRevenues, addTransaction, updateTransaction,
    deleteTransaction.
  rewrite Hu. repeat split; reflexivity.
Qed.

Lemma no_user_reads_soft_writes_loud_witness :
  user_missing None = true /\
  getTransactions sample_string_to_number sample_number_to_string "/api" None
    (fun _ => Ok (JArray [])) "month" 10%float 1%float = Ok [] /\
  deleteTransaction "/api" None (fun _ => Ok JNull) "t1" "expense"
    = Throw (Error "User not authenticated").
Proof.
  split; [reflexivity |].
  destruct (no_user_reads_soft_writes_loud sample_string_to_number sample_number_to_string
              "/api" None (fun _ => Ok (JArray [])) eq_refl)
    as [H1 [_ [_ [_ [_ [_ [_ [_ [_ H10]]]]]]]]].
  split; [apply H1 |].
  destruct (no_user_reads_soft_writes_loud sample_string_to_number sample_number_to_string
              "/api" None (fun _ => Ok JNull) eq_refl)
    as [_ [_ [_ [_ [_ [_ [_ [_ [_ H10']]]]]]]]].
  apply H10'.
Defined.

(** ** The file handed to saveAs *)

Lemma no_T_app (a b : string) : no_T (a ++ b) = no_T a && no_T b.
Proof.
  induction a as [|c a IH]; simpl; [reflexivity|].
  rewrite IH. apply andb_assoc.
Qed.

Lemma digit_not_T (d : Z) : (0 <= d < 10)%Z -> Ascii.eqb (digit d) "T"%char = false.
Proof.
  intro Hd.
  assert (d = 0 \/ d = 1 \/ d = 2 \/ d = 3 \/ d = 4 \/ d = 5 \/ d = 6 \/ d = 7
          \/ d = 8 \/ d = 9)%Z as Hcases by lia.
  repeat destruct Hcases as [-> | Hcases]; try reflexivity.
  subst; reflexivity.
Qed.

Lemma dec_aux_no_T (fuel : nat) : forall (n : Z) (acc : string),
  no_T acc = true -> no_T (dec_aux fuel n acc) = true.
Proof.
  induction fuel as [|f IH]; intros n acc Hacc; cbn [dec_aux]; [exact Hacc|].
  assert (Hd : no_T (String (digit (n mod 10)) acc) = true).
  { cbn [no_T]. rewrite digit_not_T by (apply Z.mod_pos_bound; lia). exact Hacc. }
  destruct (n / 10 =? 0)%Z; [exact Hd | apply IH; exact Hd].
Qed.

Lemma zeros_no_T (k : nat) : no_T (zeros k) = true.
Proof. induction k as [|k IH]; simpl; [reflexivity | exact IH]. Qed.

Lemma pad_no_T (w : nat) (n : Z) : no_T (pad w n) = true.
Proof.
  unfold pad, dec. rewrite no_T_app, zeros_no_T.
  apply dec_aux_no_T. reflexivity.
Qed.

Lemma iso_date_no_T (t : UtcTime) : no_T (iso_date t) = true.
Proof.
  unfold iso_date, iso_year.
  rewrite !no_T_app, !pad_no_T.
  destruct ((0 <=? utc_year t) && (utc_year t <=? 9999))%Z;
    [| destruct (utc_year t <? 0)%Z]; rewrite ?no_T_app, ?pad_no_T; reflexivity.
Qed.

Lemma before_T_app (a b : string) : no_T a = true -> before_T (a ++ String "T" b) = a.
Proof.
  induction a as [|c a IH]; simpl; intro H.
  - reflexivity.
  - apply andb_prop in H as [Hc Ha].
    apply negb_true_iff in Hc. rewrite Hc, (IH Ha). reflexivity.
Qed.

(** [new Date().toISOString().split('T')[0]] is the UTC calendar date. *)
Lemma before_T_toISOString (t : UtcTime) : before_T (toISOString t) = iso_date t.
Proof. unfold toISOString. apply before_T_app, iso_date_no_T. Qed.

(** C2: when the backend's PDF request fails, the 'pdf' export still saves
    a file, and that file is exactly the one the 'json' export saves for the
    same payload: JSON.stringify(data, null, 2) as application/json, named
    [filename_date.json]. *)
Theorem pdf_export_falls_back_to_json (rt : Runtime) (settings : AppSettings)
  (startDate endDate : string) (generateReport : jsval -> result jsval) (now : UtcTime)
  (data : jsval) (filename : string) (e : js_error) :
  generateReport (pdfReportData startDate endDate) = Throw e ->
  exportDataInFormat rt settings Fpdf startDate endDate generateReport now data filename
  = Ok {| file_blob := TextBlob (rt_json_stringify rt data) "application/json";
          file_name := filename ++ "_" ++ iso_date now ++ ".json" |}
  /\ exportDataInFormat rt settings Fpdf startDate endDate generateReport now data filename
     = exportDataInFormat rt settings Fjson startDate endDate generateReport now data filename.
Proof.
  intro Hfail. unfold exportDataInFormat. rewrite Hfail, before_T_toISOString.
  split; reflexivity.
Qed.

Lemma pdf_export_falls_back_to_json_witness :
  (fun _ : jsval => Throw (A := jsval) (Error "Http failure response"))
    (pdfReportData "2026-10-01" "2026-10-18") = Throw (Error "Http failure response")
  /\ exportDataInFormat sample_runtime default_settings Fpdf "2026-10-01" "2026-10-18"
       (fun _ => Throw (Error "Http failure response")) sample_now
       (JObject [("reportType", JString "Custom Report")]) "Custom_Report"
     = Ok {| file_blob := TextBlob (rt_json_stringify sample_runtime
                                      (JObject [("reportType", JString "Custom Report")]))
                                   "application/json";
             file_name := "Custom_Report" ++ "_" ++ iso_date sample_now ++ ".json" |}
  /\ exportDataInFormat sample_runtime default_settings Fpdf "2026-10-01" "2026-10-18"
       (fun _ => Throw (Error "Http failure response")) sample_now
       (JObject [("reportType", JString "Custom Report")]) "Custom_Report"
     = exportDataInFormat sample_runtime default_settings Fjson "2026-10-01" "2026-10-18"
       (fun _ => Throw (Error "Http failure response")) sample_now
       (JObject [("reportType", JString "Custom Report")]) "Custom_Report".
Proof.
  split; [reflexivity|].
  apply (pdf_export_falls_back_to_json sample_runtime default_settings "2026-10-01" "2026-10-18"
           (fun _ => Throw (Error "Http failure response")) sample_now
           (JObject [("reportType", JString "Custom Report")]) "Custom_Report"
           (Error "Http failure response")).
  reflexivity.
Defined.

(** C8 (amended): every file saved by exportDataInFormat is named
    [filename_D.ext], where D is the UTC calendar date of the export instant
    (YYYY-MM-DD, from toISOString) and ext is json, csv, html, md or pdf for
    the chosen format, except that a 'pdf' export whose backend request
    failed is saved with the extension json. *)
Theorem export_file_name (rt : Runtime) (settings : AppSettings) (fmt : ExportFormat)
  (startDate endDate : string) (generateReport : jsval -> result jsval) (now : UtcTime)
  (data : jsval) (filename : string) (f : SavedFile) :
  exportDataInFormat rt settings fmt startDate endDate generateReport now data filename = Ok f ->
  file_name f = filename ++ "_" ++ iso_date now ++ "." ++
    match fmt, generateReport (pdfReportData startDate endDate) with
    | Fpdf, Throw _ => "json"
    | _, _ => format_extension fmt
    end.
Proof.
  unfold exportDataInFormat. rewrite before_T_toISOString.
  destruct fmt; simpl.
  - destruct (generateReport (pdfReportData startDate endDate)); intro H;
      injection H as <-; reflexivity.
  - destruct (convertToCSV rt data); simpl; intro H; [injection H as <-; reflexivity | discriminate].
  - intro H; injection H as <-; reflexivity.
  - destruct (convertToHTML rt settings data); simpl; intro H;
      [injection H as <-; reflexivity | discriminate].
  - destruct (convertToMarkdown rt settings data); simpl; intro H;
      [injection H as <-; reflexivity | discriminate].
Qed.

Lemma export_file_name_witness :
  exportDataInFormat sample_runtime default_settings Fjson "2026-10-01" "2026-10-18"
    (fun _ => Ok JNull) sample_now JNull "Custom_Report"
  = Ok {| file_blob := TextBlob (rt_json_stringify sample_runtime JNull) "application/json";
          file_name := "Custom_Report_2026-10-18.json" |}
  /\ "Custom_Report_2026-10-18.json"
     = "Custom_Report" ++ "_" ++ iso_date sample_now ++ "." ++
       match Fjson, (fun _ : jsval => Ok (A := jsval) JNull) (pdfReportData "2026-10-01" "2026-10-18") with
       | Fpdf, Throw _ => "json"
       | _, _ => format_extension Fjson
       end.
Proof.
  split; [reflexivity|].
  apply (export_file_name sample_runtime default_settings Fjson "2026-10-01" "2026-10-18"
           (fun _ => Ok JNull) sample_now JNull "Custom_Report"
           {| file_blob := TextBlob (rt_json_stringify sample_runtime JNull) "application/json";
              file_name := "Custom_Report_2026-10-18.json" |}).
  reflexivity.
Defined.

(** A custom report exported as 'pdf' while the backend request fails: the
    saved file is named with the extension json, not pdf. *)
Lemma export_pdf_failure_json_name :
  result_map file_name
    (exportCustomReport sample_runtime default_settings Fpdf "2026-10-01" "2026-10-18"
       (fun _ => Throw (Error "Http failure response")) sample_now
       (sample_crd [sample_item "2026-10-02" "Food" "Groceries" 45] []))
  = Ok "Custom_Report_2026-10-18.json".
Proof. vm_compute. reflexivity. Qed.

(** ** CSV export *)

Lemma count_char_app (c : ascii) (a b : string) :
  count_char c (a ++ b) = (count_char c a + count_char c b)%nat.
Proof. induction a as [|c' a IH]; simpl; [reflexivity | rewrite IH; lia]. Qed.

Lemma append_empty_r (s : string) : s ++ "" = s.
Proof. induction s as [|c s IH]; simpl; [reflexivity | rewrite IH; reflexivity]. Qed.

Lemma count_char_concat (c : ascii) (xs : list string) :
  count_char c (String.concat "" xs) = list_sum (map (count_char c) xs).
Proof.
  induction xs as [|x xs IH]; [reflexivity|].
  destruct xs as [|y ys]; simpl.
  - lia.
  - rewrite count_char_app. simpl in IH. rewrite IH. reflexivity.
Qed.

Lemma js_map_join_objects (fss : list (list (string * jsval))) (f : jsval -> result string)
  (g : list (string * jsval) -> string) :
  (forall fs, In fs fss -> f (JObject fs) = Ok (g fs)) ->
  js_map_join (JArray (map JObject fss)) f = Ok (String.concat "" (map g fss)).
Proof.
  intro Hf. unfold js_map_join.
  assert (mapM f (map JObject fss) = Ok (map g fss)) as ->.
  { induction fss as [|fs fss IH]; simpl; [reflexivity|].
    rewrite (Hf fs (or_introl eq_refl)), IH; [reflexivity |].
    intros fs' H. apply Hf. right. exact H. }
  reflexivity.
Qed.

Lemma str_of_safe (rt : Runtime) (v : jsval) :
  prim_safe v = true -> str_of rt v = Ok (str_text rt v).
Proof.
  intros H. destruct (js_to_string_safe (rt_number_to_string rt) v H) as [s Es].
  unfold str_text, str_of. rewrite Es. reflexivity.
Qed.

Lemma fields_prim_safe_4 (k1 k2 k3 k4 : string) (fs : list (string * jsval)) :
  fields_prim_safe [k1; k2; k3; k4] fs = true ->
  prim_safe (field fs k1) = true /\ prim_safe (field fs k2) = true /\
  prim_safe (field fs k3) = true /\ prim_safe (field fs k4) = true.
Proof.
  unfold fields_prim_safe. cbn [forallb]. rewrite andb_true_r. intros H.
  apply andb_prop in H as [H1 H]. apply andb_prop in H as [H2 H]. apply andb_prop in H as [H3 H4].
  auto.
Qed.

(** The rows of a custom report, as the spec lists its columns. *)
Lemma custom_csv_row_lines (rt : Runtime) (kind : string) (fs : list (string * jsval)) (cur : string) :
  count_char newline kind = O ->
  count_char newline (str_text rt (field fs "date")) = O ->
  count_char newline (str_text rt (field fs "category")) = O ->
  count_char newline (str_text rt (field fs "description")) = O ->
  count_char newline (str_text rt (field fs "amount")) = O ->
  count_char newline cur = O ->
  count_char newline (custom_csv_row rt kind fs cur) = 1%nat.
Proof.
  intros Hk Hd Hc Hs Ha Hu. unfold custom_csv_row.
  rewrite !count_char_app, Hk, Hd, Hc, Hs, Ha, Hu. reflexivity.
Qed.

(** C3 (amended): convertToCSV writes the header row
    [Type,Date,Category,Description,Amount,Currency] and then one
    newline-terminated row per item, the expenses first and then the
    revenues, each with its columns in the order type, date, category,
    description (in quotes), amount, currency; so a report with [e]
    expenses and [r] revenues has [1 + e + r] lines (4 for two expenses and
    one revenue) provided no field contains a line break.  A trend report
    has the header [Period,Amount,Change (%),Trend,Currency] and one row
    per data point in that column order.  The fields written must convert
    to strings: an object with an own [toString] makes the template
    literal throw. *)
Theorem csv_layout (rt : Runtime) (settings : AppSettings) (now : UtcTime)
  (crd : CustomReportData) (es rs : list (list (string * jsval))) :
  crd_expenses crd = JArray (map JObject es) ->
  crd_revenues crd = JArray (map JObject rs) ->
  Forall (fun fs => fields_prim_safe ["date"; "category"; "description"; "amount"] fs = true) (es ++ rs) ->
  convertToCSV rt (customReportPayload settings now crd)
  = Ok (custom_csv_header ++ nl
        ++ String.concat "" (map (fun fs => custom_csv_row rt "Expense" fs (currency settings)) es)
        ++ String.concat "" (map (fun fs => custom_csv_row rt "Revenue" fs (currency settings)) rs))
  /\ (count_char newline (currency settings) = O ->
      Forall (fun fs => Forall (fun k => count_char newline (str_text rt (field fs k)) = O)
                               ["date"; "category"; "description"; "amount"]) (es ++ rs) ->
      count_char newline
        (custom_csv_header ++ nl
         ++ String.concat "" (map (fun fs => custom_csv_row rt "Expense" fs (currency settings)) es)
         ++ String.concat "" (map (fun fs => custom_csv_row rt "Revenue" fs (currency settings)) rs))
      = (1 + length es + length rs)%nat)
  /\ (forall (period : string) (items : list (list (string * jsval))) (summary : jsval),
        Forall (fun fs => fields_prim_safe ["period"; "totalAmount"; "percentageChange"; "trend"] fs = true)
          items ->
        convertToCSV rt (trendReportPayload settings now period (map JObject items) summary)
        = Ok (trend_csv_header ++ nl
              ++ String.concat "" (map (fun fs => trend_csv_row rt fs (currency settings)) items))).
Proof.
  intros He Hr Hsafe. split; [|split].
  - unfold convertToCSV.
    change (get (customReportPayload settings now crd) "reportType") with (Ok (A := jsval) (JString "Custom Report")).
    change (get (customReportPayload settings now crd) "expenses") with (Ok (A := jsval) (crd_expenses crd)).
    change (get (customReportPayload settings now crd) "revenues") with (Ok (A := jsval) (crd_revenues crd)).
    change (get (customReportPayload settings now crd) "currency") with (Ok (A := jsval) (JString (currency settings))).
    rewrite He, Hr. cbn [bind is_string String.eqb Ascii.eqb Bool.eqb andb].
    apply Forall_app in Hsafe as [Hse Hsr].
    rewrite Forall_forall in Hse, Hsr.
    erewrite js_map_join_objects.
    2:{ intros fs Hin. destruct (fields_prim_safe_4 _ _ _ _ fs (Hse fs Hin)) as [H1 [H2 [H3 H4]]].
        rewrite !get_object. cbn [bind].
        rewrite (str_of_safe rt _ H1). cbn [bind]. rewrite (str_of_safe rt _ H2). cbn [bind].
        rewrite (str_of_safe rt _ H3). cbn [bind]. rewrite (str_of_safe rt _ H4). cbn [bind].
        reflexivity. }
    cbn [bind].
    erewrite js_map_join_objects.
    2:{ intros fs Hin. destruct (fields_prim_safe_4 _ _ _ _ fs (Hsr fs Hin)) as [H1 [H2 [H3 H4]]].
        rewrite !get_object. cbn [bind].
        rewrite (str_of_safe rt _ H1). cbn [bind]. rewrite (str_of_safe rt _ H2). cbn [bind].
        rewrite (str_of_safe rt _ H3). cbn [bind]. rewrite (str_of_safe rt _ H4). cbn [bind].
        reflexivity. }
    reflexivity.
  - intros Hu Hf. rewrite !count_char_app, !count_char_concat.
    apply Forall_app in Hf as [Hfe Hfr].
    assert (Hrow : forall kind l, count_char newline kind = O ->
      Forall (fun fs => Forall (fun k => count_char newline (str_text rt (field fs k)) = O)
                               ["date"; "category"; "description"; "amount"]) l ->
      list_sum (map (count_char newline) (map (fun fs => custom_csv_row rt kind fs (currency settings)) l))
      = length l).
    { intros kind l Hk Hl. induction Hl as [|fs l Hfs Hl IH]; [reflexivity|].
      simpl. rewrite IH.
      apply Forall_cons_iff in Hfs as [Hd Hfs]. apply Forall_cons_iff in Hfs as [Hc Hfs].
      apply Forall_cons_iff in Hfs as [Hs Hfs]. apply Forall_cons_iff in Hfs as [Ha _].
      rewrite custom_csv_row_lines; auto. }
    rewrite (Hrow "Expense" es eq_refl Hfe), (Hrow "Revenue" rs eq_refl Hfr). reflexivity.
  - intros period items summary Hitems. unfold convertToCSV.
    change (get (trendReportPayload settings now period (map JObject items) summary) "reportType")
      with (Ok (A := jsval) (JString "Trend Analysis")).
    cbn [bind is_string].
    change (get (trendReportPayload settings now period (map JObject items) summary) "data")
      with (Ok (A := jsval) (JArray (map JObject items))).
    change (get (trendReportPayload settings now period (map JObject items) summary) "currency")
      with (Ok (A := jsval) (JString (currency settings))).
    cbn [bind]. rewrite Forall_forall in Hitems.
    erewrite js_map_join_objects; [reflexivity |].
    intros fs Hin. destruct (fields_prim_safe_4 _ _ _ _ fs (Hitems fs Hin)) as [H1 [H2 [H3 H4]]].
    rewrite !get_object. cbn [bind].
    rewrite (str_of_safe rt _ H1). cbn [bind]. rewrite (str_of_safe rt _ H2). cbn [bind].
    rewrite (str_of_safe rt _ H3). cbn [bind]. rewrite (str_of_safe rt _ H4). cbn [bind].
    reflexivity.
Qed.

Lemma csv_layout_witness :
  exists out,
    convertToCSV sample_runtime (customReportPayload default_settings sample_now
      (sample_crd [sample_item "2026-10-02" "Food" "Groceries" 45;
                   sample_item "2026-10-05" "Transport" "Bus pass" 30]
                  [sample_item "2026-10-01" "Salary" "October salary" 3000])) = Ok out
    /\ count_char newline out = 4%nat.
Proof.
  destruct (csv_layout sample_runtime default_settings sample_now
      (sample_crd [sample_item "2026-10-02" "Food" "Groceries" 45;
                   sample_item "2026-10-05" "Transport" "Bus pass" 30]
                  [sample_item "2026-10-01" "Salary" "October salary" 3000])
      [sample_item "2026-10-02" "Food" "Groceries" 45;
       sample_item "2026-10-05" "Transport" "Bus pass" 30]
      [sample_item "2026-10-01" "Salary" "October salary" 3000] eq_refl eq_refl
      ltac:(repeat constructor))
    as [Hout [Hcount _]].
  eexists. split; [exact Hout|].
  apply Hcount; [reflexivity | repeat constructor].
Defined.

(** A description with a line break: two expenses and one revenue give five
    lines.  And a category that is an object with an own [toString] makes
    the template literal of its row throw. *)
Lemma csv_description_newline_five_lines :
  (exists out,
    convertToCSV sample_runtime (customReportPayload default_settings sample_now
      (sample_crd [sample_item "2026-10-02" "Food" ("Groceries" ++ nl ++ "and snacks") 45;
                   sample_item "2026-10-05" "Transport" "Bus pass" 30]
                  [sample_item "2026-10-01" "Salary" "October salary" 3000])) = Ok out
    /\ count_char newline out = 5%nat)
  /\ convertToCSV sample_runtime (customReportPayload default_settings sample_now
       (sample_crd [[("date", JString "2026-10-02"); ("category", JObject [("toString", JNumber 1%float)]);
                     ("description", JString "Groceries"); ("amount", JNumber 45%float)]] []))
     = Throw (TypeError "Cannot convert object to primitive value").
Proof.
  split; [eexists; split; [reflexivity | vm_compute; reflexivity] | vm_compute; reflexivity].
Qed.

(** C9: only the description is quoted and nothing is escaped, so a comma
    in the category or the date, or a double quote in the description,
    breaks the six columns of the header when the row is read back as CSV
    (RFC 4180). *)
Theorem csv_row_columns_shift :
  csv_fields custom_csv_header = ["Type"; "Date"; "Category"; "Description"; "Amount"; "Currency"]
  /\ convertToCSV sample_runtime (customReportPayload default_settings sample_now
       (sample_crd [sample_item "2026-10-02" "Food, Groceries" "Weekly shop" 45] []))
     = Ok (custom_csv_header ++ nl ++ "Expense,2026-10-02,Food, Groceries,"
           ++ dq ++ "Weekly shop" ++ dq ++ ",45,USD" ++ nl)
  /\ csv_fields ("Expense,2026-10-02,Food, Groceries," ++ dq ++ "Weekly shop" ++ dq ++ ",45,USD")
     = ["Expense"; "2026-10-02"; "Food"; " Groceries"; "Weekly shop"; "45"; "USD"]
  /\ convertToCSV sample_runtime (customReportPayload default_settings sample_now
       (sample_crd [sample_item "Oct 2, 2026" "Food" "Weekly shop" 45] []))
     = Ok (custom_csv_header ++ nl ++ "Expense,Oct 2, 2026,Food,"
           ++ dq ++ "Weekly shop" ++ dq ++ ",45,USD" ++ nl)
  /\ csv_fields ("Expense,Oct 2, 2026,Food," ++ dq ++ "Weekly shop" ++ dq ++ ",45,USD")
     = ["Expense"; "Oct 2"; " 2026"; "Food"; "Weekly shop"; "45"; "USD"]
  /\ convertToCSV sample_runtime (customReportPayload default_settings sample_now
       (sample_crd [sample_item "2026-10-02" "Electronics" ("5" ++ dq ++ " screen, tablet") 45] []))
     = Ok (custom_csv_header ++ nl ++ "Expense,2026-10-02,Electronics,"
           ++ dq ++ "5" ++ dq ++ " screen, tablet" ++ dq ++ ",45,USD" ++ nl)
  /\ csv_fields ("Expense,2026-10-02,Electronics," ++ dq ++ "5" ++ dq ++ " screen, tablet" ++ dq ++ ",45,USD")
     = ["Expense"; "2026-10-02"; "Electronics"; "5 screen"; " tablet,45,USD"].
Proof. repeat split; vm_compute; reflexivity. Qed.

(** ** What the export converters read *)

Section SettingsView.
Variable rt : Runtime.
Variables s1 s2 : AppSettings.
Hypothesis same_currency : currency s1 = currency s2.
Hypothesis same_dateFormat : dateFormat s1 = dateFormat s2.

Lemma formatCurrency_view : formatCurrency rt s1 = formatCurrency rt s2.
Proof. unfold formatCurrency. rewrite same_currency. reflexivity. Qed.

Lemma formatDate_view : formatDate rt s1 = formatDate rt s2.
Proof. unfold formatDate. rewrite same_dateFormat. reflexivity. Qed.

Lemma getCurrencySymbol_view : getCurrencySymbol s1 = getCurrencySymbol s2.
Proof. unfold getCurrencySymbol. rewrite same_currency. reflexivity. Qed.

Lemma convertToMarkdown_view : convertToMarkdown rt s1 = convertToMarkdown rt s2.
Proof.
  unfold convertToMarkdown, md_item_row.
  rewrite formatCurrency_view, formatDate_view, getCurrencySymbol_view. reflexivity.
Qed.

Lemma convertToHTML_view : convertToHTML rt s1 = convertToHTML rt s2.
Proof.
  unfold convertToHTML, html_trend_row, html_revenue_row, html_expense_row.
  rewrite formatCurrency_view, formatDate_view, getCurrencySymbol_view. reflexivity.
Qed.
End SettingsView.

(** C5 (amended): the content of an exported file is a function of the
    payload, of the currency and dateFormat of the settings read at export
    time, and of the runtime's rendering primitives: two exports of the same
    payload under settings that agree on currency and dateFormat save the
    same content, whatever the instants of the two exports (only the file
    name carries the date). *)
Theorem export_content_view (rt : Runtime) (s1 s2 : AppSettings) :
  currency s1 = currency s2 ->
  dateFormat s1 = dateFormat s2 ->
  (forall data : jsval,
     convertToHTML rt s1 data = convertToHTML rt s2 data
     /\ convertToMarkdown rt s1 data = convertToMarkdown rt s2 data)
  /\ (forall (fmt : ExportFormat) (startDate endDate : string)
             (generateReport : jsval -> result jsval) (now1 now2 : UtcTime)
             (data : jsval) (filename1 filename2 : string),
        result_map file_blob
          (exportDataInFormat rt s1 fmt startDate endDate generateReport now1 data filename1)
        = result_map file_blob
          (exportDataInFormat rt s2 fmt startDate endDate generateReport now2 data filename2)).
Proof.
  intros Hc Hd. split.
  - intro data. rewrite (convertToHTML_view rt s1 s2 Hc Hd),
      (convertToMarkdown_view rt s1 s2 Hc Hd). split; reflexivity.
  - intros fmt startDate endDate generateReport now1 now2 data filename1 filename2.
    unfold exportDataInFormat.
    rewrite (convertToHTML_view rt s1 s2 Hc Hd), (convertToMarkdown_view rt s1 s2 Hc Hd).
    destruct fmt.
    + destruct (generateReport (pdfReportData startDate endDate)); reflexivity.
    + destruct (convertToCSV rt data); reflexivity.
    + reflexivity.
    + destruct (convertToHTML rt s2 data); reflexivity.
    + destruct (convertToMarkdown rt s2 data); reflexivity.
Qed.

Lemma export_content_view_witness :
  result_map file_blob
    (exportDataInFormat sample_runtime default_settings Fmarkdown "2026-10-01" "2026-10-18"
       (fun _ => Ok JNull) sample_now
       (customReportPayload default_settings sample_now
          (sample_crd [sample_item "2026-10-02" "Food" "Groceries" 45] []))
       "Custom_Report")
  = result_map file_blob
    (exportDataInFormat sample_runtime
       {| currency := "USD"; dateFormat := "MM/DD/YYYY"; startOfWeek := "Sunday";
          defaultTransactionType := "revenue"; enableNotifications := false;
          budgetAlerts := false; autoSync := false |}
       Fmarkdown "2026-10-01" "2026-10-18" (fun _ => Ok JNull)
       {| utc_year := 2027; utc_month := 1; utc_day := 2;
          utc_hour := 23; utc_minute := 59; utc_second := 59; utc_ms := 999 |}
       (customReportPayload default_settings sample_now
          (sample_crd [sample_item "2026-10-02" "Food" "Groceries" 45] []))
       "Report").
Proof.
  apply (export_content_view sample_runtime default_settings
    {| currency := "USD"; dateFormat := "MM/DD/YYYY"; startOfWeek := "Sunday";
       defaultTransactionType := "revenue"; enableNotifications := false;
       budgetAlerts := false; autoSync := false |}); reflexivity.
Defined.

(** The same payload converted under the currency USD and then EUR. *)
Lemma markdown_depends_on_settings :
  convertToMarkdown sample_runtime default_settings
    (customReportPayload default_settings sample_now (sample_crd [] []))
  <> convertToMarkdown sample_runtime (with_currency default_settings "EUR")
    (customReportPayload default_settings sample_now (sample_crd [] [])).
Proof. vm_compute. intro H. injection H. intros. discriminate. Qed.

(** ** Currency formatting *)

(** C6 (amended): for a configured currency code that is well formed (three
    ASCII letters, as every code of the locale table is), the
    Intl.NumberFormat constructor accepts it and formatCurrency renders the
    ToPrimitive of the amount (0 for null or undefined) with the currency's
    mapped locale, or with en-US for a code outside the table; it throws
    exactly when ToPrimitive does, i.e. for an amount that is an object with
    an own [toString] (or an array holding one), and never for a primitive
    amount. *)
Theorem formatCurrency_well_formed (rt : Runtime) (settings : AppSettings) (amount : jsval) :
  isWellFormedCurrencyCode (currency settings) = true ->
  formatCurrency rt settings amount
  = result_map (rt_currency_format rt
                  (match lookup (currency settings) currencyLocales with
                   | Some l => l
                   | None => "en-US"
                   end)
                  (currency settings))
      (to_primitive (rt_number_to_string rt)
         (match amount with JUndefined | JNull => JNumber 0%float | v => v end))
  /\ is_ok (formatCurrency rt settings amount) = prim_safe amount
  /\ (match amount with JArray _ | JObject _ => False | _ => True end ->
      formatCurrency rt settings amount
      = Ok (rt_currency_format rt (currency_locale (currency settings)) (currency settings)
              (match amount with JUndefined | JNull => JNumber 0%float | v => v end)))
  /\ Forall (fun cl => isWellFormedCurrencyCode (fst cl) = true) currencyLocales.
Proof.
  intro Hwf.
  assert (E : formatCurrency rt settings amount
    = result_map (rt_currency_format rt (currency_locale (currency settings)) (currency settings))
        (to_primitive (rt_number_to_string rt)
           (match amount with JUndefined | JNull => JNumber 0%float | v => v end))).
  { unfold formatCurrency, Intl_NumberFormat. rewrite Hwf. cbn [bind nf_locale nf_currency].
    destruct (to_primitive _ _); reflexivity. }
  split; [exact E | split; [| split]].
  - rewrite E. destruct amount; try reflexivity;
      match goal with |- is_ok (result_map ?f ?r) = ?b =>
        transitivity (is_ok r); [destruct r; reflexivity | apply to_primitive_ok] end.
  - intros Hp. rewrite E. destruct amount; try contradiction; reflexivity.
  - repeat constructor.
Qed.

Lemma formatCurrency_well_formed_witness :
  isWellFormedCurrencyCode (currency (with_currency default_settings "TND")) = true
  /\ formatCurrency sample_runtime (with_currency default_settings "TND") JNull
     = Ok (rt_currency_format sample_runtime "en-US" "TND" (JNumber 0%float)).
Proof.
  split; [reflexivity|].
  destruct (formatCurrency_well_formed sample_runtime (with_currency default_settings "TND") JNull
              eq_refl) as [_ [_ [H _]]].
  apply H. exact I.
Defined.

(** A configured code that is not three letters (the settings are merged
    from whatever localStorage holds) makes the Intl.NumberFormat
    constructor throw; an amount that is an object with an own [toString]
    makes [format] throw, even under the well-formed code USD. *)
Lemma formatCurrency_malformed_code_throws :
  formatCurrency sample_runtime (with_currency default_settings "EURO") (JNumber 5%float)
  = Throw (RangeError "Invalid currency code : EURO")
  /\ formatCurrency sample_runtime (with_currency default_settings "") JNull
     = Throw (RangeError "Invalid currency code : ")
  /\ formatCurrency sample_runtime default_settings (JObject [("toString", JNumber 1%float)])
     = Throw (TypeError "Cannot convert object to primitive value").
Proof. split; [| split]; reflexivity. Qed.

(** ** Budget alerts *)

Lemma formatCurrency_number (rt : Runtime) (settings : AppSettings) (n : jsnum) :
  isWellFormedCurrencyCode (currency settings) = true ->
  formatCurrency rt settings (JNumber n)
  = Ok (rt_currency_format rt (currency_locale (currency settings)) (currency settings) (JNumber n)).
Proof. intros Hwf. unfold formatCurrency, Intl_NumberFormat. rewrite Hwf. reflexivity. Qed.

Lemma checkCategory_alerts (rt : Runtime) (settings : AppSettings) (th : jsnum) (c : BudgetCategory) :
  isWellFormedCurrencyCode (currency settings) = true ->
  checkCategory rt settings th c
  = (match categoryAlert c th with
     | Some a => [(a, CategoryScope (bc_name c))]
     | None => []
     end, Ok tt).
Proof.
  intros Hwf. unfold checkCategory, categoryAlert.
  destruct (bc_budget c <=? 0)%float; [reflexivity |].
  unfold brun_lift. rewrite !(formatCurrency_number rt settings _ Hwf).
  destruct (bc_budget c <=? bc_spent c)%float; [reflexivity |].
  destruct (th <=? bc_spent c / bc_budget c * 100)%float; reflexivity.
Qed.

Lemma checkCategory_forEach (rt : Runtime) (settings : AppSettings) (th : jsnum)
  (cs : list BudgetCategory) :
  isWellFormedCurrencyCode (currency settings) = true ->
  brun_forEach (checkCategory rt settings th) cs
  = (flat_map (fun c => match categoryAlert c th with
                        | Some a => [(a, CategoryScope (bc_name c))]
                        | None => []
                        end) cs, Ok tt).
Proof.
  intros Hwf. induction cs as [| c cs IH]; [reflexivity |].
  cbn [brun_forEach flat_map]. rewrite (checkCategory_alerts rt settings th c Hwf), IH.
  reflexivity.
Qed.

(** C4 (amended): the monthly alert is 'danger' when the month's spend is at
    least the monthly budget; otherwise 'warning' when the double-precision
    percentage spend / budget * 100 is at least alertThreshold; otherwise
    none.  With budget 3000 and threshold 80, spend 2500 is near budget,
    every spend from 3000 up is over budget, and every integer spend below
    4000 is classified as the exact rule of the spec says.  When the
    configured currency code is well formed, the formatCurrency calls of
    checkBudgetAfterTransaction do not throw and it raises exactly the
    monthly banner and then the banner of each budgeted category that this
    classification calls for. *)
Theorem monthly_alert_classification :
  (forall spend budget threshold : jsnum,
     (budget <=? spend)%float = true -> monthlyAlert spend budget threshold = Some Danger)
  /\ (forall spend budget threshold : jsnum,
     (budget <=? spend)%float = false ->
     monthlyAlert spend budget threshold
     = if (threshold <=? spend / budget * 100)%float then Some Warning else None)
  /\ monthlyAlert (float_of_Z 2500) (float_of_Z 3000) (float_of_Z 80) = Some Warning
  /\ (forall spend : jsnum,
     (float_of_Z 3000 <=? spend)%float = true ->
     monthlyAlert spend (float_of_Z 3000) (float_of_Z 80) = Some Danger)
  /\ forallb (fun k => alert_eqb (monthlyAlert (float_of_Z k) (float_of_Z 3000) (float_of_Z 80))
                                 (spec_budget_alert k 3000 80)) (Zrange 0 4000) = true
  /\ (forall (rt : Runtime) (settings : AppSettings) (in_current_month : date_src -> bool)
            (bs : BudgetSettings) (txs : list Transaction),
        isWellFormedCurrencyCode (currency settings) = true ->
        checkBudgetAfterTransaction rt settings in_current_month true bs txs
        = (budget_alerts in_current_month bs txs, Ok tt))
  /\ checkBudgetAfterTransaction sample_runtime default_settings (fun _ => true) true
       (sample_budget 3000 80 []) [sample_tx "expense" "Food" (float_of_Z 2500)]
     = ([(Warning, MonthlyScope)], Ok tt).
Proof.
  split; [|split; [|split; [|split; [|split; [|split]]]]].
  - intros spend budget threshold H. unfold monthlyAlert. rewrite H. reflexivity.
  - intros spend budget threshold H. unfold monthlyAlert. rewrite H. reflexivity.
  - vm_compute. reflexivity.
  - intros spend H. unfold monthlyAlert. rewrite H. reflexivity.
  - vm_compute. reflexivity.
  - intros rt settings icm bs txs Hwf.
    unfold checkBudgetAfterTransaction, budget_alerts. cbn [negb].
    unfold brun_lift. rewrite !(formatCurrency_number rt settings _ Hwf).
    rewrite (checkCategory_forEach rt settings _ _ Hwf).
    destruct (monthlyAlert _ _ _) as [[|]|]; reflexivity.
  - vm_compute. reflexivity.
Qed.

Lemma monthly_alert_classification_witness :
  monthlyAlert (float_of_Z 3200) (float_of_Z 3000) (float_of_Z 80) = Some Danger
  /\ monthlyAlert (float_of_Z 2000) (float_of_Z 3000) (float_of_Z 80) = None
  /\ checkBudgetAfterTransaction sample_runtime (with_currency default_settings "EUR") (fun _ => true)
       true (sample_budget 3000 80 []) [sample_tx "expense" "Food" (float_of_Z 3200)]
     = ([(Danger, MonthlyScope)], Ok tt).
Proof.
  destruct monthly_alert_classification as [Hd [Hw [_ [_ [_ [Hc _]]]]]]. split; [| split].
  - apply Hd. vm_compute. reflexivity.
  - rewrite Hw by (vm_compute; reflexivity). vm_compute. reflexivity.
  - rewrite Hc by reflexivity. vm_compute. reflexivity.
Defined.

(** Spend 29 of budget 100 at threshold 29%: 29 is 29% of 100, but the
    rounded percentage 29 / 100 * 100 is 28.999999999999996, so no alert is
    raised.  And under a configured code that is not well formed, the first
    formatCurrency call throws a RangeError before any banner is shown,
    although spend 2500 of 3000 is near budget. *)
Lemma monthly_alert_rounding_boundary :
  spec_budget_alert 29 100 29 = Some Warning
  /\ monthlyAlert (float_of_Z 29) (float_of_Z 100) (float_of_Z 29) = None
  /\ checkBudgetAfterTransaction sample_runtime default_settings (fun _ => true) true
       (sample_budget 100 29 []) [sample_tx "expense" "Food" (float_of_Z 29)] = ([], Ok tt)
  /\ checkBudgetAfterTransaction sample_runtime (with_currency default_settings "EURO") (fun _ => true)
       true (sample_budget 3000 80 []) [sample_tx "expense" "Food" (float_of_Z 2500)]
     = ([], Throw (RangeError "Invalid currency code : EURO")).
Proof. repeat split; vm_compute; reflexivity. Qed.

(** ** Spent amounts of the budget categories *)

Section Rounding.
Variables prec emax : Z.

Lemma shr_1_nonneg (mrs : shr_record) : (0 <= shr_m mrs)%Z -> (0 <= shr_m (shr_1 mrs))%Z.
Proof. destruct mrs as [m r s]; simpl; intro H; destruct m as [|[p|p|]|p]; simpl; lia. Qed.

Lemma iter_shr_1_nonneg (p : positive) : forall mrs,
  (0 <= shr_m mrs)%Z -> (0 <= shr_m (iter_pos shr_1 p mrs))%Z.
Proof. induction p; intros mrs H; simpl; auto using shr_1_nonneg. Qed.

Lemma shr_fexp_nonneg (m e : Z) (l : location) :
  (0 <= m)%Z -> (0 <= shr_m (fst (shr_fexp prec emax m e l)))%Z.
Proof.
  intro H. unfold shr_fexp, shr.
  assert (Hl : (0 <= shr_m (shr_record_of_loc m l))%Z) by (destruct l as [|[]]; simpl; exact H).
  destruct (fexp prec emax (Zdigits2 m + e) - e)%Z; simpl; auto using iter_shr_1_nonneg.
Qed.

Lemma round_nearest_even_nonneg (m : Z) (l : location) :
  (0 <= m)%Z -> (0 <= round_nearest_even m l)%Z.
Proof. intro H; destruct l as [|[]]; simpl; try destruct (Z.even m); lia. Qed.

(** Rounding a non-negative mantissa never yields NaN and keeps the sign. *)
Lemma binary_round_aux_sign (sx : bool) (mx ex : Z) (lx : location) :
  (0 <= mx)%Z -> sign_class sx (binary_round_aux prec emax sx mx ex lx).
Proof.
  intro H. unfold binary_round_aux.
  pose proof (shr_fexp_nonneg mx ex lx H) as H1.
  destruct (shr_fexp prec emax mx ex lx) as [mrs' e'] eqn:E1. simpl in H1.
  pose proof (shr_fexp_nonneg (round_nearest_even (shr_m mrs') (loc_of_shr_record mrs')) e'
                loc_Exact (round_nearest_even_nonneg _ _ H1)) as H2.
  destruct (shr_fexp prec emax (round_nearest_even (shr_m mrs') (loc_of_shr_record mrs')) e' loc_Exact)
    as [mrs'' e''] eqn:E2. simpl in H2.
  destruct (shr_m mrs'') as [|m|m]; simpl; [reflexivity | | lia].
  destruct (e'' <=? emax - prec)%Z; reflexivity.
Qed.

Lemma binary_normalize_sign (m e : Z) (sz : bool) :
  binary_normalize prec emax m e sz <> S754_nan
  /\ ((0 <= m)%Z -> nonneg_sf (binary_normalize prec emax m e sz)).
Proof.
  destruct m as [|p|p]; simpl.
  - split; [discriminate | intros; exact I].
  - unfold binary_round.
    destruct (shl_align p e (fexp prec emax (Z.pos (digits2_pos p) + e))) as [mz ez].
    pose proof (binary_round_aux_sign false (Z.pos mz) ez loc_Exact ltac:(lia)) as Hs.
    destruct (binary_round_aux prec emax false (Z.pos mz) ez loc_Exact) as [s|s| |s mm ee];
      simpl in Hs; try contradiction; subst; split; try discriminate; intros; exact I.
  - unfold binary_round.
    destruct (shl_align p e (fexp prec emax (Z.pos (digits2_pos p) + e))) as [mz ez].
    pose proof (binary_round_aux_sign true (Z.pos mz) ez loc_Exact ltac:(lia)) as Hs.
    destruct (binary_round_aux prec emax true (Z.pos mz) ez loc_Exact) as [s|s| |s mm ee];
      simpl in Hs; try contradiction; subst; split; try discriminate; lia.
Qed.

(** The sum of two values [>= 0] is [>= 0] (no NaN: +Infinity plus a
    value [>= 0] is +Infinity). *)
Lemma SFadd_nonneg (a b : spec_float) :
  nonneg_sf a -> nonneg_sf b -> nonneg_sf (SFadd prec emax a b).
Proof.
  intros Ha Hb.
  destruct a as [sa|sa| |sa ma ea]; destruct b as [sb|sb| |sb mb eb];
    simpl in Ha, Hb; try contradiction;
    try destruct sa; try destruct sb; try contradiction;
    try (unfold SFadd; cbn [cond_Zopp]; apply binary_normalize_sign; lia);
    simpl; trivial.
Qed.

(** A value [>= 0] minus a finite value is not NaN. *)
Lemma SFsub_not_nan (a b : spec_float) :
  nonneg_sf a ->
  match b with S754_zero _ | S754_finite _ _ _ => True | _ => False end ->
  SFsub prec emax a b <> S754_nan.
Proof.
  intros Ha Hb.
  destruct a as [sa|sa| |sa ma ea]; destruct b as [sb|sb| |sb mb eb];
    simpl in Ha, Hb; try contradiction;
    try destruct sa; try destruct sb; try contradiction;
    try (unfold SFsub; apply binary_normalize_sign);
    simpl; discriminate.
Qed.
End Rounding.

Lemma leb_zero_nonneg (x : float) : (0 <=? x)%float = true <-> nonneg_sf (Prim2SF x).
Proof.
  rewrite leb_spec. change (Prim2SF 0%float) with (S754_zero false).
  destruct (Prim2SF x) as [[]|[]| |[] m e]; simpl; split; intro H;
    first [exact I | reflexivity | discriminate | contradiction].
Qed.

Lemma is_finite_sf (x : float) :
  PrimFloat.is_finite x = true ->
  match Prim2SF x with S754_zero _ | S754_finite _ _ _ => True | _ => False end.
Proof.
  unfold PrimFloat.is_finite, PrimFloat.is_nan, PrimFloat.is_infinity.
  rewrite !FloatAxioms.eqb_spec, abs_spec.
  change (Prim2SF infinity) with (S754_infinity false).
  destruct (Prim2SF x) as [s|[]| |s m e]; simpl; trivial; discriminate.
Qed.

Lemma SFeqb_refl (f : spec_float) : f <> S754_nan -> SFeqb f f = true.
Proof.
  intro H. destruct f as [[]|[]| |[] m e]; unfold SFeqb; simpl; try reflexivity;
    try (exfalso; apply H; reflexivity);
    rewrite Z.compare_refl, Pos.compare_cont_refl; reflexivity.
Qed.

Lemma add_nonneg (x y : float) :
  (0 <=? x)%float = true -> (0 <=? y)%float = true -> (0 <=? x + y)%float = true.
Proof.
  rewrite !leb_zero_nonneg, add_spec. apply SFadd_nonneg.
Qed.

Lemma sub_not_nan (x y : float) :
  (0 <=? x)%float = true -> PrimFloat.is_finite y = true -> PrimFloat.is_nan (x - y)%float = false.
Proof.
  intros Hx Hy. apply leb_zero_nonneg in Hx. apply is_finite_sf in Hy.
  unfold PrimFloat.is_nan. rewrite FloatAxioms.eqb_spec, sub_spec, SFeqb_refl; [reflexivity|].
  apply SFsub_not_nan; assumption.
Qed.

Lemma js_max_zero_nonneg (z : float) : PrimFloat.is_nan z = false -> (0 <=? js_max 0 z)%float = true.
Proof.
  intro Hz. unfold js_max.
  replace (PrimFloat.is_nan 0%float) with false by reflexivity. rewrite Hz. simpl.
  destruct (0 <? z)%float eqn:E.
  - rewrite ltb_spec in E. rewrite leb_spec. unfold SFltb, SFleb in *.
    destruct (SFcompare (Prim2SF 0%float) (Prim2SF z)) as [[]|]; congruence.
  - destruct (z <? 0)%float; reflexivity.
Qed.

Lemma update_spent_nonneg (f : jsnum -> jsnum) (cats : list BudgetCategory) (i : nat) :
  (forall s, (0 <=? s)%float = true -> (0 <=? f s)%float = true) ->
  Forall (fun c => (0 <=? bc_spent c)%float = true) cats ->
  Forall (fun c => (0 <=? bc_spent c)%float = true) (update_spent cats i f).
Proof.
  intros Hf Hcats. revert i.
  induction Hcats as [|c cs Hc Hcs IH]; intros i; [destruct i; constructor|].
  destruct i as [|i]; simpl; constructor; [apply Hf; exact Hc | exact Hcs | exact Hc | apply IH].
Qed.

Lemma updateBudgetCategorySpent_nonneg (bs bs' : BudgetSettings) (t : Transaction) (isDelete : bool) :
  (0 <=? tx_amount t)%float = true ->
  PrimFloat.is_finite (tx_amount t) = true ->
  Forall (fun c => (0 <=? bc_spent c)%float = true) (categories bs) ->
  updateBudgetCategorySpent bs t isDelete = Ok bs' ->
  Forall (fun c => (0 <=? bc_spent c)%float = true) (categories bs').
Proof.
  intros Ha Hfin Hbs. unfold updateBudgetCategorySpent.
  destruct (negb (String.eqb (tx_type t) "expense")).
  { intro H; injection H as <-; exact Hbs. }
  destruct (findCategoryIndex (categories bs) (tx_category t) 0) as [[i|]|e]; simpl;
    intro H; try discriminate; injection H as <-; [|exact Hbs].
  apply update_spent_nonneg; [|exact Hbs].
  intros s Hs. destruct isDelete.
  - apply js_max_zero_nonneg, sub_not_nan; assumption.
  - apply add_nonneg; assumption.
Qed.

(** C10 (amended): through any run of additions and deletions of
    transactions whose amounts are finite and [>= 0], every category's
    spent stays [>= 0] when it starts [>= 0]. *)
Theorem spent_stays_nonneg (bs : BudgetSettings) (ops : list (Transaction * bool)) :
  Forall (fun c => (0 <=? bc_spent c)%float = true) (categories bs) ->
  Forall (fun op => (0 <=? tx_amount (fst op))%float = true
                    /\ PrimFloat.is_finite (tx_amount (fst op)) = true) ops ->
  Forall (fun c => (0 <=? bc_spent c)%float = true) (categories (run_updates bs ops)).
Proof.
  intros Hbs Hops. revert bs Hbs.
  induction Hops as [|[t isDelete] ops [Ha Hfin] Hops IH]; intros bs Hbs; simpl; [exact Hbs|].
  apply IH.
  destruct (updateBudgetCategorySpent bs t isDelete) as [bs'|e] eqn:E; [|exact Hbs].
  exact (updateBudgetCategorySpent_nonneg bs bs' t isDelete Ha Hfin Hbs E).
Qed.

Lemma spent_stays_nonneg_witness :
  Forall (fun c => (0 <=? bc_spent c)%float = true)
    (categories (run_updates
       (sample_budget 3000 80 [{| bc_name := "Food"; bc_budget := float_of_Z 500; bc_spent := 0%float |}])
       [(sample_tx "expense" "Food" (float_of_Z 45), false);
        (sample_tx "expense" "food" (float_of_Z 60), true)])).
Proof.
  apply (spent_stays_nonneg
    (sample_budget 3000 80 [{| bc_name := "Food"; bc_budget := float_of_Z 500; bc_spent := 0%float |}])
    [(sample_tx "expense" "Food" (float_of_Z 45), false);
     (sample_tx "expense" "food" (float_of_Z 60), true)]);
    repeat constructor.
Defined.

(** Adding and then deleting an expense of amount Infinity (Number of an
    input such as 1e400) leaves spent = Math.max(0, Infinity - Infinity),
    which is NaN and not [>= 0]. *)
Lemma spent_nan_after_infinite_amount :
  forallb (fun op => (0 <=? tx_amount (fst op))%float)
    [(sample_tx "expense" "Food" infinity, false); (sample_tx "expense" "Food" infinity, true)] = true
  /\ map bc_spent (categories (run_updates
       (sample_budget 3000 80 [{| bc_name := "Food"; bc_budget := float_of_Z 500; bc_spent := 0%float |}])
       [(sample_tx "expense" "Food" infinity, false); (sample_tx "expense" "Food" infinity, true)]))
     = [nan]
  /\ (0 <=? nan)%float = false.
Proof. repeat split; vm_compute; reflexivity. Qed.

(** * Properties of the remaining helpers *)

(** ** Report mappers and report reads of TransactionService *)

Lemma num_or_zero_clean (s2n : string -> jsnum) (n2s : jsnum -> string) (v : jsval) (n : jsnum) :
  num_or_zero s2n n2s v = Ok n -> clean_number n = true.
Proof.
  unfold num_or_zero. intros H. split_binds H. inversion H; subst.
  match goal with |- clean_number (if num_truthy ?m then _ else _) = _ =>
    unfold num_truthy, clean_number;
    destruct (PrimFloat.is_nan m) eqn:E1; destruct (PrimFloat.eqb m 0%float) eqn:E2;
    cbn [negb andb]; rewrite ?E1, ?E2; reflexivity
  end.
Qed.

Lemma js_or_truthy (a b : jsval) : truthy b = true -> truthy (js_or a b) = true.
Proof. unfold js_or. destruct (truthy a) eqn:E; auto. Qed.

Lemma map_array_Forall {B} (f : jsval -> result B) (P : B -> Prop) (data : jsval) (ys : list B) :
  (forall x y, f x = Ok y -> P y) -> map_array f data = Ok ys -> Forall P ys.
Proof.
  intros Hf. unfold map_array.
  destruct (truthy data); cbn [negb]; [| intros H; inversion H; constructor].
  destruct data; try (intros H; inversion H; constructor).
  apply mapM_Forall. exact Hf.
Qed.

Lemma normalizeTrend_values (t : jsval) (s : string) :
  normalizeTrend t = Ok s -> In s trend_values.
Proof.
  unfold normalizeTrend.
  destruct (truthy t); cbn [negb]; [| intros H; inversion H; simpl; auto].
  destruct t; try discriminate.
  remember (trim (toLowerCase s0)) as n.
  destruct (String.eqb n "up") eqn:E1; [| destruct (String.eqb n "down") eqn:E2;
    [| destruct (String.eqb n "stable") eqn:E3]]; cbn [orb]; intros H; inversion H; subst;
    simpl; auto.
  - apply String.eqb_eq in E1. auto.
  - apply String.eqb_eq in E2. auto.
  - apply String.eqb_eq in E3. auto.
Qed.

(** normalizeTrend returns 'up', 'down' or 'stable' whenever it returns,
    and it throws exactly on a truthy value that is not a string. *)
Theorem normalizeTrend_range (t : jsval) :
  (forall s, normalizeTrend t = Ok s -> In s trend_values) /\
  is_ok (normalizeTrend t) = negb (truthy t) || is_js_string t.
Proof.
  split; [apply normalizeTrend_values |].
  unfold normalizeTrend.
  destruct (truthy t); cbn [negb orb]; [| reflexivity].
  destruct t; try reflexivity.
  destruct (_ || _); reflexivity.
Qed.

Lemma mapTrendAnalysis_item_ok (s2n : string -> jsnum) (n2s : jsnum -> string) (item : jsval)
  (t : TrendAnalysis) :
  mapTrendAnalysis_item s2n n2s item = Ok t -> trend_row_ok t.
Proof.
  unfold mapTrendAnalysis_item. intros H. split_binds H.
  inversion H; subst. unfold trend_row_ok; cbn.
  split; [eapply normalizeTrend_values; eassumption |].
  split; eapply num_or_zero_clean; eassumption.
Qed.

(** Whenever mapTrendAnalysis returns, every row has a trend among 'up',
    'down' and 'stable', and a total and a change that are neither NaN
    nor -0. *)
Theorem mapTrendAnalysis_clean (s2n : string -> jsnum) (n2s : jsnum -> string)
  (data : jsval) (ts : list TrendAnalysis) :
  mapTrendAnalysis s2n n2s data = Ok ts -> Forall trend_row_ok ts.
Proof.
  apply map_array_Forall. intros x y. apply mapTrendAnalysis_item_ok.
Qed.

Lemma mapTrendAnalysis_clean_witness :
  exists ts, mapTrendAnalysis sample_string_to_number sample_number_to_string
               sample_trend_response = Ok ts /\ Forall trend_row_ok ts.
Proof.
  eexists. split; [vm_compute; reflexivity |].
  apply (mapTrendAnalysis_clean sample_string_to_number sample_number_to_string
           sample_trend_response).
  vm_compute. reflexivity.
Defined.

Lemma mapMonthlyBreakdown_item_ok (s2n : string -> jsnum) (n2s : jsnum -> string) (item : jsval)
  (m : MonthlyBreakdown) :
  mapMonthlyBreakdown_item s2n n2s item = Ok m ->
  clean_number (mb_amount m) = true /\ clean_number (mb_percentage m) = true.
Proof.
  unfold mapMonthlyBreakdown_item. intros H. split_binds H.
  inversion H; subst; cbn. split; eapply num_or_zero_clean; eassumption.
Qed.

Lemma mapExpenseReport_item_ok (s2n : string -> jsnum) (n2s : jsnum -> string) (item : jsval)
  (r : ExpenseReport) :
  mapExpenseReport_item s2n n2s item = Ok r -> expense_row_ok r.
Proof.
  unfold mapExpenseReport_item. intros H. split_binds H.
  inversion H; subst. unfold expense_row_ok; cbn.
  split; [apply js_or_truthy; reflexivity |].
  split; [eapply num_or_zero_clean; eassumption |]. split; [eapply num_or_zero_clean; eassumption |].
  split; [eapply num_or_zero_clean; eassumption |]. split; [eapply num_or_zero_clean; eassumption |].
  eapply map_array_Forall; [| eassumption].
  intros x y. apply mapMonthlyBreakdown_item_ok.
Qed.

(** Whenever mapExpenseReport returns, every row has a truthy category and
    numeric fields, its monthly breakdown included, that are neither NaN
    nor -0. *)
Theorem mapExpenseReport_clean (s2n : string -> jsnum) (n2s : jsnum -> string)
  (data : jsval) (rs : list ExpenseReport) :
  mapExpenseReport s2n n2s data = Ok rs -> Forall expense_row_ok rs.
Proof.
  apply map_array_Forall. intros x y. apply mapExpenseReport_item_ok.
Qed.

Lemma mapExpenseReport_clean_witness :
  exists rs, mapExpenseReport sample_string_to_number sample_number_to_string
               sample_expense_report_response = Ok rs /\ Forall expense_row_ok rs.
Proof.
  eexists. split; [vm_compute; reflexivity |].
  apply (mapExpenseReport_clean sample_string_to_number sample_number_to_string
           sample_expense_report_response).
  vm_compute. reflexivity.
Defined.

Lemma is_ok_mapM {A B} (f : A -> result B) (xs : list A) :
  is_ok (mapM f xs) = forallb (fun x => is_ok (f x)) xs.
Proof.
  induction xs as [| x xs IH]; [reflexivity |]. cbn [mapM forallb].
  destruct (f x); cbn [bind is_ok andb]; [| reflexivity].
  rewrite <- IH. destruct (mapM f xs); reflexivity.
Qed.

Lemma is_ok_num_or_zero (s2n : string -> jsnum) (n2s : jsnum -> string) (v : jsval) :
  is_ok (num_or_zero s2n n2s v) = prim_safe v.
Proof. unfold num_or_zero. rewrite is_ok_bind_ret. apply to_number_ok. Qed.

Lemma mapCategoryBreakdown_item_ok (s2n : string -> jsnum) (n2s : jsnum -> string) (x : jsval) :
  is_ok (mapCategoryBreakdown_item s2n n2s x) = negb (bad_category_item x).
Proof.
  destruct x as [| | b | n | s | xs | fs]; try reflexivity.
  unfold mapCategoryBreakdown_item. rewrite !get_object. cbn [bind bad_category_item].
  pose proof (is_ok_num_or_zero s2n n2s (field fs "amount")) as Ha.
  pose proof (is_ok_num_or_zero s2n n2s (field fs "percentage")) as Hp.
  destruct (num_or_zero s2n n2s (field fs "amount")); cbn [bind is_ok] in Ha |- *;
    rewrite <- Ha; [| reflexivity].
  destruct (num_or_zero s2n n2s (field fs "percentage")); cbn [bind is_ok] in Hp |- *;
    rewrite <- Hp; reflexivity.
Qed.

Lemma mapCategoryBreakdown_ok (s2n : string -> jsnum) (n2s : jsnum -> string) (v : jsval) :
  is_ok (mapCategoryBreakdown s2n n2s v) = negb (bad_item_in v).
Proof.
  unfold mapCategoryBreakdown, map_array.
  destruct v; try reflexivity.
  - destruct b; reflexivity.
  - cbn [truthy]. destruct (num_truthy n); reflexivity.
  - cbn [truthy]. destruct (negb (String.eqb s "")); reflexivity.
  - cbn [truthy negb bad_item_in]. rewrite is_ok_mapM.
    induction xs as [| x xs IH]; [reflexivity |]. cbn [forallb existsb].
    rewrite IH, negb_orb. f_equal. apply mapCategoryBreakdown_item_ok.
Qed.

Lemma get_truthy_field (d : jsval) (k : string) : truthy d = true -> get d k = Ok (income_field d k).
Proof. destruct d; cbn [truthy]; intros H; try discriminate; reflexivity. Qed.

Lemma get_truthy_categories (d : jsval) :
  truthy d = true ->
  exists c, get d "categories" = Ok c /\ (forall k, opt_get c k = Ok (income_categories d k)).
Proof.
  destruct d as [| | b | n | s | xs | fs]; cbn [truthy]; intros H; try discriminate;
    eexists; (split; [reflexivity |]); intros k; try reflexivity.
  unfold income_categories, field. cbn [get].
  destruct (assoc "categories" fs) as [c |]; [destruct c |]; reflexivity.
Qed.

(** mapIncomeStatement throws exactly when [data] is truthy and one of its
    four totals is a value Number rejects (an object with an own
    [toString], or an array holding one), or one of
    [data.categories.revenue] and [data.categories.expenses] is an array
    holding null, undefined or an object whose amount or percentage Number
    rejects. *)
Theorem mapIncomeStatement_throws_iff (s2n : string -> jsnum) (n2s : jsnum -> string) (d : jsval) :
  is_ok (mapIncomeStatement s2n n2s d) =
  negb (truthy d && (negb (income_totals_safe d)
                     || bad_item_in (income_categories d "revenue")
                     || bad_item_in (income_categories d "expenses"))).
Proof.
  unfold mapIncomeStatement, income_totals_safe.
  destruct (truthy d) eqn:Hd; cbn [negb andb forallb]; [| reflexivity].
  rewrite andb_true_r.
  rewrite (get_truthy_field d "totalRevenue" Hd). cbn [bind].
  pose proof (is_ok_num_or_zero s2n n2s (income_field d "totalRevenue")) as H1.
  destruct (num_or_zero s2n n2s (income_field d "totalRevenue")); cbn [bind is_ok] in H1 |- *;
    rewrite <- H1; cbn [andb negb orb]; [| reflexivity].
  rewrite (get_truthy_field d "totalExpenses" Hd). cbn [bind].
  pose proof (is_ok_num_or_zero s2n n2s (income_field d "totalExpenses")) as H2.
  destruct (num_or_zero s2n n2s (income_field d "totalExpenses")); cbn [bind is_ok] in H2 |- *;
    rewrite <- H2; cbn [andb negb orb]; [| reflexivity].
  rewrite (get_truthy_field d "netIncome" Hd). cbn [bind].
  pose proof (is_ok_num_or_zero s2n n2s (income_field d "netIncome")) as H3.
  destruct (num_or_zero s2n n2s (income_field d "netIncome")); cbn [bind is_ok] in H3 |- *;
    rewrite <- H3; cbn [andb negb orb]; [| reflexivity].
  rewrite (get_truthy_field d "grossMargin" Hd). cbn [bind].
  pose proof (is_ok_num_or_zero s2n n2s (income_field d "grossMargin")) as H4.
  destruct (num_or_zero s2n n2s (income_field d "grossMargin")); cbn [bind is_ok] in H4 |- *;
    rewrite <- H4; cbn [andb negb orb]; [| reflexivity].
  destruct (get_truthy_categories d Hd) as [c [Hc Hk]].
  rewrite Hc. cbn [bind]. rewrite Hk. cbn [bind].
  pose proof (mapCategoryBreakdown_ok s2n n2s (income_categories d "revenue")) as Or.
  pose proof (mapCategoryBreakdown_ok s2n n2s (income_categories d "expenses")) as Oe.
  destruct (mapCategoryBreakdown s2n n2s (income_categories d "revenue"));
    cbn [bind is_ok] in *.
  - rewrite ?Hc. cbn [bind]. rewrite ?Hk. cbn [bind].
    destruct (mapCategoryBreakdown s2n n2s (income_categories d "expenses"));
      cbn [bind is_ok] in *;
      destruct (bad_item_in (income_categories d "revenue")),
               (bad_item_in (income_categories d "expenses")); cbn in *; congruence.
  - destruct (bad_item_in (income_categories d "revenue")); cbn in *; congruence.
Qed.

Lemma catch_to_ok {A} (r : result A) (d : A) : exists a, catch_to r d = Ok a.
Proof. destruct r; eexists; reflexivity. Qed.

Lemma opt_get_ok (v : jsval) (k : string) : exists x, opt_get v k = Ok x.
Proof. destruct v; eexists; reflexivity. Qed.

Lemma getExpenseReport_ok apiUrl userId http sd ed :
  exists v, getExpenseReport apiUrl userId http sd ed = Ok v.
Proof.
  unfold getExpenseReport. destruct (user_missing userId); [eexists; reflexivity | apply catch_to_ok].
Qed.

Lemma getIncomeStatement_ok apiUrl userId http sd ed :
  exists v, getIncomeStatement apiUrl userId http sd ed = Ok v.
Proof.
  unfold getIncomeStatement. destruct (user_missing userId); [eexists; reflexivity | apply catch_to_ok].
Qed.

Lemma getBudgetVsActual_ok apiUrl userId http tf :
  exists v, getBudgetVsActual apiUrl userId http tf = Ok v.
Proof.
  unfold getBudgetVsActual. destruct (user_missing userId); [eexists; reflexivity | apply catch_to_ok].
Qed.

Lemma leb_not_nan_r (a b : float) : PrimFloat.leb a b = true -> PrimFloat.is_nan b = false.
Proof.
  unfold PrimFloat.is_nan. rewrite FloatAxioms.leb_spec, FloatAxioms.eqb_spec. intros H.
  assert (Hb : Prim2SF b <> S754_nan).
  { intros E. rewrite E in H. destruct (Prim2SF a); discriminate H. }
  rewrite SFeqb_refl by exact Hb. reflexivity.
Qed.

Lemma mapM_ok {A B} (f : A -> result B) (xs : list A) :
  (forall x, In x xs -> exists y, f x = Ok y) ->
  exists ys, mapM f xs = Ok ys /\ List.length ys = List.length xs.
Proof.
  induction xs as [| x xs IH]; intros Hf; [exists []; split; reflexivity |].
  destruct (Hf x (or_introl eq_refl)) as [y Ey].
  destruct IH as [ys [Eys Hl]]; [intros z Hz; apply Hf; right; exact Hz |].
  exists (y :: ys). cbn [mapM]. rewrite Ey. cbn [bind]. rewrite Eys. cbn [bind].
  split; [reflexivity | cbn [List.length]; rewrite Hl; reflexivity].
Qed.

Lemma type_partition (xs : list Transaction) :
  Forall (fun t => tx_type t = "expense" \/ tx_type t = "revenue") xs ->
  List.length (filter (fun t => String.eqb (tx_type t) "expense") xs) +
  List.length (filter (fun t => String.eqb (tx_type t) "revenue") xs) = List.length xs.
Proof.
  induction 1 as [| t xs Ht _ IH]; [reflexivity |].
  cbn [filter List.length]. destruct Ht as [E | E]; rewrite E; cbn; lia.
Qed.

Lemma getTransactions_types s2n n2s apiUrl userId http tf limit page txs :
  getTransactions s2n n2s apiUrl userId http tf limit page = Ok txs ->
  Forall (fun t => tx_type t = "expense" \/ tx_type t = "revenue") txs.
Proof.
  unfold getTransactions.
  destruct (user_missing userId); [intros H; inversion H; constructor |].
  unfold catch_to.
  destruct (bind _ _) eqn:E; intros H; inversion H; subst; [| constructor].
  destruct (http _); cbn [bind] in E; [| discriminate E].
  eapply mapTransactions_types. exact E.
Qed.

(** With a signed-in user, and a toISOString that succeeds on every time
    value that is not NaN, getCustomReport never gives null: its detailed
    expenses and revenues together hold one entry per transaction of the
    period, since transactions with an invalid date fall outside it. *)
Theorem getCustomReport_partition s2n n2s apiUrl userId http time_of parse_date iso_of_time
  (startDate endDate : string) (txs : list Transaction) :
  user_missing userId = false ->
  (forall n, PrimFloat.is_nan n = false -> exists s, iso_of_time n = Ok s) ->
  getTransactions s2n n2s apiUrl userId http "all" 1000%float 1%float = Ok txs ->
  exists v ne nr,
    getCustomReport s2n n2s apiUrl userId http time_of parse_date iso_of_time startDate endDate = Ok v /\
    detailed_counts v = Some (ne, nr) /\
    ne + nr = List.length (filter (in_period time_of parse_date startDate endDate) txs).
Proof.
  intros Hu Hiso Htx. unfold getCustomReport. rewrite Hu. cbn [negb].
  destruct (getExpenseReport_ok apiUrl userId http startDate endDate) as [er Her].
  destruct (getIncomeStatement_ok apiUrl userId http startDate endDate) as [is His].
  rewrite Her. cbn [bind]. rewrite His. cbn [bind]. rewrite Htx. cbn [bind].
  unfold customReportOf.
  destruct (opt_get_ok is "totalExpenses") as [a1 E1]. rewrite E1. cbn [bind].
  destruct (opt_get_ok is "totalRevenue") as [a2 E2]. rewrite E2. cbn [bind].
  destruct (opt_get_ok is "netIncome") as [a3 E3]. rewrite E3. cbn [bind].
  destruct (opt_get_ok is "grossMargin") as [a4 E4]. rewrite E4. cbn [bind].
  set (F := filter (in_period time_of parse_date startDate endDate) txs).
  assert (HF : forall t, In t F -> exists y, detailed_item time_of iso_of_time t = Ok y).
  { intros t Ht. apply filter_In in Ht as [_ Hp].
    unfold in_period in Hp. apply andb_prop in Hp as [Hp _].
    destruct (Hiso _ (leb_not_nan_r _ _ Hp)) as [s Es].
    unfold detailed_item. rewrite Es. cbn [bind]. eexists. reflexivity. }
  destruct (mapM_ok (detailed_item time_of iso_of_time)
              (filter (fun t => String.eqb (tx_type t) "expense") F)) as [es [Hes Hle]].
  { intros t Ht. apply filter_In in Ht as [Ht _]. apply HF. exact Ht. }
  destruct (mapM_ok (detailed_item time_of iso_of_time)
              (filter (fun t => String.eqb (tx_type t) "revenue") F)) as [rs [Hrs Hlr]].
  { intros t Ht. apply filter_In in Ht as [Ht _]. apply HF. exact Ht. }
  rewrite Hes. cbn [bind]. rewrite Hrs. cbn [bind catch_to].
  do 3 eexists. split; [reflexivity |]. split; [reflexivity |].
  rewrite Hle, Hlr. apply type_partition.
  apply getTransactions_types in Htx.
  rewrite Forall_forall in Htx |- *. intros t Ht. apply Htx.
  apply filter_In in Ht as [Ht _]. exact Ht.
Qed.

Lemma getCustomReport_partition_witness :
  exists txs, getTransactions sample_string_to_number sample_number_to_string "/api" (Some "u1")
                sample_http "all" 1000%float 1%float = Ok txs /\
  exists v ne nr,
    getCustomReport sample_string_to_number sample_number_to_string "/api" (Some "u1") sample_http
      sample_time_of sample_parse_date sample_iso_of_time "0" "6" = Ok v /\
    detailed_counts v = Some (ne, nr) /\
    ne + nr = List.length (filter (in_period sample_time_of sample_parse_date "0" "6") txs).
Proof.
  eexists. split; [vm_compute; reflexivity |].
  apply (getCustomReport_partition sample_string_to_number sample_number_to_string "/api" (Some "u1")
           sample_http sample_time_of sample_parse_date sample_iso_of_time "0" "6").
  - reflexivity.
  - intros n Hn. unfold sample_iso_of_time. rewrite Hn. eexists. reflexivity.
  - vm_compute. reflexivity.
Defined.

(** testReportEndpoints always emits an object, and it reports failure
    exactly when the trend or the expense-report response is null or
    undefined (their [length] is read). *)
Theorem testReportEndpoints_success apiUrl userId http (tb eb : jsval) :
  getTrendAnalysis apiUrl userId http "monthly" = Ok tb ->
  getExpenseReport apiUrl userId http "2024-01-01" "2024-12-31" = Ok eb ->
  exists fs, testReportEndpoints apiUrl userId http = Ok (JObject fs) /\
    field fs "success" = JBool (negb (nullish tb || nullish eb)).
Proof.
  intros Ht He. unfold testReportEndpoints. rewrite Ht, He. cbn [bind].
  destruct (getIncomeStatement_ok apiUrl userId http "2024-01-01" "2024-12-31") as [is Eis].
  destruct (getBudgetVsActual_ok apiUrl userId http "month") as [bv Ebv].
  rewrite Eis, Ebv. cbn [bind].
  destruct tb, eb; eexists; split; reflexivity.
Qed.

Lemma testReportEndpoints_success_witness :
  exists tb eb, getTrendAnalysis "/api" (Some "u1") sample_http "monthly" = Ok tb /\
  getExpenseReport "/api" (Some "u1") sample_http "2024-01-01" "2024-12-31" = Ok eb /\
  exists fs, testReportEndpoints "/api" (Some "u1") sample_http = Ok (JObject fs) /\
    field fs "success" = JBool (negb (nullish tb || nullish eb)).
Proof.
  do 2 eexists. split; [vm_compute; reflexivity |]. split; [vm_compute; reflexivity |].
  apply testReportEndpoints_success; vm_compute; reflexivity.
Defined.

(** ** Persistence of the settings *)

Lemma assoc_app_single (k : string) (l : fields) (p : string * jsval) :
  assoc k (l ++ [p]) =
  match assoc k l with Some v => Some v | None => if String.eqb k (fst p) then Some (snd p) else None end.
Proof.
  induction l as [| [k' v'] l IH]; cbn [app assoc]; [destruct p; reflexivity |].
  destruct (String.eqb k k'); [reflexivity | exact IH].
Qed.

Lemma assoc_obj_set (k k' : string) (v : jsval) (fs : fields) :
  assoc k (obj_set k' v fs) = if String.eqb k k' then Some v else assoc k fs.
Proof.
  induction fs as [| [k1 v1] fs IH]; cbn [obj_set assoc]; [reflexivity |].
  destruct (String.eqb k' k1) eqn:E1; cbn [assoc].
  - apply String.eqb_eq in E1. subst k1.
    destruct (String.eqb k k'); reflexivity.
  - rewrite IH. destruct (String.eqb k k1) eqn:E2; [| reflexivity].
    apply String.eqb_eq in E2. subst k1.
    destruct (String.eqb k k') eqn:E3; [| reflexivity].
    apply String.eqb_eq in E3. subst k'. rewrite String.eqb_refl in E1. discriminate.
Qed.

(** A spread gives the last value of a key in the source, or else the one
    already there. *)
Lemma assoc_spread_pairs (k : string) (gs fs : fields) :
  assoc k (spread_pairs gs fs) =
  match assoc k (rev gs) with Some v => Some v | None => assoc k fs end.
Proof.
  revert fs. induction gs as [| g gs IH]; intros fs; [reflexivity |].
  unfold spread_pairs. cbn [fold_left rev]. fold (spread_pairs gs (obj_set (fst g) (snd g) fs)).
  rewrite IH, assoc_app_single, assoc_obj_set.
  destruct (assoc k (rev gs)); [reflexivity | destruct (String.eqb k (fst g)); reflexivity].
Qed.

Lemma in_keys_obj_set (x k : string) (v : jsval) (fs : fields) :
  In x (map fst (obj_set k v fs)) <-> In x (map fst fs) \/ x = k.
Proof.
  induction fs as [| [k1 v1] fs IH]; cbn [obj_set map fst In].
  - split; [intros [H | []]; right; auto | intros [[] | H]; left; auto].
  - destruct (String.eqb k k1) eqn:E; cbn [map fst In].
    + apply String.eqb_eq in E. subst k1. split; [tauto |].
      intros [[H | H] | H]; [left; exact H | right; exact H | left; symmetry; exact H].
    + rewrite IH. tauto.
Qed.

Lemma obj_set_nodup (k : string) (v : jsval) (fs : fields) :
  NoDup (map fst fs) -> NoDup (map fst (obj_set k v fs)).
Proof.
  induction fs as [| [k1 v1] fs IH]; cbn [obj_set map fst]; intros H.
  - constructor; [intros [] | constructor].
  - inversion H as [| ? ? Hn Hd]; subst.
    destruct (String.eqb k k1) eqn:E; cbn [map fst].
    + constructor; assumption.
    + constructor; [| apply IH; assumption].
      rewrite in_keys_obj_set. intros [Hin | Heq]; [contradiction |].
      subst k1. rewrite String.eqb_refl in E. discriminate.
Qed.

Lemma spread_pairs_nodup (gs fs : fields) :
  NoDup (map fst fs) -> NoDup (map fst (spread_pairs gs fs)).
Proof.
  revert fs. induction gs as [| g gs IH]; intros fs H; [exact H |].
  unfold spread_pairs. cbn [fold_left]. apply IH. apply obj_set_nodup. exact H.
Qed.

Lemma spread_into_nodup (fs : fields) (src : jsval) :
  NoDup (map fst fs) -> NoDup (map fst (spread_into fs src)).
Proof. intros H. destruct src; cbn [spread_into]; try apply spread_pairs_nodup; exact H. Qed.

(** A spread never removes a key. *)
Lemma spread_into_keeps (k : string) (fs : fields) (src : jsval) :
  assoc k fs <> None -> assoc k (spread_into fs src) <> None.
Proof.
  intros H. destruct src; cbn [spread_into]; try exact H;
    rewrite assoc_spread_pairs; destruct (assoc k (rev _)); congruence.
Qed.

Lemma assoc_notin (k : string) (fs : fields) : ~ In k (map fst fs) -> assoc k fs = None.
Proof.
  induction fs as [| [k1 v1] fs IH]; cbn [assoc map fst In]; intros H; [reflexivity |].
  destruct (String.eqb k k1) eqn:E.
  - apply String.eqb_eq in E. subst. exfalso. apply H. left. reflexivity.
  - apply IH. tauto.
Qed.

Lemma assoc_rev_nodup (k : string) (fs : fields) :
  NoDup (map fst fs) -> assoc k (rev fs) = assoc k fs.
Proof.
  induction fs as [| [k1 v1] fs IH]; cbn [rev map fst]; intros H; [reflexivity |].
  inversion H as [| ? ? Hn Hd]; subst.
  rewrite assoc_app_single, IH by exact Hd. cbn [assoc fst snd].
  destruct (String.eqb k k1) eqn:E.
  - apply String.eqb_eq in E. subst k1. rewrite assoc_notin by exact Hn. reflexivity.
  - destruct (assoc k fs); reflexivity.
Qed.

Lemma spread_into_inv (defaults fs : fields) (src : jsval) :
  settings_inv defaults fs -> settings_inv defaults (spread_into fs src).
Proof.
  intros [Hd Hk]. split; [apply spread_into_nodup; exact Hd |].
  intros k Hk'. apply spread_into_keeps. apply Hk. exact Hk'.
Qed.

Lemma copy_inv (defaults fs : fields) :
  settings_inv defaults fs -> settings_inv defaults (spread_into [] (JObject fs)).
Proof.
  intros [Hd Hk]. split.
  - apply spread_into_nodup. constructor.
  - intros k Hk'. cbn [spread_into]. rewrite assoc_spread_pairs, assoc_rev_nodup by exact Hd.
    destruct (assoc k fs) eqn:E; [discriminate | exfalso; exact (Hk k Hk' E)].
Qed.

Lemma defaultApp_inv : settings_inv defaultAppSettings defaultAppSettings.
Proof.
  split; [| auto].
  cbn. repeat (constructor;
    [cbn; intros H; repeat (destruct H as [H | H]; [discriminate H |]); exact H |]).
  constructor.
Qed.

Lemma defaultBudget_inv : settings_inv defaultBudgetSettings defaultBudgetSettings.
Proof.
  split; [| auto].
  cbn. repeat (constructor;
    [cbn; intros H; repeat (destruct H as [H | H]; [discriminate H |]); exact H |]).
  constructor.
Qed.

Lemma load_settings_inv json_parse (key : string) (defaults : fields) st :
  settings_inv defaults defaults -> settings_inv defaults (load_settings json_parse key defaults st).
Proof.
  intros H0. pose proof (copy_inv _ _ H0) as Hc.
  unfold load_settings. destruct (lookup key st) as [saved |]; [| exact Hc].
  destruct (String.eqb saved ""); [exact Hc |].
  destruct (json_parse saved); [apply spread_into_inv |]; exact Hc.
Qed.

Lemma run_settings_inv json_parse json_stringify st ops :
  service_inv (run_settings json_parse json_stringify st ops).
Proof.
  unfold run_settings.
  assert (H0 : service_inv (newSettingsService json_parse st)).
  { split; apply load_settings_inv; [exact defaultApp_inv | exact defaultBudget_inv]. }
  revert H0. generalize (newSettingsService json_parse st) as svc.
  induction ops as [| op ops IH]; intros svc [Ha Hb]; cbn [fold_left]; [split; assumption |].
  apply IH. destruct op as [s | s | | k v]; cbn [settings_step].
  - split; [apply spread_into_inv, copy_inv; exact Ha | exact Hb].
  - split; [exact Ha | apply spread_into_inv, copy_inv; exact Hb].
  - split; apply copy_inv; [exact defaultApp_inv | exact defaultBudget_inv].
  - unfold handleStorageChange. destruct v as [nv |]; [| split; assumption].
    destruct (_ && _); [destruct (json_parse nv); split; try assumption;
                        apply spread_into_inv, copy_inv, defaultApp_inv |].
    destruct (_ && _); [destruct (json_parse nv); split; try assumption;
                        apply spread_into_inv, copy_inv, defaultBudget_inv |].
    split; assumption.
Qed.

(** Parsing back the stored text of held settings restores every field. *)
Lemma reparse_settings (defaults fs : fields) (k : string) :
  settings_inv defaults defaults -> settings_inv defaults fs ->
  assoc k (spread_into (spread_into [] (JObject defaults)) (JObject fs)) = assoc k fs.
Proof.
  intros [Hd0 _] [Hd Hk]. cbn [spread_into].
  rewrite assoc_spread_pairs, assoc_rev_nodup by exact Hd.
  destruct (assoc k fs) eqn:E; [reflexivity |].
  rewrite assoc_spread_pairs, assoc_rev_nodup by exact Hd0. cbn [assoc].
  destruct (assoc k defaults) eqn:E'; [| reflexivity].
  exfalso. apply (Hk k); [rewrite E'; discriminate | exact E].
Qed.

Lemma lookup_ls_set (k v : string) (st : list (string * string)) : lookup k (ls_set k v st) = Some v.
Proof. unfold ls_set. cbn [lookup]. rewrite String.eqb_refl. reflexivity. Qed.

(** After updateAppSettings, reloading the page (a new service on the
    storage) gives back the settings held in memory, field by field, when
    JSON.parse reads back what JSON.stringify wrote for them. *)
Theorem settings_reload_after_update json_parse json_stringify st ops (settings : jsval) :
  let svc := updateAppSettings json_stringify (run_settings json_parse json_stringify st ops) settings in
  json_stringify (JObject (app_subject svc)) <> "" ->
  json_parse (json_stringify (JObject (app_subject svc))) = Ok (JObject (app_subject svc)) ->
  forall k, assoc k (app_subject (newSettingsService json_parse (storage svc))) = assoc k (app_subject svc).
Proof.
  intros svc Hne Hrt k.
  assert (Hinv : settings_inv defaultAppSettings (app_subject svc)).
  { unfold svc, updateAppSettings; cbn [app_subject].
    apply spread_into_inv, copy_inv, run_settings_inv. }
  unfold newSettingsService, loadAppSettings, load_settings; cbn [app_subject].
  unfold svc at 1; unfold updateAppSettings at 1; cbn [storage]. rewrite lookup_ls_set.
  change (spread_into (spread_into [] (JObject (app_subject (run_settings json_parse json_stringify st ops))))
            settings) with (app_subject svc).
  apply String.eqb_neq in Hne. rewrite Hne, Hrt.
  apply reparse_settings; [exact defaultApp_inv | exact Hinv].
Qed.

(** Whatever the storage holds at page load and whatever the calls and the
    storage events of other tabs bring, the settings the service holds have
    each key once, and every key of the defaults. *)
Theorem settings_fields_complete json_parse json_stringify st ops (k : string) :
  let svc := run_settings json_parse json_stringify st ops in
  NoDup (map fst (app_subject svc)) /\ NoDup (map fst (budget_subject svc)) /\
  (assoc k defaultAppSettings <> None -> assoc k (app_subject svc) <> None) /\
  (assoc k defaultBudgetSettings <> None -> assoc k (budget_subject svc) <> None).
Proof.
  intros svc. destruct (run_settings_inv json_parse json_stringify st ops) as [[Ha Ha'] [Hb Hb']].
  split; [exact Ha |]. split; [exact Hb |]. split; [apply Ha' | apply Hb'].
Qed.

Lemma settings_fields_complete_witness :
  let svc := run_settings sample_json_parse sample_json_stringify
               [(APP_SETTINGS_KEY, "[object Object]")] sample_settings_ops in
  assoc "currency" defaultAppSettings <> None /\ assoc "currency" (app_subject svc) <> None.
Proof.
  intros svc. split; [discriminate |].
  apply (settings_fields_complete sample_json_parse sample_json_stringify
           [(APP_SETTINGS_KEY, "[object Object]")] sample_settings_ops "currency").
  discriminate.
Defined.

(** A tab that receives the storage event of another tab's
    updateAppSettings ends up with that tab's settings, field by field, when
    JSON.parse reads back what JSON.stringify wrote. *)
Theorem settings_storage_event_sync json_parse json_stringify stA opsA stB opsB (settings : jsval) :
  let A := updateAppSettings json_stringify (run_settings json_parse json_stringify stA opsA) settings in
  let B := run_settings json_parse json_stringify stB opsB in
  json_stringify (JObject (app_subject A)) <> "" ->
  json_parse (json_stringify (JObject (app_subject A))) = Ok (JObject (app_subject A)) ->
  forall k, assoc k (app_subject (handleStorageChange json_parse B (Some APP_SETTINGS_KEY)
                                    (lookup APP_SETTINGS_KEY (storage A)))) =
            assoc k (app_subject A).
Proof.
  intros A B Hne Hrt k.
  assert (Hinv : settings_inv defaultAppSettings (app_subject A)).
  { unfold A, updateAppSettings; cbn [app_subject].
    apply spread_into_inv, copy_inv, run_settings_inv. }
  change (storage A) with (ls_set APP_SETTINGS_KEY (json_stringify (JObject (app_subject A)))
                             (storage (run_settings json_parse json_stringify stA opsA))).
  rewrite lookup_ls_set.
  unfold handleStorageChange. apply String.eqb_neq in Hne. rewrite Hne.
  cbv beta iota zeta delta [negb andb]. rewrite String.eqb_refl. cbn [andb]. rewrite Hrt. cbn [app_subject].
  apply reparse_settings; [exact defaultApp_inv | exact Hinv].
Qed.

Lemma settings_storage_event_sync_witness :
  let A := updateAppSettings sample_json_stringify
             (run_settings sample_json_parse sample_json_stringify [] []) sample_settings_patch in
  let B := run_settings sample_json_parse sample_json_stringify
             [(APP_SETTINGS_KEY, "garbage")] sample_settings_ops in
  json_stringify_ok_for sample_json_parse sample_json_stringify A /\
  assoc "currency" (app_subject (handleStorageChange sample_json_parse B (Some APP_SETTINGS_KEY)
                                   (lookup APP_SETTINGS_KEY (storage A)))) =
  assoc "currency" (app_subject A).
Proof.
  intros A B.
  assert (H1 : sample_json_stringify (JObject (app_subject A)) <> "") by (vm_compute; discriminate).
  assert (H2 : sample_json_parse (sample_json_stringify (JObject (app_subject A))) =
               Ok (JObject (app_subject A))) by (vm_compute; reflexivity).
  split; [split; assumption |].
  exact (settings_storage_event_sync sample_json_parse sample_json_stringify [] []
           [(APP_SETTINGS_KEY, "garbage")] sample_settings_ops sample_settings_patch H1 H2 "currency").
Defined.

Lemma settings_reload_after_update_witness :
  let svc := updateAppSettings sample_json_stringify
               (run_settings sample_json_parse sample_json_stringify [] []) sample_settings_patch in
  json_stringify_ok_for sample_json_parse sample_json_stringify svc /\
  assoc "theme" (app_subject (newSettingsService sample_json_parse (storage svc))) =
  assoc "theme" (app_subject svc).
Proof.
  intros svc.
  assert (H1 : sample_json_stringify (JObject (app_subject svc)) <> "") by (vm_compute; discriminate).
  assert (H2 : sample_json_parse (sample_json_stringify (JObject (app_subject svc))) =
               Ok (JObject (app_subject svc))) by (vm_compute; reflexivity).
  split; [split; assumption |].
  exact (settings_reload_after_update sample_json_parse sample_json_stringify [] []
           sample_settings_patch H1 H2 "theme").
Defined.

Lemma lookup_ls_remove (k k' : string) (st : list (string * string)) :
  (k = k' \/ lookup k st = None) -> lookup k (ls_remove k' st) = None.
Proof.
  intros H. induction st as [| [k1 v1] st IH]; [reflexivity |].
  unfold ls_remove in *. cbn [filter fst lookup] in *.
  destruct (String.eqb k1 k') eqn:E1; cbn [negb lookup].
  - apply IH. destruct H as [H | H]; [left; exact H |].
    destruct (String.eqb k k1); [discriminate H | right; exact H].
  - destruct (String.eqb k k1) eqn:E2.
    + exfalso. apply String.eqb_eq in E2. subst k1.
      destruct H as [H | H]; [subst k'; rewrite String.eqb_refl in E1; discriminate E1 |].
      discriminate H.
    + apply IH. destruct H as [H | H]; [left; exact H | right; exact H].
Qed.

(** After resetToDefaults, reloading the page gives back exactly the
    state in memory: the defaults. *)
Theorem reset_then_reload json_parse (svc : SettingsService) :
  newSettingsService json_parse (storage (resetToDefaults svc)) = resetToDefaults svc.
Proof.
  unfold newSettingsService, loadAppSettings, loadBudgetSettings, load_settings, resetToDefaults.
  cbn [storage].
  rewrite (lookup_ls_remove APP_SETTINGS_KEY BUDGET_SETTINGS_KEY)
    by (right; apply lookup_ls_remove; left; reflexivity).
  rewrite (lookup_ls_remove BUDGET_SETTINGS_KEY BUDGET_SETTINGS_KEY) by (left; reflexivity).
  reflexivity.
Qed.

(** ** CategoryStatsComponent helpers *)

Lemma lookup_some_key (k : string) (t : list (string * string)) (v : string) :
  lookup k t = Some v -> In k (map fst t).
Proof.
  induction t as [|[k' v'] t IH]; simpl; [discriminate|].
  destruct (String.eqb k k') eqn:E.
  - intros _. left. symmetry. apply String.eqb_eq. exact E.
  - intros H. right. exact (IH H).
Qed.

Lemma existsb_eqb_in (k : string) (xs : list string) :
  existsb (String.eqb k) xs = true <-> In k xs.
Proof.
  rewrite existsb_exists. split.
  - intros [x [Hx E]]. apply String.eqb_eq in E. subst. exact Hx.
  - intros H. exists k. split; [exact H | apply String.eqb_refl].
Qed.

Lemma keys_not_inherited (t : list (string * string)) (k : string) :
  forallb (fun k => negb (existsb (String.eqb k) object_prototype_members)) (map fst t) = true ->
  In k (map fst t) -> ~ In k object_prototype_members.
Proof.
  intros Hall Hk Hm. rewrite forallb_forall in Hall.
  specialize (Hall k Hk). apply existsb_eqb_in in Hm. rewrite Hm in Hall. discriminate.
Qed.

(** The shared shape of the two lookups: a table whose keys are not
    inherited members, read with a string default. *)
Lemma record_index_inherited (t : list (string * string)) (d k : string) :
  forallb (fun k => negb (existsb (String.eqb k) object_prototype_members)) (map fst t) = true ->
  ((forall s, match record_index t k with Some v => v | None => PropString d end <> PropString s)
   <-> In k object_prototype_members).
Proof.
  intros Hkeys. unfold record_index.
  destruct (lookup k t) as [v|] eqn:El.
  - split.
    + intros H. exfalso. exact (H v eq_refl).
    + intros Hm. exfalso. exact (keys_not_inherited t k Hkeys (lookup_some_key k t v El) Hm).
  - destruct (existsb (String.eqb k) object_prototype_members) eqn:Em.
    + split; [intros _; apply existsb_eqb_in; exact Em | intros _ s; discriminate].
    + split.
      * intros H. exfalso. exact (H d eq_refl).
      * intros Hm. apply existsb_eqb_in in Hm. rewrite Hm in Em. discriminate.
Qed.

Lemma find_lower (bs : option BudgetSettings) (n1 n2 : string) :
  toLowerCase n1 = toLowerCase n2 -> find_budget_category bs n1 = find_budget_category bs n2.
Proof. intros H. unfold find_budget_category. rewrite H. reflexivity. Qed.

Open Scope float_scope.

Lemma ltb_leb (x y : float) : (x <? y) = true -> (x <=? y) = true.
Proof.
  rewrite FloatAxioms.ltb_spec, FloatAxioms.leb_spec. unfold SFltb, SFleb.
  destruct (SFcompare (Prim2SF x) (Prim2SF y)) as [[]|]; congruence.
Qed.

Lemma ltb_eqb (x y : float) : (x <? y) = true -> (x =? y) = false.
Proof.
  rewrite FloatAxioms.ltb_spec, FloatAxioms.eqb_spec. unfold SFltb, SFeqb.
  destruct (SFcompare (Prim2SF x) (Prim2SF y)) as [[]|]; congruence.
Qed.

Lemma leb_eqb_ltb (x y : float) : (x <=? y) = true -> (x =? y) = false -> (x <? y) = true.
Proof.
  rewrite FloatAxioms.ltb_spec, FloatAxioms.leb_spec, FloatAxioms.eqb_spec. unfold SFltb, SFleb, SFeqb.
  destruct (SFcompare (Prim2SF x) (Prim2SF y)) as [[]|]; congruence.
Qed.

Lemma ltb_not_nan (x y : float) : (x <? y) = true -> PrimFloat.is_nan x = false.
Proof.
  unfold PrimFloat.is_nan. rewrite FloatAxioms.ltb_spec, FloatAxioms.eqb_spec.
  intros H. rewrite SFeqb_refl; [reflexivity|].
  intros E. rewrite E in H. discriminate H.
Qed.

Lemma shiftl_div_self (m : positive) :
  Z.div_eucl (Z.shiftl (Zpos m) 53) (Zpos m) = (Z.pow 2 53, 0%Z).
Proof.
  rewrite Z.shiftl_mul_pow2 by lia.
  assert (Hq : (Zpos m * 2 ^ 53 / Zpos m = 2 ^ 53)%Z) by (rewrite Z.mul_comm; apply Z.div_mul; lia).
  assert (Hr : (Zpos m * 2 ^ 53 mod Zpos m = 0)%Z) by (rewrite Z.mul_comm; apply Z.mod_mul; lia).
  unfold Z.div, Z.modulo in Hq, Hr.
  destruct (Z.div_eucl (Zpos m * 2 ^ 53) (Zpos m)) as [q r]. subst. reflexivity.
Qed.

Lemma new_location_exact (m : positive) : new_location (Zpos m) 0%Z = loc_Exact.
Proof.
  unfold new_location, new_location_even, new_location_odd.
  destruct (Z.even (Zpos m)); reflexivity.
Qed.

(** A finite positive number divided by itself is exactly 1. *)
Lemma div_self (x : float) :
  PrimFloat.is_finite x = true -> (0 <? x) = true -> x / x = 1.
Proof.
  intros Hf Hp.
  apply is_finite_sf in Hf.
  rewrite <- (FloatAxioms.SF2Prim_Prim2SF (x / x)), <- (FloatAxioms.SF2Prim_Prim2SF 1).
  f_equal. rewrite FloatAxioms.div_spec.
  rewrite FloatAxioms.ltb_spec in Hp.
  destruct (Prim2SF x) as [s|s| |s m e]; try contradiction.
  - destruct s; discriminate Hp.
  - unfold SF64div, SFdiv, SFdiv_core_binary.
    rewrite Z.add_comm, !Z.sub_diag.
    replace (Z.min (fexp prec emax 0) 0) with (-53)%Z by reflexivity.
    change (0 - -53)%Z with 53%Z. cbv beta iota zeta.
    rewrite shiftl_div_self, Bool.xorb_nilpotent, new_location_exact. vm_compute. reflexivity.
Qed.

Lemma pos_not_zero (x : float) : (0 <? x) = true -> (x =? 0) = false.
Proof.
  rewrite FloatAxioms.ltb_spec, FloatAxioms.eqb_spec.
  change (Prim2SF 0) with (S754_zero false).
  destruct (Prim2SF x) as [[]|[]| |[] m e]; vm_compute; congruence.
Qed.

(** [category_alert_threshold] is at most 0 exactly when a threshold
    below 0 is configured. *)
Lemma alert_threshold_nonpos (bs : option BudgetSettings) :
  (category_alert_threshold bs <=? 0) = true <->
  exists s, bs = Some s /\ (alertThreshold s <? 0) = true.
Proof.
  destruct bs as [s|]; simpl.
  - destruct (num_truthy (alertThreshold s)) eqn:Et.
    + unfold num_truthy in Et. apply andb_true_iff in Et as [Hn He].
      apply negb_true_iff in He. split.
      * intros H. exists s. split; [reflexivity|]. exact (leb_eqb_ltb _ _ H He).
      * intros [s' [E H]]. injection E as <-. exact (ltb_leb _ _ H).
    + split; [intros H; vm_compute in H; discriminate H|].
      intros [s' [E H]]. injection E as <-.
      unfold num_truthy in Et. rewrite (ltb_not_nan _ _ H), (ltb_eqb _ _ H) in Et. discriminate Et.
  - split; [intros H; vm_compute in H; discriminate H|]. intros [s [E _]]. discriminate E.
Qed.

Close Scope float_scope.

(** ** TransactionsComponent filters and categories *)

Lemma includes_empty (s : string) : includes s "" = true.
Proof. destruct s; reflexivity. Qed.

Lemma mem_set_values_from (seen xs : list string) (x : string) :
  In x (set_values_from seen xs) <-> In x xs /\ ~ In x seen.
Proof.
  revert seen. induction xs as [|y xs IH]; intros seen; simpl.
  - tauto.
  - destruct (existsb (String.eqb y) seen) eqn:E.
    + rewrite IH. apply existsb_eqb_in in E. split.
      * intros [H1 H2]. tauto.
      * intros [[<- | H1] H2]; [contradiction | tauto].
    + simpl. rewrite IH. simpl.
      assert (~ In y seen) by (intros H; apply existsb_eqb_in in H; congruence).
      split.
      * intros [<- | [H1 H2]]; [tauto | tauto].
      * intros [[<- | H1] H2]; [left; reflexivity|].
        destruct (String.eqb_spec y x) as [<- | Hne]; [left; reflexivity|].
        right. split; [exact H1|]. intros [E' | E']; [exact (Hne E') | exact (H2 E')].
Qed.

Lemma set_values_from_nodup (seen xs : list string) : NoDup (set_values_from seen xs).
Proof.
  revert seen. induction xs as [|y xs IH]; intros seen; simpl.
  - constructor.
  - destruct (existsb (String.eqb y) seen); [apply IH|].
    constructor; [|apply IH].
    rewrite mem_set_values_from. intros [_ H]. apply H. left. reflexivity.
Qed.

Lemma set_values_from_prefix (p ys seen : list string) :
  NoDup p -> (forall x, In x p -> ~ In x seen) ->
  exists rest, set_values_from seen (p ++ ys)%list = (p ++ rest)%list.
Proof.
  revert seen. induction p as [|a p IH]; intros seen Hnd Hdis; simpl.
  - exists (set_values_from seen ys). reflexivity.
  - inversion Hnd as [|a' p' Ha Hp]; subst.
    destruct (existsb (String.eqb a) seen) eqn:E.
    + apply existsb_eqb_in in E. exfalso. exact (Hdis a (or_introl eq_refl) E).
    + destruct (IH (a :: seen) Hp) as [rest Hr].
      * intros x Hx [<- | Hs]; [exact (Ha Hx) | exact (Hdis x (or_intror Hx) Hs)].
      * exists rest. rewrite Hr. reflexivity.
Qed.

Lemma default_expense_nodup : NoDup default_expense_categories.
Proof.
  unfold default_expense_categories.
  repeat (constructor; [cbn; intros H; repeat (destruct H as [H | H]; [discriminate H |]); exact H |]).
  constructor.
Qed.

Lemma merged_inv (cs names : list string) :
  expense_inv cs -> expense_inv (set_values (cs ++ names)%list).
Proof.
  intros [_ [rest ->]]. split; [apply set_values_from_nodup|].
  rewrite <- app_assoc. unfold set_values.
  apply set_values_from_prefix; [exact default_expense_nodup | intros x _ []].
Qed.

Lemma category_step_inv (cs : list string) (ev : CategoryEvent) :
  expense_inv cs -> expense_inv (category_step cs ev).
Proof.
  intros H. destruct ev as [bs|bs]; simpl;
    unfold loadSettings_expense, budgetSettingsChanged_expense;
    destruct (categories bs) as [|c cats]; try exact H.
  - apply merged_inv. exact H.
  - apply merged_inv. split; [exact default_expense_nodup | exists []; symmetry; apply app_nil_r].
Qed.

Lemma category_step_origin (cs : list string) (ev : CategoryEvent) (x : string) :
  In x (category_step cs ev) ->
  In x cs \/ In x default_expense_categories \/ In x (map bc_name (categories (event_settings ev))).
Proof.
  destruct ev as [bs|bs]; simpl; unfold loadSettings_expense, budgetSettingsChanged_expense;
    destruct (categories bs) as [|c cats]; try tauto;
    unfold set_values; rewrite mem_set_values_from, in_app_iff; tauto.
Qed.

Lemma run_category_origin (evs : list CategoryEvent) : forall (cs : list string) (x : string),
  In x (fold_left category_step evs cs) ->
  In x cs \/ In x default_expense_categories \/
  exists ev, In ev evs /\ In x (map bc_name (categories (event_settings ev))).
Proof.
  induction evs as [|ev evs IH]; intros cs x H; simpl in *; [tauto|].
  destruct (IH _ _ H) as [H1 | [H1 | [ev' [Hev Hx]]]].
  - destruct (category_step_origin cs ev x H1) as [H2 | [H2 | H2]]; [tauto | tauto |].
    right. right. exists ev. tauto.
  - tauto.
  - right. right. exists ev'. tauto.
Qed.

Lemma run_category_inv (evs : list CategoryEvent) : forall cs,
  expense_inv cs -> expense_inv (fold_left category_step evs cs).
Proof.
  induction evs as [|ev evs IH]; intros cs H; simpl; [exact H|].
  apply IH, category_step_inv, H.
Qed.


(** getCategoryIcon and getCategoryColor read an object literal with
    [o[k] ?? default]: for a category named after a member of
    Object.prototype ("constructor", "toString", "__proto__", ...) the
    lookup finds the inherited member, which is not nullish, so both return
    it instead of a string; for every other category both return a string. *)
Theorem category_icon_color_inherited (category : string) :
  ((forall s, getCategoryIcon category <> PropString s) <-> In category object_prototype_members) /\
  ((forall s, getCategoryColor category <> PropString s) <-> In category object_prototype_members).
Proof.
  split.
  - unfold getCategoryIcon. destruct (String.eqb category "") eqn:E.
    + apply String.eqb_eq in E. subst. split.
      * intros H. exfalso. exact (H _ eq_refl).
      * intros H. exfalso. apply existsb_eqb_in in H. vm_compute in H. discriminate H.
    + apply record_index_inherited. vm_compute. reflexivity.
  - apply record_index_inherited. vm_compute. reflexivity.
Qed.

(** The budget lookups of CategoryStatsComponent match the category name
    without regard to ASCII case: two names with the same lower-case form
    get the same budget, spent amount, utilisation, status and remaining
    budget. *)
Theorem category_budget_case_insensitive (bs : option BudgetSettings) (n1 n2 : string)
  (H : toLowerCase n1 = toLowerCase n2) :
  getCategoryBudget bs n1 = getCategoryBudget bs n2 /\
  getCategorySpent bs n1 = getCategorySpent bs n2 /\
  getCategoryBudgetUtilization bs n1 = getCategoryBudgetUtilization bs n2 /\
  getCategoryBudgetStatus bs n1 = getCategoryBudgetStatus bs n2 /\
  getCategoryRemainingBudget bs n1 = getCategoryRemainingBudget bs n2.
Proof.
  unfold getCategoryBudgetStatus, getCategoryRemainingBudget, getCategoryBudgetUtilization,
    getCategoryBudget, getCategorySpent.
  rewrite (find_lower bs n1 n2 H). repeat split.
Qed.

Lemma category_budget_case_insensitive_witness :
  toLowerCase "Food" = toLowerCase "FOOD" /\
  getCategoryBudgetStatus (Some (sample_budget 3000 80
    [{| bc_name := "food"; bc_budget := float_of_Z 200; bc_spent := float_of_Z 190 |}])) "Food" =
  getCategoryBudgetStatus (Some (sample_budget 3000 80
    [{| bc_name := "food"; bc_budget := float_of_Z 200; bc_spent := float_of_Z 190 |}])) "FOOD".
Proof.
  split; [reflexivity|].
  apply (category_budget_case_insensitive _ "Food" "FOOD"). reflexivity.
Defined.

(** A category without a positive budget (none configured, or a budget of
    0 or less) has utilisation 0: it is never over budget nor 'danger', and
    it is 'warning' exactly when the configured alert threshold is below 0
    (a threshold of 0 or NaN falls back to 80); otherwise it is 'safe'. *)
Theorem unbudgeted_category_status (bs : option BudgetSettings) (categoryName : string)
  (H : (getCategoryBudget bs categoryName <=? 0)%float = true) :
  isCategoryOverBudget bs categoryName = false /\
  getCategoryBudgetStatus bs categoryName <> "danger" /\
  (getCategoryBudgetStatus bs categoryName = "warning" <->
   exists s, bs = Some s /\ (alertThreshold s <? 0)%float = true).
Proof.
  assert (Hu : getCategoryBudgetUtilization bs categoryName = 0%float)
    by (unfold getCategoryBudgetUtilization; rewrite H; reflexivity).
  unfold isCategoryOverBudget, getCategoryBudgetStatus. rewrite Hu.
  change (100 <=? 0)%float with false. cbv beta iota zeta.
  rewrite <- alert_threshold_nonpos.
  destruct (category_alert_threshold bs <=? 0)%float.
  - repeat split; discriminate.
  - repeat split; discriminate.
Qed.

Lemma unbudgeted_category_status_witness :
  (getCategoryBudget (Some (sample_budget 3000 (-5) [])) "Rent" <=? 0)%float = true /\
  getCategoryBudgetStatus (Some (sample_budget 3000 (-5) [])) "Rent" <> "danger".
Proof.
  split; [vm_compute; reflexivity|].
  apply (unbudgeted_category_status (Some (sample_budget 3000 (-5) [])) "Rent").
  vm_compute. reflexivity.
Defined.

(** In getBarHeight the bar of the largest amount is exactly 100 high: when
    every entry of [monthlyData] has an [amount] and their maximum is a
    finite positive number, the height of that maximum is 100 (the
    division of the maximum by itself is exact). *)
Theorem getBarHeight_max_is_100 (to_number : jsval -> jsnum) (monthlyData amounts : list jsval)
  (Ha : bar_amounts monthlyData = Ok amounts)
  (Hf : PrimFloat.is_finite (math_max to_number amounts) = true)
  (Hp : (0 <? math_max to_number amounts)%float = true) :
  getBarHeight to_number (math_max to_number amounts) (Some monthlyData) = Ok 100%float.
Proof.
  destruct monthlyData as [|m ms].
  - cbn in Ha. injection Ha as <-. vm_compute in Hf. discriminate Hf.
  - unfold getBarHeight. rewrite Ha. cbn [bind].
    rewrite (pos_not_zero _ Hp), (div_self _ Hf Hp). reflexivity.
Qed.

Lemma getBarHeight_max_is_100_witness :
  getBarHeight sample_to_number (float_of_Z 120) (Some sample_monthly_data) = Ok 100%float.
Proof.
  exact (getBarHeight_max_is_100 sample_to_number sample_monthly_data
           [JNumber (float_of_Z 40); JNumber (float_of_Z 120); JNumber (float_of_Z 75)]
           eq_refl eq_refl eq_refl).
Defined.

(** With the component's initial filters (empty search, type and category
    'all', no dates) applyFilters keeps every transaction exactly when every
    description is a string; a single non-string description (a number or
    object the backend sent) makes [description.toLowerCase] throw, and the
    category is never read. *)
Theorem applyFilters_initial (time_of : date_src -> jsnum) (parse_date : string -> jsnum)
  (transactions : list Transaction) :
  match applyFilters time_of parse_date initialFilters transactions with
  | Ok filtered => filtered = transactions /\
                   forallb (fun t => is_js_string (tx_description t)) transactions = true
  | Throw _ => forallb (fun t => is_js_string (tx_description t)) transactions = false
  end.
Proof.
  unfold applyFilters.
  induction transactions as [|t ts IH]; [split; reflexivity|].
  cbn [filterM forallb]. unfold matchesSearch.
  destruct (tx_description t) eqn:Ed; cbn [lower_of bind is_js_string andb]; try reflexivity.
  rewrite includes_empty. cbn [bind].
  unfold matchesType, matchesCategory, matchesDate. cbn [searchTerm selectedType selectedCategory
    dateRange_start dateRange_end String.eqb Ascii.eqb Bool.eqb orb andb].
  destruct (filterM _ ts) as [r|e]; cbn [bind].
  - destruct IH as [-> ->]. split; reflexivity.
  - exact IH.
Qed.

(** The expense categories of TransactionsComponent, after any run of
    loadSettings() calls and budget settings emissions, start with the six
    default categories, hold no duplicate, and hold only defaults and names
    of the budget categories of those settings. *)
Theorem expense_categories_invariant (evs : list CategoryEvent) :
  NoDup (run_category_events evs) /\
  (exists rest, run_category_events evs = (default_expense_categories ++ rest)%list) /\
  (forall x, In x (run_category_events evs) ->
   In x default_expense_categories \/
   exists ev, In ev evs /\ In x (map bc_name (categories (event_settings ev)))).
Proof.
  destruct (run_category_inv evs default_expense_categories) as [Hnd Hpre].
  - split; [exact default_expense_nodup | exists []; symmetry; apply app_nil_r].
  - split; [exact Hnd|]. split; [exact Hpre|].
    intros x Hx. destruct (run_category_origin evs _ x Hx) as [H | [H | H]]; tauto.
Qed.

(** After loadSettings() or a budget settings emission whose settings list
    categories, every one of their names is an expense category. *)
Theorem expense_categories_include_budget_names (expense : list string) (ev : CategoryEvent) :
  incl (map bc_name (categories (event_settings ev))) (category_step expense ev).
Proof.
  intros x Hx. destruct ev as [bs|bs]; simpl in *;
    unfold loadSettings_expense, budgetSettingsChanged_expense;
    destruct (categories bs) as [|c cats]; [contradiction | | contradiction |];
    unfold set_values; apply mem_set_values_from; rewrite in_app_iff; tauto.
Qed.
